(** * WA_ID_Finder: the fuzzy identity-resolution engine

    A shallow embedding of the three matching scripts
    [fuzzy_match.py], [fuzzy_match2.py] and [fuzzymatch_3.py].

    Conventions of the embedding.
    - Python numbers (the [int] scores of fuzzywuzzy, the [float] scores of
      RapidFuzz and every weighted score) are exact rationals [Q]; the
      literals [0.7], [0.3] and [0.9] are the rationals 7/10, 3/10 and 9/10.
      Scores are compared with [==] ([Qeq]).  Rounding is left out: the
      product [0.7 * 90], which binary64 rounds just below 63, is 63 here.
    - The birth date of a reference record is the string produced by
      [strftime('%Y-%m-%d')], or [None] when the cell is empty:
      [option string].  The birth date of an athlete is the cell of the
      column [Birth_date_str]: the string produced by [strftime], or, when
      the cell [Birth_date] is empty, the float [nan] that [strftime] leaves
      there.  What the functions take for [athlete_birth_date] is a
      [pyvalue]: a [str], [None] or [nan].  The tests
      [if athlete_birth_date] are Python truthiness: [None] and the empty
      string are false, [nan] is true; [nan] is equal to nothing.
    - A name cell of the sheet [Athlete] holds a string or is empty
      ([AthleteRow]).  An [Athlete] is a row whose two name cells are
      filled, so that [Full_Name] is a string.  For a row with an empty name
      cell [Full_Name] is [nan], where the matching functions take a string;
      the embedding of fuzzy_match2.py stops at the first such row
      ([Nan_name]): what pandas and the matching library do with [nan] in
      the place of a name is not embedded.
    - [wa_athletes_dict] is a Python [dict]: an association list in
      insertion order whose keys are kept unique by [PyDict.set].
    - A subscript [d[k]] on a missing key raises [KeyError]: the functions
      that subscript a dictionary return a [result].
    - The similarity backend ([fuzz.token_sort_ratio] of fuzzywuzzy or of
      RapidFuzz) is not part of the repository: it is a parameter
      [scorer] of the engine. *)

From Stdlib Require Import List String ZArith QArith Qminmax Bool Lia Lqa.
Import ListNotations.

Open Scope string_scope.
Open Scope Q_scope.

(** ** Python values *)

Definition date := string.

(** A [str] or [None], or the float [nan]. *)
Inductive pyvalue : Type :=
| Value (v : option date)
| NaN.

#[warning="-uniform-inheritance"]
Coercion Value : option >-> pyvalue.

(** [bool(x)] for [x] a [str], [None] or [nan]. *)
Definition truthy (x : pyvalue) : bool :=
  match x with
  | Value (Some s) => negb (String.eqb s "")
  | Value None => false
  | NaN => true
  end.

(** [x == y] for [x], [y] a [str], [None] or [nan]. *)
Definition py_eqb (x y : pyvalue) : bool :=
  match x, y with
  | Value (Some a), Value (Some b) => String.eqb a b
  | Value None, Value None => true
  | _, _ => false
  end.

Arguments truthy x : simpl nomatch.
Arguments py_eqb x y : simpl nomatch.

(** [x > y] on numbers. *)
Definition Qgt_bool (x y : Q) : bool := negb (Qle_bool x y).

(** [x >= y] on numbers. *)
Definition Qge_bool (x y : Q) : bool := Qle_bool y x.

(** Outcome of code that subscripts a dictionary. *)
Inductive result (A : Type) : Type :=
| Ok (a : A)
| KeyError (k : string).
Arguments Ok {A} a.
Arguments KeyError {A} k.

Definition bind {A B : Type} (r : result A) (f : A -> result B) : result B :=
  match r with
  | Ok a => f a
  | KeyError k => KeyError k
  end.

Notation "x <- r ;; k" := (bind r (fun x => k))
  (at level 61, r at next level, right associativity).

(** ** Python dictionaries, in insertion order *)

Module PyDict.

Section Dict.
Context {V : Type}.

Definition t := list (string * V).

(** [d[k] = v]: an existing key keeps its position and takes the new
    value, a new key goes last. *)
Fixpoint set (k : string) (v : V) (d : t) : t :=
  match d with
  | [] => [(k, v)]
  | (k', v') :: d' =>
      if String.eqb k' k then (k', v) :: d' else (k', v') :: set k v d'
  end.

Fixpoint get (k : string) (d : t) : option V :=
  match d with
  | [] => None
  | (k', v') :: d' => if String.eqb k' k then Some v' else get k d'
  end.

(** [d[k]], raising [KeyError] on a missing key. *)
Definition subscript (d : t) (k : string) : result V :=
  match get k d with
  | Some v => Ok v
  | None => KeyError k
  end.

Definition keys (d : t) : list string := map fst d.

(** [{k: v for k, v in items}]. *)
Definition of_items (items : list (string * V)) : t :=
  fold_left (fun acc kv => set (fst kv) (snd kv) acc) items [].

(** [{k: v for k, v in d.items() if p(k, v)}]. *)
Definition comprehension (p : string -> V -> bool) (d : t) : t :=
  of_items (filter (fun kv => p (fst kv) (snd kv)) d).

End Dict.

Arguments t : clear implicits.

End PyDict.

(** ** The two tables *)

(** A row of the sheet [WorldAthletics_codes], its birth date already
    formatted ([birth_date_str], [None] when the cell is empty). *)
Record WaRow : Type := mkWaRow {
  Name : string;
  ID : Z;
  birthDate : option date;
  urlSlug : string;
  disciplines : string
}.

(** A value of [wa_athletes_dict]. *)
Record WaData : Type := mkWaData {
  wd_ID : Z;
  wd_birthDate : option date;
  wd_urlSlug : string;
  wd_disciplines : string
}.

Definition wa_data_of (row : WaRow) : WaData :=
  mkWaData (ID row) (birthDate row) (urlSlug row) (disciplines row).

(** A row of [athletes_without_wa] whose name cells are filled. *)
Record Athlete : Type := mkAthlete {
  First_name : string;
  Last_name : string;
  Birth_date_str : pyvalue
}.

Definition Full_Name (a : Athlete) : string :=
  First_name a ++ " " ++ Last_name a.

Definition Full_Name_Reversed (a : Athlete) : string :=
  Last_name a ++ " " ++ First_name a.

(** The loop that fills [wa_athletes_dict] and [wa_names_list]. *)
Definition prepare_step (st : PyDict.t WaData * list string) (row : WaRow)
  : PyDict.t WaData * list string :=
  (PyDict.set (Name row) (wa_data_of row) (fst st), (snd st ++ [Name row])%list).

Definition prepare (wa_codes_df : list WaRow) : PyDict.t WaData * list string :=
  fold_left prepare_step wa_codes_df ([], []).

Definition wa_athletes_dict (wa_codes_df : list WaRow) : PyDict.t WaData :=
  fst (prepare wa_codes_df).

Definition wa_names_list (wa_codes_df : list WaRow) : list string :=
  snd (prepare wa_codes_df).

(** The record of [wa_codes_df] that comes last among those named [n]. *)
Definition last_named (n : string) (wa_codes_df : list WaRow) : option WaRow :=
  find (fun row => String.eqb (Name row) n) (rev wa_codes_df).

(** ** A best match: the dictionary built in the matching functions *)

Record Match : Type := mkMatch {
  Matched_Name : string;
  Matched_ID : Z;
  Matched_Birth_Date : option date;
  Name_Match_Score : Q;
  Birth_Date_Match_Score : Q;
  Combined_Match_Score : Q
}.

(** A row of the sheet [Athlete]: the cells [First_name], [Last_name],
    [Birth_date] and [WA_no].  [None] is an empty cell; a filled cell
    [Birth_date] holds the date as [strftime] writes it. *)
Record AthleteRow : Type := mkAthleteRow {
  First_name_cell : option string;
  Last_name_cell : option string;
  Birth_date : option date;
  WA_no : option Z
}.

(** The column [Birth_date_str]: [strftime] leaves [nan] for an empty
    cell. *)
Definition strftime (birth_date : option date) : pyvalue :=
  match birth_date with
  | Some s => Value (Some s)
  | None => NaN
  end.

(** The row with the columns [Full_Name], [Full_Name_Reversed] and
    [Birth_date_str]; [None] when a name cell is empty: the sum of the
    strings is then [nan]. *)
Definition athlete_of (row : AthleteRow) : option Athlete :=
  match First_name_cell row, Last_name_cell row with
  | Some first_name, Some last_name =>
      Some (mkAthlete first_name last_name (strftime (Birth_date row)))
  | _, _ => None
  end.

(** [df.iterrows()] on a frame with the default index, from the label [i]. *)
Fixpoint iterrows_from {A : Type} (i : nat) (df : list A) : list (nat * A) :=
  match df with
  | [] => []
  | row :: df' => (i, row) :: iterrows_from (S i) df'
  end.

Definition iterrows {A : Type} (df : list A) : list (nat * A) :=
  iterrows_from 0 df.

(** [athlete_df[athlete_df['WA_no'].isna()]]: the rows keep their index. *)
Definition athletes_without_wa (athlete_df : list AthleteRow)
  : list (nat * AthleteRow) :=
  filter (fun ir => match WA_no (snd ir) with
                    | None => true
                    | Some _ => false
                    end)
    (iterrows athlete_df).

(** How a run over the sheet [Athlete] ends in the embedding: as a [result],
    or not followed further than the row of index [idx], a row without
    [WA_no] that has an empty name cell.  The full name of such a row is
    [nan], where [process.extract] takes a string; what the libraries do
    with it is not embedded. *)
Inductive outcome (A : Type) : Type :=
| Finished (r : result A)
| Nan_name (idx : nat).

Arguments Finished {A} r.
Arguments Nan_name {A} idx.

(** ** The candidate generator

    Modelled from the spec: [process.extract] of fuzzywuzzy and RapidFuzz is
    a library function.  Section 4.2 of the specification fixes its
    contract: every choice is scored against the query, the choices are
    ordered by descending score with ties in pool order, and the first
    [limit] are returned. *)

Section Extract.
Variable scorer : string -> string -> Q.

Definition extractWithoutOrder (query : string) (choices : list string)
  : list (string * Q) :=
  map (fun choice => (choice, scorer query choice)) choices.

(** Insertion that keeps [x] in front of the entries it ties with. *)
Fixpoint insert_desc (x : string * Q) (l : list (string * Q))
  : list (string * Q) :=
  match l with
  | [] => [x]
  | y :: l' =>
      if Qgt_bool (snd y) (snd x) then y :: insert_desc x l' else x :: y :: l'
  end.

Definition sort_desc (l : list (string * Q)) : list (string * Q) :=
  fold_right insert_desc [] l.

Definition extract (query : string) (choices : list string) (limit : nat)
  : list (string * Q) :=
  firstn limit (sort_desc (extractWithoutOrder query choices)).
End Extract.

(** A [for] loop whose body may raise. *)
Fixpoint for_each {S A : Type} (body : S -> A -> result S) (l : list A) (st : S)
  : result S :=
  match l with
  | [] => Ok st
  | x :: l' => st' <- body st x ;; for_each body l' st'
  end.

(** The confidence bands written to [WA_Match_Confidence]. *)
Inductive Confidence : Type := High | Medium | Low.

(** [df.loc[idx, ...] = ...] on a frame with the default index: the row at
    position [idx] is rewritten, the others are left alone. *)
Fixpoint loc_set {A : Type} (idx : nat) (f : A -> A) (df : list A) : list A :=
  match df, idx with
  | [], _ => []
  | row :: df', O => f row :: df'
  | row :: df', S i => row :: loc_set i f df'
  end.

(** ** fuzzy_match2.py *)

Module FuzzyMatch2.

Section Matching.
Variable scorer : string -> string -> Q.

(** Body of the loop of [find_best_match_name_first]; the state is
    [(best_match, best_combined_score)]. *)
Definition name_first_body (athlete_birth_date : pyvalue)
    (wa_dict : PyDict.t WaData)
    (st : option Match * Q) (m : string * Q) : result (option Match * Q) :=
  let match_name := fst m in
  let name_score := snd m in
  wa_data <- PyDict.subscript wa_dict match_name ;;
  let wa_birth_date := wd_birthDate wa_data in
  let birth_date_score :=
    if truthy athlete_birth_date && truthy wa_birth_date
    then (if py_eqb athlete_birth_date wa_birth_date then 100 else 0)
    else 0 in
  let combined_score :=
    if truthy athlete_birth_date && truthy wa_birth_date
    then 0.7 * name_score + 0.3 * birth_date_score
    else name_score in
  if Qgt_bool combined_score (snd st)
  then Ok (Some (mkMatch match_name (wd_ID wa_data) (wd_birthDate wa_data)
                   name_score birth_date_score combined_score),
           combined_score)
  else Ok st.

Definition find_best_match_name_first (athlete_name : string)
    (athlete_birth_date : pyvalue) (wa_names : list string)
    (wa_dict : PyDict.t WaData) : result (option Match) :=
  let matches := extract scorer athlete_name wa_names 5 in
  st <- for_each (name_first_body athlete_birth_date wa_dict) matches (None, 0) ;;
  Ok (fst st).

(** The pool of [find_best_match_birth_first]. *)
Definition candidates_of (athlete_birth_date : pyvalue)
    (wa_dict : PyDict.t WaData) : PyDict.t WaData :=
  if truthy athlete_birth_date
  then PyDict.comprehension
         (fun name data => py_eqb (wd_birthDate data) athlete_birth_date)
         wa_dict
  else wa_dict.

(** Body of the loop of [find_best_match_birth_first]; the state is
    [(best_match, best_score)]. *)
Definition birth_first_body (candidates : PyDict.t WaData)
    (st : option Match * Q) (m : string * Q) : result (option Match * Q) :=
  let match_name := fst m in
  let name_score := snd m in
  let combined_score := 0.7 * 100 + 0.3 * name_score in
  if Qgt_bool combined_score (snd st)
  then
    data <- PyDict.subscript candidates match_name ;;
    Ok (Some (mkMatch match_name (wd_ID data) (wd_birthDate data)
                name_score 100 combined_score),
        combined_score)
  else Ok st.

Definition find_best_match_birth_first (athlete_birth_date : pyvalue)
    (athlete_name : string) (wa_dict : PyDict.t WaData)
  : result (option Match) :=
  let candidates := candidates_of athlete_birth_date wa_dict in
  match candidates with
  | [] => Ok None
  | _ :: _ =>
      let candidate_names := PyDict.keys candidates in
      let matches := extract scorer athlete_name candidate_names 5 in
      st <- for_each (birth_first_body candidates) matches (None, 0) ;;
      Ok (fst st)
  end.

(** The choice between the two name formats:
    [a if a[score] >= b[score] else b] when both exist, else [a or b]. *)
Definition best_of_formats (a b : option Match) : option Match :=
  match a, b with
  | Some ma, Some mb =>
      if Qge_bool (Combined_Match_Score ma) (Combined_Match_Score mb)
      then a else b
  | Some _, None => a
  | None, _ => b
  end.

(** "Combine the results": [(final_match, overall_score)]. *)
Definition combine (best_match1 best_match2 : option Match)
  : option Match * option Q :=
  match best_match1, best_match2 with
  | Some m1, Some m2 =>
      if Z.eqb (Matched_ID m1) (Matched_ID m2)
      then (Some m1,
            Some ((Combined_Match_Score m1 + Combined_Match_Score m2) / 2))
      else if Qge_bool (Combined_Match_Score m1) (Combined_Match_Score m2)
      then (Some m1, Some (Combined_Match_Score m1 * 0.9))
      else (Some m2, Some (Combined_Match_Score m2 * 0.9))
  | Some m1, None => (Some m1, Some (Combined_Match_Score m1))
  | None, Some m2 => (Some m2, Some (Combined_Match_Score m2))
  | None, None => (None, None)
  end.

(** An element of [results]. *)
Record ResultRow : Type := mkResultRow {
  Athlete_Index : nat;
  Athlete_Name : string;
  Athlete_Birth_Date : pyvalue;
  A1_Matched_Name : option string;
  A1_Matched_ID : option Z;
  A1_Match_Score : option Q;
  A2_Matched_Name : option string;
  A2_Matched_ID : option Z;
  A2_Match_Score : option Q;
  Final_Matched_Name : string;
  Final_Matched_ID : Z;
  Final_Matched_Birth_Date : option date;
  Overall_Match_Score : option Q
}.

Definition strategy1 (athlete : Athlete) (wa_names : list string)
    (wa_dict : PyDict.t WaData) : result (option Match) :=
  match1a <- find_best_match_name_first (Full_Name athlete)
               (Birth_date_str athlete) wa_names wa_dict ;;
  match1b <- find_best_match_name_first (Full_Name_Reversed athlete)
               (Birth_date_str athlete) wa_names wa_dict ;;
  Ok (best_of_formats match1a match1b).

Definition strategy2 (athlete : Athlete) (wa_dict : PyDict.t WaData)
  : result (option Match) :=
  match2a <- find_best_match_birth_first (Birth_date_str athlete)
               (Full_Name athlete) wa_dict ;;
  match2b <- find_best_match_birth_first (Birth_date_str athlete)
               (Full_Name_Reversed athlete) wa_dict ;;
  Ok (best_of_formats match2a match2b).

(** Body of the matching loop: what it appends to [results]. *)
Definition match_athlete (idx : nat) (athlete : Athlete)
    (wa_names : list string) (wa_dict : PyDict.t WaData)
  : result (option ResultRow) :=
  best_match1 <- strategy1 athlete wa_names wa_dict ;;
  best_match2 <- strategy2 athlete wa_dict ;;
  let (final_match, overall_score) := combine best_match1 best_match2 in
  match final_match with
  | Some fm =>
      Ok (Some (mkResultRow idx (Full_Name athlete) (Birth_date_str athlete)
                  (option_map Matched_Name best_match1)
                  (option_map Matched_ID best_match1)
                  (option_map Combined_Match_Score best_match1)
                  (option_map Matched_Name best_match2)
                  (option_map Matched_ID best_match2)
                  (option_map Combined_Match_Score best_match2)
                  (Matched_Name fm) (Matched_ID fm) (Matched_Birth_Date fm)
                  overall_score))
  | None => Ok None
  end.
End Matching.

(** The columns added to [athlete_df]. *)
Record Columns : Type := mkColumns {
  WA_Matched_Name : option string;
  WA_Matched_Birth_Date : option date;
  WA_Matched_ID : option Z;
  WA_Match_Score : option Q;
  WA_A1_Match_Score : option Q;
  WA_A2_Match_Score : option Q;
  WA_Match_Confidence : option Confidence;
  WA_Recommended : bool;
  WA_Recommended_ID : option Z
}.

(** "Create/initialize new columns". *)
Definition blank : Columns :=
  mkColumns None None None None None None None false None.

(** Body of the loop over [results_df], on the row [idx]. *)
Definition write_match (m : ResultRow) (row : Columns) : Columns :=
  let confidence_recommended :=
    match Overall_Match_Score m with
    | Some score =>
        if Qge_bool score 90 then (Some High, true)
        else if Qge_bool score 70 then (Some Medium, true)
        else (Some Low, false)
    | None => (WA_Match_Confidence row, WA_Recommended row)
    end in
  mkColumns (Some (Final_Matched_Name m)) (Final_Matched_Birth_Date m)
    (Some (Final_Matched_ID m)) (Overall_Match_Score m)
    (A1_Match_Score m) (A2_Match_Score m)
    (fst confidence_recommended) (snd confidence_recommended)
    (WA_Recommended_ID row).

(** The mask [athlete_df['WA_Match_Score'] >= 90], false on an empty cell. *)
Definition high_mask (row : Columns) : bool :=
  match WA_Match_Score row with
  | Some score => Qge_bool score 90
  | None => false
  end.

(** The column [WA_Recommended_ID], row by row. *)
Definition write_recommended_id (row : Columns) : Columns :=
  mkColumns (WA_Matched_Name row) (WA_Matched_Birth_Date row)
    (WA_Matched_ID row) (WA_Match_Score row)
    (WA_A1_Match_Score row) (WA_A2_Match_Score row)
    (WA_Match_Confidence row) (WA_Recommended row)
    (if high_mask row then WA_Matched_ID row else None).

(** The updated frame, from [results] and the number of rows of
    [athlete_df]. *)
Definition update_frame (results : list ResultRow) (rows : nat) : list Columns :=
  map write_recommended_id
    (fold_left (fun df m => loc_set (Athlete_Index m) (write_match m) df)
       results (repeat blank rows)).

(** The row of an athlete for whom the loop appended [m]. *)
Definition final_row (m : ResultRow) : Columns :=
  write_recommended_id (write_match m blank).

(** One athlete through the whole script. *)
Definition resolve (scorer : string -> string -> Q) (idx : nat)
    (athlete : Athlete) (wa_codes_df : list WaRow) : result Columns :=
  r <- match_athlete scorer idx athlete
         (wa_names_list wa_codes_df) (wa_athletes_dict wa_codes_df) ;;
  Ok (match r with
      | Some m => final_row m
      | None => write_recommended_id blank
      end).

(** The matching loop over the rows of [athletes_without_wa], from the
    list [results] built so far: [results] after the last row. *)
Fixpoint matching_loop (scorer : string -> string -> Q)
    (athletes : list (nat * AthleteRow)) (wa_names : list string)
    (wa_dict : PyDict.t WaData) (results : list ResultRow)
  : outcome (list ResultRow) :=
  match athletes with
  | [] => Finished (Ok results)
  | (idx, row) :: rest =>
      match athlete_of row with
      | None => Nan_name idx
      | Some athlete =>
          match match_athlete scorer idx athlete wa_names wa_dict with
          | Ok r =>
              matching_loop scorer rest wa_names wa_dict
                (match r with
                 | Some m => (results ++ [m])%list
                 | None => results
                 end)
          | KeyError k => Finished (KeyError k)
          end
      end
  end.

(** The script, from the two sheets to the columns added to [athlete_df]. *)
Definition script (scorer : string -> string -> Q)
    (athlete_df : list AthleteRow) (wa_codes_df : list WaRow)
  : outcome (list Columns) :=
  match matching_loop scorer (athletes_without_wa athlete_df)
          (wa_names_list wa_codes_df) (wa_athletes_dict wa_codes_df) [] with
  | Finished (Ok results) =>
      Finished (Ok (update_frame results (List.length athlete_df)))
  | Finished (KeyError k) => Finished (KeyError k)
  | Nan_name idx => Nan_name idx
  end.

(** [len(athlete_df[athlete_df[column] == value])]. *)
Definition count_rows (p : Columns -> bool) (df : list Columns) : nat :=
  List.length (filter p df).

Definition has_confidence (c : Confidence) (row : Columns) : bool :=
  match WA_Match_Confidence row, c with
  | Some High, High | Some Medium, Medium | Some Low, Low => true
  | _, _ => false
  end.

(** [athlete_df['WA_Match_Score'] == 100], false on an empty cell. *)
Definition is_perfect (row : Columns) : bool :=
  match WA_Match_Score row with
  | Some score => Qeq_bool score 100
  | None => false
  end.

(** The column [Count] of the sheet [Matching_Summary]. *)
Record Summary : Type := mkSummary {
  Total_athletes : nat;
  With_existing_WA_no : nat;
  Without_WA_no : nat;
  High_confidence : nat;
  Medium_confidence : nat;
  Low_confidence : nat;
  Perfect_matches : nat
}.

Definition summary (athlete_df : list Columns) (without_wa : nat) : Summary :=
  mkSummary (List.length athlete_df)
    (List.length athlete_df - without_wa)
    without_wa
    (count_rows (has_confidence High) athlete_df)
    (count_rows (has_confidence Medium) athlete_df)
    (count_rows (has_confidence Low) athlete_df)
    (count_rows is_perfect athlete_df).

End FuzzyMatch2.

(** ** fuzzy_match.py *)

Module FuzzyMatch.

Section Matching.
Variable scorer : string -> string -> Q.

(** Body of the loop of [find_best_match]; the state is
    [(best_match, best_score, best_combined_score)]. *)
Definition find_best_match_body (athlete_birth_date : pyvalue)
    (wa_dict : PyDict.t WaData)
    (st : option Match * Q * Q) (m : string * Q)
  : result (option Match * Q * Q) :=
  let match_name := fst m in
  let name_score := snd m in
  wa_data <- PyDict.subscript wa_dict match_name ;;
  let wa_birth_date := wd_birthDate wa_data in
  let birth_date_score :=
    if truthy athlete_birth_date && truthy wa_birth_date
    then (if py_eqb athlete_birth_date wa_birth_date then 100 else 0)
    else 0 in
  let combined_score :=
    if truthy athlete_birth_date && truthy wa_birth_date
    then 0.7 * name_score + 0.3 * birth_date_score
    else name_score in
  if Qgt_bool combined_score (snd st)
  then Ok (Some (mkMatch match_name (wd_ID wa_data) (wd_birthDate wa_data)
                   name_score birth_date_score combined_score),
           name_score, combined_score)
  else Ok st.

Definition find_best_match (athlete_name : string)
    (athlete_birth_date : pyvalue) (wa_names : list string)
    (wa_dict : PyDict.t WaData) : result (option Match) :=
  let matches := extract scorer athlete_name wa_names 5 in
  st <- for_each (find_best_match_body athlete_birth_date wa_dict) matches
          (None, 0, 0) ;;
  Ok (fst (fst st)).

(** "Choose the better match". *)
Definition choose (match1 match2 : option Match) : option Match :=
  match match1, match2 with
  | Some m1, Some m2 =>
      if Qge_bool (Combined_Match_Score m1) (Combined_Match_Score m2)
      then match1 else match2
  | Some _, None => match1
  | None, Some _ => match2
  | None, None => None
  end.
End Matching.

(** The columns added to [athlete_df]. *)
Record Columns : Type := mkColumns {
  WA_Matched_Name : option string;
  WA_Matched_Birth_Date : option date;
  WA_Matched_ID : option Z;
  WA_Match_Score : option Q;
  WA_Match_Confidence : option Confidence;
  WA_Recommended : bool;
  WA_Recommended_ID : option Z
}.

Definition blank : Columns := mkColumns None None None None None false None.

(** Body of the loop over [results_df], for the best match [m]. *)
Definition write_match (m : Match) (row : Columns) : Columns :=
  let score := Combined_Match_Score m in
  let confidence_recommended :=
    if Qge_bool score 90 then (High, true)
    else if Qge_bool score 70 then (Medium, true)
    else (Low, false) in
  mkColumns (Some (Matched_Name m)) (Matched_Birth_Date m)
    (Some (Matched_ID m)) (Some score)
    (Some (fst confidence_recommended)) (snd confidence_recommended)
    (WA_Recommended_ID row).

Definition high_mask (row : Columns) : bool :=
  match WA_Match_Score row with
  | Some score => Qge_bool score 90
  | None => false
  end.

Definition write_recommended_id (row : Columns) : Columns :=
  mkColumns (WA_Matched_Name row) (WA_Matched_Birth_Date row)
    (WA_Matched_ID row) (WA_Match_Score row)
    (WA_Match_Confidence row) (WA_Recommended row)
    (if high_mask row then WA_Matched_ID row else None).

Definition final_row (m : Match) : Columns :=
  write_recommended_id (write_match m blank).

End FuzzyMatch.

(** ** fuzzymatch_3.py *)

Module FuzzyMatch3.

Section Matching.
(** The backend of the [_fw] or of the [_rf] functions; the two families
    differ in nothing else (RapidFuzz returns triples whose third
    component, the index, is dropped). *)
Variable scorer : string -> string -> Q.

Definition name_first_body (athlete_birth_date : pyvalue)
    (wa_dict : PyDict.t WaData)
    (st : option Match * Q) (m : string * Q) : result (option Match * Q) :=
  let match_name := fst m in
  let name_score := snd m in
  wa_data <- PyDict.subscript wa_dict match_name ;;
  let wa_birth_date := wd_birthDate wa_data in
  let birth_date_score :=
    if truthy athlete_birth_date && truthy wa_birth_date
       && py_eqb athlete_birth_date wa_birth_date
    then 100 else 0 in
  let combined_score :=
    if truthy athlete_birth_date && truthy wa_birth_date
    then 0.7 * name_score + 0.3 * birth_date_score
    else name_score in
  if Qgt_bool combined_score (snd st)
  then Ok (Some (mkMatch match_name (wd_ID wa_data) (wd_birthDate wa_data)
                   name_score birth_date_score combined_score),
           combined_score)
  else Ok st.

Definition find_best_match_name_first (athlete_name : string)
    (athlete_birth_date : pyvalue) (wa_names : list string)
    (wa_dict : PyDict.t WaData) : result (option Match) :=
  let matches := extract scorer athlete_name wa_names 5 in
  st <- for_each (name_first_body athlete_birth_date wa_dict) matches (None, 0) ;;
  Ok (fst st).

Definition birth_first_body (candidates : PyDict.t WaData)
    (st : option Match * Q) (m : string * Q) : result (option Match * Q) :=
  let match_name := fst m in
  let name_score := snd m in
  let combined_score := 0.7 * 100 + 0.3 * name_score in
  if Qgt_bool combined_score (snd st)
  then
    data <- PyDict.subscript candidates match_name ;;
    Ok (Some (mkMatch match_name (wd_ID data) (wd_birthDate data)
                name_score 100 combined_score),
        combined_score)
  else Ok st.

Definition find_best_match_birth_first (athlete_birth_date : pyvalue)
    (athlete_name : string) (wa_dict : PyDict.t WaData)
  : result (option Match) :=
  let candidates :=
    if truthy athlete_birth_date
    then PyDict.comprehension
           (fun name data => py_eqb (wd_birthDate data) athlete_birth_date)
           wa_dict
    else wa_dict in
  match candidates with
  | [] => Ok None
  | _ :: _ =>
      let candidate_names := PyDict.keys candidates in
      let matches := extract scorer athlete_name candidate_names 5 in
      st <- for_each (birth_first_body candidates) matches (None, 0) ;;
      Ok (fst st)
  end.

(** [a if (a and (not b or a[score] >= b[score])) else b]. *)
Definition best_of_formats (a b : option Match) : option Match :=
  match a with
  | Some ma =>
      match b with
      | None => a
      | Some mb =>
          if Qge_bool (Combined_Match_Score ma) (Combined_Match_Score mb)
          then a else b
      end
  | None => b
  end.

(** The per-backend combination: the text of fuzzy_match2.py. *)
Definition combine : option Match -> option Match -> option Match * option Q :=
  FuzzyMatch2.combine.

(** One backend on one athlete: [(final_match, overall_score)]. *)
Definition backend (athlete : Athlete) (wa_names : list string)
    (wa_dict : PyDict.t WaData) : result (option Match * option Q) :=
  match1a <- find_best_match_name_first (Full_Name athlete)
               (Birth_date_str athlete) wa_names wa_dict ;;
  match1b <- find_best_match_name_first (Full_Name_Reversed athlete)
               (Birth_date_str athlete) wa_names wa_dict ;;
  let best_match1 := best_of_formats match1a match1b in
  match2a <- find_best_match_birth_first (Birth_date_str athlete)
               (Full_Name athlete) wa_dict ;;
  match2b <- find_best_match_birth_first (Birth_date_str athlete)
               (Full_Name_Reversed athlete) wa_dict ;;
  let best_match2 := best_of_formats match2a match2b in
  Ok (combine best_match1 best_match2).
End Matching.

(** An element of [results]; [Overall_Score] and [Confidence] are the
    columns added afterwards. *)
Record ResultRow : Type := mkResultRow {
  Athlete_Index : nat;
  Athlete_Name : string;
  Athlete_Birth_Date : pyvalue;
  FW_Matched_Name : option string;
  FW_Matched_ID : option Z;
  FW_Overall_Score : option Q;
  RF_Matched_Name : option string;
  RF_Matched_ID : option Z;
  RF_Overall_Score : option Q
}.

(** Body of the matching loop, with the two backends. *)
Definition match_athlete (fw_scorer rf_scorer : string -> string -> Q)
    (idx : nat) (athlete : Athlete) (wa_names : list string)
    (wa_dict : PyDict.t WaData) : result ResultRow :=
  fw <- backend fw_scorer athlete wa_names wa_dict ;;
  rf <- backend rf_scorer athlete wa_names wa_dict ;;
  Ok (mkResultRow idx (Full_Name athlete) (Birth_date_str athlete)
        (option_map Matched_Name (fst fw)) (option_map Matched_ID (fst fw))
        (snd fw)
        (option_map Matched_Name (fst rf)) (option_map Matched_ID (fst rf))
        (snd rf)).

(** [np.mean(scores)] on a non-empty list. *)
Definition mean (scores : list Q) : Q :=
  fold_right Qplus 0 scores / inject_Z (Z.of_nat (List.length scores)).

(** [avg_score]; [None] stands for [np.nan]. *)
Definition avg_score (row : ResultRow) : option Q :=
  let scores := [] in
  let scores :=
    match FW_Overall_Score row with
    | Some s => (scores ++ [s])%list
    | None => scores
    end in
  let scores :=
    match RF_Overall_Score row with
    | Some s => (scores ++ [s])%list
    | None => scores
    end in
  match scores with
  | [] => None
  | _ :: _ => Some (mean scores)
  end.

(** [get_confidence]. *)
Definition get_confidence (score : option Q) : option Confidence :=
  match score with
  | None => None
  | Some s =>
      if Qge_bool s 90 then Some High
      else if Qge_bool s 70 then Some Medium
      else Some Low
  end.

(** The cross-backend aggregation as the specification words it: the rule
    of the strategy-level aggregator, applied to the two backends' matched
    ids and final scores. *)
Definition spec_backend_aggregate (row : ResultRow) : option Q :=
  match FW_Overall_Score row, RF_Overall_Score row with
  | Some s1, Some s2 =>
      if match FW_Matched_ID row, RF_Matched_ID row with
         | Some i1, Some i2 => Z.eqb i1 i2
         | None, None => true
         | _, _ => false
         end
      then Some ((s1 + s2) / 2)
      else Some (Qmax s1 s2 * 0.9)
  | Some s1, None => Some s1
  | None, Some s2 => Some s2
  | None, None => None
  end.

(** The matching loop, on rows whose name cells are filled: one element of
    [results] per athlete. *)
Definition matching_loop (fw_scorer rf_scorer : string -> string -> Q)
    (athletes : list (nat * Athlete)) (wa_names : list string)
    (wa_dict : PyDict.t WaData) : result (list ResultRow) :=
  for_each
    (fun results ia =>
       r <- match_athlete fw_scorer rf_scorer (fst ia) (snd ia)
              wa_names wa_dict ;;
       Ok (results ++ [r])%list)
    athletes [].

(** The columns [Overall_Score] and [Confidence] of [results_df]. *)
Definition Overall_Score (row : ResultRow) : option Q := avg_score row.

Definition Confidence_of (row : ResultRow) : option Confidence :=
  get_confidence (Overall_Score row).

Definition has_confidence (c : Confidence) (row : ResultRow) : bool :=
  match Confidence_of row, c with
  | Some High, High | Some Medium, Medium | Some Low, Low => true
  | _, _ => false
  end.

(** [results_df['Overall_Score'] == 100], false on [nan]. *)
Definition is_perfect (row : ResultRow) : bool :=
  match Overall_Score row with
  | Some score => Qeq_bool score 100
  | None => false
  end.

(** The summary counts:
    [(total_athletes, high_count, medium_count, low_count, perfect_count)]. *)
Record Summary : Type := mkSummary {
  total_athletes : nat;
  high_count : nat;
  medium_count : nat;
  low_count : nat;
  perfect_count : nat
}.

(** What a frame without columns makes of the assignment
    [results_df['Overall_Score'] = results_df.apply(avg_score, axis=1)]. *)
Inductive ValueError : Type :=
| Cannot_set_a_frame_with_no_defined_columns.

(** The summary report.  With no result at all [results_df] has no column,
    and the assignment of [Overall_Score] raises before any count. *)
Definition summary (results_df : list ResultRow) : Summary + ValueError :=
  match results_df with
  | [] => inr Cannot_set_a_frame_with_no_defined_columns
  | _ :: _ =>
      inl (mkSummary (List.length results_df)
             (List.length (filter (has_confidence High) results_df))
             (List.length (filter (has_confidence Medium) results_df))
             (List.length (filter (has_confidence Low) results_df))
             (List.length (filter is_perfect results_df)))
  end.

End FuzzyMatch3.

(** ** Sample data *)

(** A backend that tells equal names from different ones.  On a name and
    itself [token_sort_ratio] is 100 as well, and on two names without a
    common character it is 0. *)
Definition exact_scorer (a b : string) : Q :=
  if String.eqb a b then 100 else 0.

Definition sample_registry : list WaRow :=
  [ mkWaRow "Ali Hassan" 123 (Some "2000-01-05") "ali-hassan" "100m";
    mkWaRow "Xyz" 7 (Some "1998-03-02") "xyz" "LJ";
    mkWaRow "Ali Hassan" 456 (Some "1999-09-09") "ali-hassan-2" "HJ" ].

Definition pair_registry : list WaRow :=
  [ mkWaRow "Xyz" 7 (Some "1998-03-02") "xyz" "LJ";
    mkWaRow "Ali Hassan" 123 (Some "2000-01-05") "ali-hassan" "100m" ].

Definition ali_registry : list WaRow :=
  [ mkWaRow "Ali Hassan" 123 (Some "2000-01-05") "ali-hassan" "100m" ].

(** What the name-first function builds for "Ali Hassan", whose birth date
    cell is empty, and the record "Ali Hassan" of [ali_registry]. *)
Definition undated_match : Match :=
  mkMatch "Ali Hassan" 123 (Some "2000-01-05") 100 0 (0.7 * 100 + 0.3 * 0).

Definition xyz_registry : list WaRow :=
  [ mkWaRow "Xyz" 7 (Some "1998-03-02") "xyz" "LJ" ].

(** What the birth date-first function builds for ["ab cd"] and the record
    ["Xyz"]. *)
Definition xyz_match : Match :=
  mkMatch "Xyz" 7 (Some "1998-03-02") 0 100 (0.7 * 100 + 0.3 * 0).

(** Best matches of two strategies that disagree (ids 5 and 9) and of two
    that agree (id 5). *)
Definition match_5_92 : Match := mkMatch "Ab" 5 None 92 0 92.
Definition match_9_88 : Match := mkMatch "Cd" 9 None 88 0 88.
Definition match_5_88 : Match := mkMatch "Ab" 5 None 88 0 88.

(** A row of [results] of fuzzy_match2.py for two strategies that
    disagree: [92 * 0.9]. *)
Definition disagreeing_result : FuzzyMatch2.ResultRow :=
  FuzzyMatch2.mkResultRow 0 "ab cd" (Some "2005-07-01")
    (Some "Ab") (Some 5%Z) (Some 92) (Some "Cd") (Some 9%Z) (Some 88)
    "Ab" 5 None (Some 82.8).

(** A row of [results] of fuzzymatch_3.py for two backends that disagree. *)
Definition disagreeing_backends : FuzzyMatch3.ResultRow :=
  FuzzyMatch3.mkResultRow 0 "ab cd" (Some "2005-07-01")
    (Some "Ab") (Some 5%Z) (Some 92) (Some "Cd") (Some 9%Z) (Some 88).

(** What the name-first function builds for "Ali Hassan", born 2000-01-05,
    out of [sample_registry]: the record of id 456 has replaced the one of
    id 123. *)
Definition duplicate_match : Match :=
  mkMatch "Ali Hassan" 456 (Some "1999-09-09") 100 0 (0.7 * 100 + 0.3 * 0).

(** What the matching loop of fuzzy_match2.py appends for [hassan_ali]
    against [pair_registry]. *)
Definition hassan_ali_result : FuzzyMatch2.ResultRow :=
  FuzzyMatch2.mkResultRow 0 "Hassan Ali" (Some "2000-01-05")
    (Some "Ali Hassan") (Some 123%Z) (Some (0.7 * 100 + 0.3 * 100))
    (Some "Ali Hassan") (Some 123%Z) (Some (0.7 * 100 + 0.3 * 100))
    "Ali Hassan" 123 (Some "2000-01-05")
    (Some ((0.7 * 100 + 0.3 * 100 + (0.7 * 100 + 0.3 * 100)) / 2)).

Definition hassan_ali : Athlete := mkAthlete "Hassan" "Ali" (Some "2000-01-05").
Definition ab_cd_2005 : Athlete := mkAthlete "ab" "cd" (Some "2005-07-01").

(** What the name-first function builds for "Ali Hassan", born
    2000-01-05, out of [pair_registry]. *)
Definition hassan_ali_match : Match :=
  mkMatch "Ali Hassan" 123 (Some "2000-01-05") 100 100 (0.7 * 100 + 0.3 * 100).

(** The same for the name format "Hassan Ali", whose name score is 0. *)
Definition hassan_ali_match_0 : Match :=
  mkMatch "Ali Hassan" 123 (Some "2000-01-05") 0 100 (0.7 * 0 + 0.3 * 100).

(** An athlete whose birth date no record of [pair_registry] has, and what
    the matching loop of fuzzy_match2.py appends for that athlete. *)
Definition ali_hassan_2005 : Athlete :=
  mkAthlete "Ali" "Hassan" (Some "2005-07-01").

Definition ali_hassan_2005_result : FuzzyMatch2.ResultRow :=
  FuzzyMatch2.mkResultRow 0 "Ali Hassan" (Some "2005-07-01")
    (Some "Ali Hassan") (Some 123%Z) (Some (0.7 * 100 + 0.3 * 0))
    None None None
    "Ali Hassan" 123 (Some "2000-01-05") (Some (0.7 * 100 + 0.3 * 0)).

(** A sheet [Athlete] of two rows, the second with a [WA_no]. *)
Definition sample_athletes : list AthleteRow :=
  [ mkAthleteRow (Some "Hassan") (Some "Ali") (Some "2000-01-05") None;
    mkAthleteRow (Some "ab") (Some "cd") (Some "2005-07-01")
      (Some 14000000%Z) ].

(** A sheet [Athlete] whose second row has no last name and no [WA_no]. *)
Definition unnamed_athletes : list AthleteRow :=
  [ mkAthleteRow (Some "Hassan") (Some "Ali") (Some "2000-01-05") None;
    mkAthleteRow (Some "ab") None (Some "2005-07-01") None ].

(** ** Vocabulary of the proofs *)

(** The two loops replace the match they hold by a candidate whose combined
    score is strictly greater, starting from no match and the score 0.
    [keep_best] is that loop on the candidates already built. *)
Definition keep_step (st : option Match * Q) (c : Match) : option Match * Q :=
  if Qgt_bool (Combined_Match_Score c) (snd st)
  then (Some c, Combined_Match_Score c)
  else st.

Definition keep_best (cs : list Match) (st : option Match * Q)
  : option Match * Q :=
  fold_left keep_step cs st.

(** The candidate that [find_best_match_name_first] builds for the entry [m]
    of [matches] whose record is [data]. *)
Definition name_first_candidate (athlete_birth_date : pyvalue)
    (data : WaData) (m : string * Q) : Match :=
  let both := truthy athlete_birth_date && truthy (wd_birthDate data) in
  let birth_date_score :=
    if both
    then (if py_eqb athlete_birth_date (wd_birthDate data) then 100 else 0)
    else 0 in
  mkMatch (fst m) (wd_ID data) (wd_birthDate data) (snd m) birth_date_score
    (if both then 0.7 * snd m + 0.3 * birth_date_score else snd m).

(** The candidate that [find_best_match_birth_first] builds. *)
Definition birth_first_candidate (data : WaData) (m : string * Q) : Match :=
  mkMatch (fst m) (wd_ID data) (wd_birthDate data) (snd m) 100
    (0.7 * 100 + 0.3 * snd m).

(** [cs] are the candidates of [matches], looked up in [d]. *)
Definition candidates_for (mk : WaData -> string * Q -> Match)
    (d : PyDict.t WaData) (matches : list (string * Q)) (cs : list Match)
  : Prop :=
  Forall2 (fun m c => exists data, PyDict.get (fst m) d = Some data
                                   /\ c = mk data m) matches cs.

(** What a loop that appends the results of [f] has appended at the end,
    when [f] does not raise. *)
Fixpoint collect {A B : Type} (f : A -> result (option B)) (l : list A)
  : list B :=
  match l with
  | [] => []
  | x :: l' =>
      match f x with
      | Ok (Some m) => m :: collect f l'
      | _ => collect f l'
      end
  end.

(** A returned match is the record that the dictionary holds for its name. *)
Definition held_record (rows : list WaRow) (m : Match) : Prop :=
  exists row,
    last_named (Matched_Name m) rows = Some row /\
    Matched_ID m = ID row /\ Matched_Birth_Date m = birthDate row.

(** The cell [WA_Match_Score] is filled. *)
Definition has_score (row : FuzzyMatch2.Columns) : bool :=
  match FuzzyMatch2.WA_Match_Score row with
  | Some _ => true
  | None => false
  end.

(** The cell [WA_Recommended_ID] is filled. *)
Definition has_recommended_id (row : FuzzyMatch2.Columns) : bool :=
  match FuzzyMatch2.WA_Recommended_ID row with
  | Some _ => true
  | None => false
  end.

(** The cell [WA_no] is empty. *)
Definition no_wa (row : AthleteRow) : bool :=
  match WA_no row with
  | None => true
  | Some _ => false
  end.

(** What the counts of the summary need of a row. *)
Definition countable (row : FuzzyMatch2.Columns) : Prop :=
  (Nat.b2n (FuzzyMatch2.has_confidence High row)
   + Nat.b2n (FuzzyMatch2.has_confidence Medium row)
   + Nat.b2n (FuzzyMatch2.has_confidence Low row)
   = Nat.b2n (has_score row))%nat /\
  (FuzzyMatch2.is_perfect row = true ->
   FuzzyMatch2.has_confidence High row = true) /\
  (Nat.b2n (FuzzyMatch2.WA_Recommended row)
   = Nat.b2n (FuzzyMatch2.has_confidence High row)
     + Nat.b2n (FuzzyMatch2.has_confidence Medium row))%nat /\
  has_recommended_id row = FuzzyMatch2.has_confidence High row.

(** The cell [Overall_Score] of a row of fuzzymatch_3.py is not [nan]. *)
Definition has_overall (row : FuzzyMatch3.ResultRow) : bool :=
  match FuzzyMatch3.Overall_Score row with
  | Some _ => true
  | None => false
  end.

(** Equality of optional scores. *)
Definition option_Qeq (a b : option Q) : Prop :=
  match a, b with
  | Some x, Some y => x == y
  | None, None => True
  | _, _ => False
  end.

(** The state of a loop records the score of the match it holds. *)
Definition coherent (st : option Match * Q) : Prop :=
  match fst st with
  | Some m => snd st = Combined_Match_Score m /\ 0 < snd st
  | None => snd st = 0
  end.

(** * Proofs *)

(** ** Comparisons *)

Lemma Qgt_bool_true (x y : Q) : Qgt_bool x y = true <-> y < x.
Proof.
  unfold Qgt_bool. rewrite negb_true_iff.
  destruct (Qle_bool x y) eqn:E.
  - apply Qle_bool_iff in E. split; [discriminate | intro; lra].
  - split; [intros _ | reflexivity].
    apply Qnot_le_lt. intro H. apply Qle_bool_iff in H. congruence.
Qed.

Lemma Qgt_bool_false (x y : Q) : Qgt_bool x y = false <-> x <= y.
Proof.
  unfold Qgt_bool. rewrite negb_false_iff. apply Qle_bool_iff.
Qed.

Lemma Qge_bool_true (x y : Q) : Qge_bool x y = true <-> y <= x.
Proof. unfold Qge_bool. apply Qle_bool_iff. Qed.

Lemma Qge_bool_false (x y : Q) : Qge_bool x y = false <-> x < y.
Proof.
  unfold Qge_bool. destruct (Qle_bool y x) eqn:E.
  - apply Qle_bool_iff in E. split; [discriminate | intro; lra].
  - split; [intros _ | reflexivity].
    apply Qnot_le_lt. intro H. apply Qle_bool_iff in H. congruence.
Qed.

Lemma truthy_Some (x : option string) :
  truthy x = true -> exists s, x = Some s.
Proof. destruct x; [eauto | discriminate]. Qed.

Lemma py_eqb_eq (x y : option string) : py_eqb x y = true <-> x = y.
Proof.
  destruct x, y; simpl; try (split; congruence).
  rewrite String.eqb_eq. split; congruence.
Qed.

(** Only a [str] or [None] is equal to the birth date of a record. *)
Lemma py_eqb_Value (x : pyvalue) (y : option date) :
  py_eqb x y = true <-> x = Value y.
Proof.
  destruct x as [x|]; [|split; discriminate].
  change (py_eqb (Value x) (Value y)) with (py_eqb x y).
  rewrite py_eqb_eq. split; congruence.
Qed.

Lemma py_eqb_Value_l (y : option date) (x : pyvalue) :
  py_eqb y x = true <-> x = Value y.
Proof.
  destruct x as [x|]; [|destruct y; split; discriminate].
  change (py_eqb (Value y) (Value x)) with (py_eqb y x).
  rewrite py_eqb_eq. split; congruence.
Qed.

Lemma py_eqb_NaN (y : pyvalue) : py_eqb NaN y = false /\ py_eqb y NaN = false.
Proof. destruct y as [[s|]|]; split; reflexivity. Qed.

(** ** Dictionaries *)

Module PyDictFacts.
Import PyDict.

Section Facts.
Context {V : Type}.
Implicit Types (d : PyDict.t V) (k : string) (v : V).

Lemma get_set k k' v d :
  get k (set k' v d) = if String.eqb k' k then Some v else get k d.
Proof.
  induction d as [|[k0 v0] d IH]; simpl.
  - reflexivity.
  - destruct (String.eqb k0 k') eqn:E0; simpl.
    + apply String.eqb_eq in E0. subst k0.
      destruct (String.eqb k' k); reflexivity.
    + destruct (String.eqb k0 k) eqn:E1.
      * apply String.eqb_eq in E1. subst k0.
        rewrite String.eqb_sym, E0. reflexivity.
      * exact IH.
Qed.

Lemma get_In k v d : get k d = Some v -> In (k, v) d.
Proof.
  induction d as [|[k0 v0] d IH]; simpl; [discriminate|].
  destruct (String.eqb k0 k) eqn:E.
  - apply String.eqb_eq in E. intros [= ->]. subst. now left.
  - intro H. right. now apply IH.
Qed.

Lemma get_None k d : get k d = None <-> ~ In k (keys d).
Proof.
  induction d as [|[k0 v0] d IH]; simpl.
  - tauto.
  - destruct (String.eqb k0 k) eqn:E.
    + apply String.eqb_eq in E. split; [discriminate | intro H; tauto].
    + apply String.eqb_neq in E. rewrite IH. tauto.
Qed.

Lemma In_get k v d : NoDup (keys d) -> In (k, v) d -> get k d = Some v.
Proof.
  induction d as [|[k0 v0] d IH]; simpl; [tauto|].
  intros ND [H | H]; inversion ND as [|? ? Hn ND']; subst.
  - injection H as -> ->. now rewrite String.eqb_refl.
  - destruct (String.eqb k0 k) eqn:E.
    + apply String.eqb_eq in E. subst k0. exfalso. apply Hn.
      change k with (fst (k, v)). now apply in_map.
    + now apply IH.
Qed.

Lemma keys_set k v d :
  keys (set k v d) =
  match get k d with
  | Some _ => keys d
  | None => (keys d ++ [k])%list
  end.
Proof.
  unfold keys.
  induction d as [|[k0 v0] d IH]; simpl; [reflexivity|].
  destruct (String.eqb k0 k) eqn:E; simpl; [reflexivity|].
  rewrite IH. now destruct (get k d).
Qed.

Lemma set_fresh k v d : get k d = None -> set k v d = (d ++ [(k, v)])%list.
Proof.
  induction d as [|[k0 v0] d IH]; simpl; [reflexivity|].
  destruct (String.eqb k0 k); [discriminate|].
  intro H. now rewrite IH.
Qed.

Lemma NoDup_keys_set k v d : NoDup (keys d) -> NoDup (keys (set k v d)).
Proof.
  intro ND. rewrite keys_set. destruct (get k d) eqn:E; [exact ND|].
  apply get_None in E.
  apply NoDup_rev in ND. rewrite <- (rev_involutive (keys d ++ [k])).
  apply NoDup_rev. rewrite rev_app_distr. simpl.
  constructor; [now rewrite <- in_rev | exact ND].
Qed.

Lemma of_items_snoc (items : list (string * V)) k v :
  of_items (items ++ [(k, v)]) = set k v (of_items items).
Proof. unfold of_items. now rewrite fold_left_app. Qed.

(** Items with distinct keys are their own dictionary. *)
Lemma of_items_NoDup (items : list (string * V)) :
  NoDup (map fst items) -> of_items items = items.
Proof.
  induction items as [|[k v] items IH] using rev_ind; [reflexivity|].
  rewrite map_app. simpl. intro ND.
  rewrite of_items_snoc.
  apply NoDup_remove in ND. rewrite app_nil_r in ND. destruct ND as [ND Hn].
  rewrite (IH ND). apply set_fresh. now apply get_None.
Qed.

Lemma NoDup_keys_filter (p : string * V -> bool) d :
  NoDup (keys d) -> NoDup (keys (filter p d)).
Proof.
  induction d as [|[k0 v0] d IH]; simpl; [trivial|].
  intro ND. inversion ND as [|? ? Hn ND']; subst.
  destruct (p (k0, v0)); simpl; [|now apply IH].
  constructor; [|now apply IH].
  intro H. apply Hn. unfold keys in *.
  apply in_map_iff in H. destruct H as [x [Hx Hin]].
  apply filter_In in Hin. apply in_map_iff. exists x. tauto.
Qed.

Lemma comprehension_filter (p : string -> V -> bool) d :
  NoDup (keys d) ->
  comprehension p d = filter (fun kv => p (fst kv) (snd kv)) d.
Proof.
  intro ND. unfold comprehension. apply of_items_NoDup.
  now apply NoDup_keys_filter.
Qed.
End Facts.

End PyDictFacts.

(** ** The reference tables *)

Lemma prepare_snoc (rows : list WaRow) (row : WaRow) :
  prepare (rows ++ [row]) = prepare_step (prepare rows) row.
Proof. unfold prepare. now rewrite fold_left_app. Qed.

Lemma last_named_snoc (n : string) (rows : list WaRow) (row : WaRow) :
  last_named n (rows ++ [row]) =
  if String.eqb (Name row) n then Some row else last_named n rows.
Proof. unfold last_named. now rewrite rev_app_distr. Qed.

Lemma wa_names_list_map (rows : list WaRow) :
  wa_names_list rows = map Name rows.
Proof.
  unfold wa_names_list.
  induction rows as [|row rows IH] using rev_ind; [reflexivity|].
  rewrite prepare_snoc, map_app. simpl. now rewrite IH.
Qed.

(** The dictionary holds, under each name, the last record of that name. *)
Lemma wa_athletes_dict_get (rows : list WaRow) (n : string) :
  PyDict.get n (wa_athletes_dict rows) =
  option_map wa_data_of (last_named n rows).
Proof.
  unfold wa_athletes_dict.
  induction rows as [|row rows IH] using rev_ind; [reflexivity|].
  rewrite prepare_snoc, last_named_snoc. simpl.
  rewrite PyDictFacts.get_set, IH.
  now destruct (String.eqb (Name row) n).
Qed.

Lemma wa_athletes_dict_NoDup (rows : list WaRow) :
  NoDup (PyDict.keys (wa_athletes_dict rows)).
Proof.
  unfold wa_athletes_dict.
  induction rows as [|row rows IH] using rev_ind; [constructor|].
  rewrite prepare_snoc. simpl. now apply PyDictFacts.NoDup_keys_set.
Qed.

Lemma last_named_Name (n : string) (rows : list WaRow) (row : WaRow) :
  last_named n rows = Some row -> Name row = n /\ In row rows.
Proof.
  unfold last_named. intro H. apply find_some in H. destruct H as [Hin E].
  apply String.eqb_eq in E. split; [exact E | now apply in_rev].
Qed.

Lemma last_named_exists (n : string) (rows : list WaRow) :
  In n (map Name rows) -> exists row, last_named n rows = Some row.
Proof.
  intro H. apply in_map_iff in H. destruct H as [r [E Hin]].
  unfold last_named.
  destruct (find (fun row => String.eqb (Name row) n) (rev rows)) eqn:F;
    [eauto|].
  apply in_rev in Hin. pose proof (find_none _ _ F r Hin) as N.
  simpl in N. subst n. rewrite String.eqb_refl in N. discriminate.
Qed.

(** Every name of [wa_names_list] is a key of [wa_athletes_dict]. *)
Lemma wa_names_in_dict (rows : list WaRow) (n : string) :
  In n (wa_names_list rows) ->
  exists data, PyDict.get n (wa_athletes_dict rows) = Some data.
Proof.
  rewrite wa_names_list_map. intro H.
  destruct (last_named_exists n rows H) as [row E].
  rewrite wa_athletes_dict_get, E. simpl. eauto.
Qed.

Lemma wa_dict_keys_in_names (rows : list WaRow) (n : string) (data : WaData) :
  PyDict.get n (wa_athletes_dict rows) = Some data ->
  In n (wa_names_list rows).
Proof.
  rewrite wa_athletes_dict_get, wa_names_list_map.
  destruct (last_named n rows) as [row|] eqn:E; [|discriminate].
  intros _. apply last_named_Name in E. destruct E as [<- Hin].
  now apply in_map.
Qed.

(** ** The candidate generator *)

Lemma In_firstn {A : Type} (n : nat) (l : list A) (x : A) :
  In x (firstn n l) -> In x l.
Proof.
  revert l. induction n as [|n IH]; intros [|y l]; simpl; try tauto.
  intros [H | H]; [now left | right; now apply IH].
Qed.

Section ExtractFacts.
Variable scorer : string -> string -> Q.

Lemma insert_desc_In (x y : string * Q) (l : list (string * Q)) :
  In y (insert_desc x l) <-> y = x \/ In y l.
Proof.
  induction l as [|z l IH]; simpl.
  - intuition congruence.
  - destruct (Qgt_bool (snd z) (snd x)); simpl; rewrite ?IH;
      intuition congruence.
Qed.

Lemma sort_desc_In (y : string * Q) (l : list (string * Q)) :
  In y (sort_desc l) <-> In y l.
Proof.
  induction l as [|x l IH]; simpl; [tauto|].
  rewrite insert_desc_In, IH. intuition congruence.
Qed.

(** The head of the sorted list has the greatest score. *)
Lemma insert_desc_head (x : string * Q) (l : list (string * Q)) :
  exists h t, insert_desc x l = h :: t /\ snd x <= snd h /\
              match l with
              | [] => True
              | h0 :: _ => snd h0 <= snd h
              end.
Proof.
  destruct l as [|z l]; simpl.
  - exists x, []. repeat split. lra.
  - destruct (Qgt_bool (snd z) (snd x)) eqn:E.
    + apply Qgt_bool_true in E. exists z, (insert_desc x l).
      repeat split; lra.
    + apply Qgt_bool_false in E. exists x, (z :: l).
      repeat split; lra.
Qed.

Lemma sort_desc_head (l : list (string * Q)) :
  l <> [] ->
  exists h t, sort_desc l = h :: t /\ Forall (fun x => snd x <= snd h) l.
Proof.
  induction l as [|x l IH]; [congruence|]. intros _. simpl.
  destruct (insert_desc_head x (sort_desc l)) as [h [t [E [Hx Hh]]]].
  exists h, t. split; [exact E|].
  constructor; [exact Hx|].
  destruct l as [|x' l']; [constructor|].
  destruct IH as [h0 [t0 [E0 F0]]]; [congruence|].
  rewrite E0 in Hh.
  eapply Forall_impl; [|exact F0]. simpl. intros a Ha. lra.
Qed.

Lemma extract_In (query : string) (choices : list string) (limit : nat)
      (m : string * Q) :
  In m (extract scorer query choices limit) ->
  In (fst m) choices /\ snd m = scorer query (fst m).
Proof.
  unfold extract, extractWithoutOrder. intro H.
  apply In_firstn, sort_desc_In, in_map_iff in H.
  destruct H as [c [<- Hc]]. simpl. tauto.
Qed.

Lemma extract_nil (query : string) (limit : nat) :
  extract scorer query [] limit = [].
Proof. unfold extract. simpl. apply firstn_nil. Qed.

(** With a positive limit, the first entry returned is a choice of
    greatest score. *)
Lemma extract_head (query : string) (choices : list string) (limit : nat) :
  choices <> [] ->
  exists h t, extract scorer query choices (S limit) = h :: t /\
              forall c, In c choices -> scorer query c <= snd h.
Proof.
  intro Hne. unfold extract.
  destruct (sort_desc_head (extractWithoutOrder scorer query choices))
    as [h [t [E F]]].
  - unfold extractWithoutOrder. destruct choices; [congruence | discriminate].
  - rewrite E. simpl. exists h, (firstn limit t). split; [reflexivity|].
    intros c Hc. rewrite Forall_forall in F.
    apply (F (c, scorer query c)).
    unfold extractWithoutOrder. apply in_map_iff. eauto.
Qed.
End ExtractFacts.

(** ** The loop that keeps the best candidate *)

Lemma keep_step_coherent (st : option Match * Q) (c : Match) :
  coherent st -> coherent (keep_step st c).
Proof.
  unfold coherent, keep_step. intro H.
  destruct (Qgt_bool (Combined_Match_Score c) (snd st)) eqn:E; [|exact H].
  apply Qgt_bool_true in E. simpl. split; [reflexivity|].
  destruct (fst st); [destruct H as [_ H]; lra | rewrite H in E; exact E].
Qed.

Lemma keep_step_mono (st : option Match * Q) (c : Match) :
  snd st <= snd (keep_step st c) /\
  Combined_Match_Score c <= snd (keep_step st c).
Proof.
  unfold keep_step.
  destruct (Qgt_bool (Combined_Match_Score c) (snd st)) eqn:E; simpl.
  - apply Qgt_bool_true in E. split; lra.
  - apply Qgt_bool_false in E. split; lra.
Qed.

Lemma keep_best_coherent (cs : list Match) (st : option Match * Q) :
  coherent st -> coherent (keep_best cs st).
Proof.
  revert st. induction cs as [|c cs IH]; intros st H; simpl; [exact H|].
  apply IH. now apply keep_step_coherent.
Qed.

Lemma keep_best_mono (cs : list Match) (st : option Match * Q) :
  snd st <= snd (keep_best cs st) /\
  Forall (fun c => Combined_Match_Score c <= snd (keep_best cs st)) cs.
Proof.
  revert st. induction cs as [|c cs IH]; intros st; simpl.
  - split; [lra | constructor].
  - destruct (IH (keep_step st c)) as [H1 H2].
    destruct (keep_step_mono st c) as [H3 H4].
    split; [lra|]. constructor; [lra | exact H2].
Qed.

(** The match held at the end is the initial one or one of the candidates. *)
Lemma keep_best_origin (cs : list Match) (st : option Match * Q) :
  keep_best cs st = st \/
  exists c, In c cs /\ keep_best cs st = (Some c, Combined_Match_Score c).
Proof.
  revert st. induction cs as [|c cs IH]; intros st; simpl; [now left|].
  destruct (IH (keep_step st c)) as [H | [c' [Hin H]]].
  - rewrite H. unfold keep_step.
    destruct (Qgt_bool (Combined_Match_Score c) (snd st)); [|now left].
    right. exists c. split; [now left | reflexivity].
  - right. exists c'. split; [now right | exact H].
Qed.

(** From the initial state: the result is a candidate of greatest combined
    score, and that score is positive. *)
Lemma keep_best_Some (cs : list Match) (m : Match) :
  fst (keep_best cs (None, 0)) = Some m ->
  In m cs /\ 0 < Combined_Match_Score m /\
  forall c, In c cs -> Combined_Match_Score c <= Combined_Match_Score m.
Proof.
  intro H.
  assert (C : coherent (keep_best cs (None, 0)))
    by (apply keep_best_coherent; reflexivity).
  destruct (keep_best_mono cs (None, 0)) as [_ F].
  destruct (keep_best_origin cs (None, 0)) as [E | [c [Hin E]]].
  - rewrite E in H. discriminate.
  - rewrite E in *. simpl in *. injection H as ->.
    unfold coherent in C. simpl in C. destruct C as [_ C].
    repeat split; [exact Hin | exact C |].
    intros c Hc. rewrite Forall_forall in F. now apply F.
Qed.

Lemma keep_best_None (cs : list Match) :
  fst (keep_best cs (None, 0)) = None <->
  forall c, In c cs -> Combined_Match_Score c <= 0.
Proof.
  split.
  - intros H c Hc.
    assert (C : coherent (keep_best cs (None, 0)))
      by (apply keep_best_coherent; reflexivity).
    destruct (keep_best_mono cs (None, 0)) as [_ F].
    rewrite Forall_forall in F. specialize (F c Hc).
    unfold coherent in C. rewrite H in C. rewrite C in F. exact F.
  - intro H.
    destruct (fst (keep_best cs (None, 0))) as [m|] eqn:E; [|reflexivity].
    apply keep_best_Some in E. destruct E as [Hin [Hpos _]].
    specialize (H m Hin). lra.
Qed.

(** ** The loops of the matching functions are [keep_best] *)

Lemma candidates_exist (mk : WaData -> string * Q -> Match)
      (d : PyDict.t WaData) (matches : list (string * Q)) :
  (forall m, In m matches -> exists data, PyDict.get (fst m) d = Some data) ->
  exists cs, candidates_for mk d matches cs.
Proof.
  unfold candidates_for.
  induction matches as [|m matches IH]; intro H.
  - exists []. constructor.
  - destruct (H m (or_introl eq_refl)) as [data E].
    destruct IH as [cs F]; [intros; apply H; now right|].
    exists (mk data m :: cs). constructor; eauto.
Qed.

Lemma candidates_for_In (mk : WaData -> string * Q -> Match)
      (d : PyDict.t WaData) (matches : list (string * Q)) (cs : list Match)
      (c : Match) :
  candidates_for mk d matches cs -> In c cs ->
  exists m data, In m matches /\ PyDict.get (fst m) d = Some data
                 /\ c = mk data m.
Proof.
  unfold candidates_for. induction 1 as [|m c' ms cs' [data [E ->]] F IH].
  - intros [].
  - intros [<- | Hin].
    + exists m, data. repeat split; [now left | exact E].
    + destruct (IH Hin) as [m' [data' [H1 H2]]].
      exists m', data'. split; [now right | exact H2].
Qed.

Lemma candidates_for_In_l (mk : WaData -> string * Q -> Match)
      (d : PyDict.t WaData) (matches : list (string * Q)) (cs : list Match)
      (m : string * Q) :
  candidates_for mk d matches cs -> In m matches ->
  exists data, PyDict.get (fst m) d = Some data /\ In (mk data m) cs.
Proof.
  unfold candidates_for. induction 1 as [|m' c' ms cs' [data [E ->]] F IH].
  - intros [].
  - intros [<- | Hin].
    + exists data. split; [exact E | now left].
    + destruct (IH Hin) as [data' [H1 H2]].
      exists data'. split; [exact H1 | now right].
Qed.

Lemma for_each_name_first (bd : pyvalue) (d : PyDict.t WaData)
      (matches : list (string * Q)) (cs : list Match) :
  candidates_for (name_first_candidate bd) d matches cs ->
  forall st,
    for_each (FuzzyMatch2.name_first_body bd d) matches st
    = Ok (keep_best cs st).
Proof.
  unfold candidates_for. induction 1 as [|m c ms cs' [data [E ->]] F IH];
    intro st; simpl; [reflexivity|].
  change (keep_best (name_first_candidate bd data m :: cs') st)
    with (keep_best cs' (keep_step st (name_first_candidate bd data m))).
  rewrite <- IH.
  unfold FuzzyMatch2.name_first_body at 1, PyDict.subscript, keep_step.
  rewrite E. simpl.
  destruct (Qgt_bool _ (snd st)); reflexivity.
Qed.

Lemma for_each_birth_first (candidates : PyDict.t WaData)
      (matches : list (string * Q)) (cs : list Match) :
  candidates_for birth_first_candidate candidates matches cs ->
  forall st,
    for_each (FuzzyMatch2.birth_first_body candidates) matches st
    = Ok (keep_best cs st).
Proof.
  unfold candidates_for. induction 1 as [|m c ms cs' [data [E ->]] F IH];
    intro st; simpl; [reflexivity|].
  change (keep_best (birth_first_candidate data m :: cs') st)
    with (keep_best cs' (keep_step st (birth_first_candidate data m))).
  rewrite <- IH.
  unfold FuzzyMatch2.birth_first_body at 1, PyDict.subscript, keep_step.
  simpl.
  destruct (Qgt_bool _ (snd st)); [rewrite E|]; reflexivity.
Qed.

Section LoopFacts.
Variable scorer : string -> string -> Q.

(** On the tables of the script, [find_best_match_name_first] raises no
    [KeyError] and returns what [keep_best] keeps. *)
Lemma name_first_keep (rows : list WaRow) (name : string) (bd : pyvalue) :
  exists cs,
    candidates_for (name_first_candidate bd) (wa_athletes_dict rows)
      (extract scorer name (wa_names_list rows) 5) cs /\
    FuzzyMatch2.find_best_match_name_first scorer name bd
      (wa_names_list rows) (wa_athletes_dict rows)
    = Ok (fst (keep_best cs (None, 0))).
Proof.
  destruct (candidates_exist (name_first_candidate bd)
              (wa_athletes_dict rows)
              (extract scorer name (wa_names_list rows) 5)) as [cs F].
  - intros m Hm. apply extract_In in Hm. destruct Hm as [Hm _].
    now apply wa_names_in_dict.
  - exists cs. split; [exact F|].
    unfold FuzzyMatch2.find_best_match_name_first.
    now rewrite (for_each_name_first _ _ _ _ F).
Qed.

(** [find_best_match_birth_first] never raises. *)
Lemma birth_first_keep (d : PyDict.t WaData) (name : string)
      (bd : pyvalue) :
  exists cs,
    candidates_for birth_first_candidate (FuzzyMatch2.candidates_of bd d)
      (extract scorer name (PyDict.keys (FuzzyMatch2.candidates_of bd d)) 5)
      cs /\
    FuzzyMatch2.find_best_match_birth_first scorer bd name d
    = Ok (fst (keep_best cs (None, 0))).
Proof.
  set (cand := FuzzyMatch2.candidates_of bd d).
  destruct (candidates_exist birth_first_candidate cand
              (extract scorer name (PyDict.keys cand) 5)) as [cs F].
  - intros m Hm. apply extract_In in Hm. destruct Hm as [Hm _].
    destruct (PyDict.get (fst m) cand) as [data|] eqn:E; [eauto|].
    apply PyDictFacts.get_None in E. contradiction.
  - exists cs. split; [exact F|].
    unfold FuzzyMatch2.find_best_match_birth_first. fold cand.
    destruct cand as [|kv cand'] eqn:Ec.
    + simpl in F. rewrite extract_nil in F. inversion F. reflexivity.
    + now rewrite (for_each_birth_first _ _ _ F).
Qed.
End LoopFacts.

(** The pool of the birth date-first function, entry by entry. *)
Lemma candidates_of_get (bd : pyvalue) (d : PyDict.t WaData)
      (n : string) (data : WaData) :
  NoDup (PyDict.keys d) ->
  PyDict.get n (FuzzyMatch2.candidates_of bd d) = Some data <->
  PyDict.get n d = Some data /\
  (truthy bd = true -> bd = wd_birthDate data).
Proof.
  intro ND. unfold FuzzyMatch2.candidates_of.
  destruct (truthy bd) eqn:T.
  - rewrite (PyDictFacts.comprehension_filter _ _ ND).
    set (p := fun kv : string * WaData => py_eqb (wd_birthDate (snd kv)) bd).
    assert (NDf : NoDup (PyDict.keys (filter p d)))
      by now apply PyDictFacts.NoDup_keys_filter.
    split.
    + intro H. apply PyDictFacts.get_In, filter_In in H.
      destruct H as [Hin Hp]. unfold p in Hp. simpl in Hp.
      apply py_eqb_Value_l in Hp.
      split; [now apply PyDictFacts.In_get | intros _; exact Hp].
    + intros [H Hb]. apply PyDictFacts.In_get; [exact NDf|].
      apply filter_In. split; [now apply PyDictFacts.get_In|].
      unfold p. simpl. apply py_eqb_Value_l. now apply Hb.
  - split; [intro H; split; [exact H | discriminate] | tauto].
Qed.

(** ** The three scripts share their matching functions *)

Lemma for_each_ext {S A : Type} (f g : S -> A -> result S) (l : list A) :
  (forall st x, f st x = g st x) ->
  forall st, for_each f l st = for_each g l st.
Proof.
  intro H. induction l as [|x l IH]; intro st; simpl; [reflexivity|].
  rewrite H. destruct (g st x); simpl; [apply IH | reflexivity].
Qed.

Lemma name_first_body_3 (bd : pyvalue) (d : PyDict.t WaData)
      (st : option Match * Q) (m : string * Q) :
  FuzzyMatch3.name_first_body bd d st m = FuzzyMatch2.name_first_body bd d st m.
Proof.
  unfold FuzzyMatch3.name_first_body, FuzzyMatch2.name_first_body.
  destruct (PyDict.subscript d (fst m)) as [data|k]; simpl; [|reflexivity].
  destruct (truthy bd), (truthy (wd_birthDate data)),
    (py_eqb bd (wd_birthDate data)); reflexivity.
Qed.

Lemma find_best_match_name_first_3 (scorer : string -> string -> Q)
      (name : string) (bd : pyvalue) (names : list string)
      (d : PyDict.t WaData) :
  FuzzyMatch3.find_best_match_name_first scorer name bd names d
  = FuzzyMatch2.find_best_match_name_first scorer name bd names d.
Proof.
  unfold FuzzyMatch3.find_best_match_name_first,
    FuzzyMatch2.find_best_match_name_first.
  now rewrite (for_each_ext _ _ _ (name_first_body_3 bd d)).
Qed.

Lemma find_best_match_birth_first_3 (scorer : string -> string -> Q)
      (bd : pyvalue) (name : string) (d : PyDict.t WaData) :
  FuzzyMatch3.find_best_match_birth_first scorer bd name d
  = FuzzyMatch2.find_best_match_birth_first scorer bd name d.
Proof. reflexivity. Qed.

Lemma best_of_formats_3 (a b : option Match) :
  FuzzyMatch3.best_of_formats a b = FuzzyMatch2.best_of_formats a b.
Proof. destruct a, b; reflexivity. Qed.

Lemma choose_best_of_formats (a b : option Match) :
  FuzzyMatch.choose a b = FuzzyMatch2.best_of_formats a b.
Proof. destruct a, b; reflexivity. Qed.

(** The extra variable [best_score] of fuzzy_match.py changes nothing. *)
Lemma for_each_find_best_match (bd : pyvalue) (d : PyDict.t WaData)
      (matches : list (string * Q)) :
  forall (bm : option Match) (bs bc : Q),
    match for_each (FuzzyMatch2.name_first_body bd d) matches (bm, bc) with
    | Ok st => exists bs',
        for_each (FuzzyMatch.find_best_match_body bd d) matches (bm, bs, bc)
        = Ok (fst st, bs', snd st)
    | KeyError k =>
        for_each (FuzzyMatch.find_best_match_body bd d) matches (bm, bs, bc)
        = KeyError k
    end.
Proof.
  induction matches as [|m matches IH]; intros bm bs bc; simpl.
  - now exists bs.
  - unfold FuzzyMatch2.name_first_body at 1,
      FuzzyMatch.find_best_match_body at 1 3.
    destruct (PyDict.subscript d (fst m)) as [data|k]; simpl; [|reflexivity].
    match goal with
    | |- context [Qgt_bool ?c bc] => destruct (Qgt_bool c bc)
    end; simpl; apply IH.
Qed.

Lemma find_best_match_name_first_1 (scorer : string -> string -> Q)
      (name : string) (bd : pyvalue) (names : list string)
      (d : PyDict.t WaData) :
  FuzzyMatch.find_best_match scorer name bd names d
  = FuzzyMatch2.find_best_match_name_first scorer name bd names d.
Proof.
  unfold FuzzyMatch.find_best_match, FuzzyMatch2.find_best_match_name_first.
  pose proof (for_each_find_best_match bd d
                (extract scorer name names 5) None 0 0) as H.
  destruct (for_each (FuzzyMatch2.name_first_body bd d) _ (None, 0))
    as [st|k]; simpl.
  - destruct H as [bs' ->]. reflexivity.
  - now rewrite H.
Qed.

(** ** What the two functions return *)

Lemma best_of_formats_cases (a b : option Match) :
  FuzzyMatch2.best_of_formats a b = a \/ FuzzyMatch2.best_of_formats a b = b.
Proof.
  destruct a as [ma|], b as [mb|]; simpl; auto.
  destruct (Qge_bool _ _); auto.
Qed.

Lemma best_of_formats_None (a b : option Match) :
  FuzzyMatch2.best_of_formats a b = None <-> a = None /\ b = None.
Proof.
  destruct a as [ma|], b as [mb|]; simpl;
    try destruct (Qge_bool _ _); intuition congruence.
Qed.

(** The best of the two formats is at least as good as either. *)
Lemma best_of_formats_max (a b : option Match) (m : Match) :
  a = Some m \/ b = Some m ->
  exists m', FuzzyMatch2.best_of_formats a b = Some m' /\
             Combined_Match_Score m <= Combined_Match_Score m'.
Proof.
  destruct a as [ma|], b as [mb|]; simpl; intros [H | H];
    try discriminate; injection H as ->;
    try (destruct (Qge_bool _ _) eqn:E;
         [apply Qge_bool_true in E | apply Qge_bool_false in E]);
    eexists; (split; [reflexivity | lra]).
Qed.

Section Returned.
Variable scorer : string -> string -> Q.

(** A match returned by the name-first function: its origin, its scores,
    and its rank among the candidates. *)
Lemma name_first_returns (rows : list WaRow) (name : string)
      (bd : pyvalue) (m : Match) :
  FuzzyMatch2.find_best_match_name_first scorer name bd
    (wa_names_list rows) (wa_athletes_dict rows) = Ok (Some m) ->
  exists data,
    PyDict.get (Matched_Name m) (wa_athletes_dict rows) = Some data /\
    In (Matched_Name m) (wa_names_list rows) /\
    m = name_first_candidate bd data
          (Matched_Name m, scorer name (Matched_Name m)) /\
    0 < Combined_Match_Score m.
Proof.
  destruct (name_first_keep scorer rows name bd) as [cs [F ->]].
  intros [= H]. apply keep_best_Some in H. destruct H as [Hin [Hpos _]].
  destruct (candidates_for_In _ _ _ _ _ F Hin) as [x [data [Hx [E ->]]]].
  apply extract_In in Hx. destruct Hx as [Hx1 Hx2].
  exists data. simpl. repeat split; try assumption.
  destruct x as [n s]. simpl in *. now subst s.
Qed.

Lemma birth_first_returns (d : PyDict.t WaData) (name : string)
      (bd : pyvalue) (m : Match) :
  FuzzyMatch2.find_best_match_birth_first scorer bd name d = Ok (Some m) ->
  exists data,
    PyDict.get (Matched_Name m) (FuzzyMatch2.candidates_of bd d)
    = Some data /\
    m = birth_first_candidate data
          (Matched_Name m, scorer name (Matched_Name m)).
Proof.
  destruct (birth_first_keep scorer d name bd) as [cs [F ->]].
  intros [= H]. apply keep_best_Some in H. destruct H as [Hin _].
  destruct (candidates_for_In _ _ _ _ _ F Hin) as [x [data [Hx [E ->]]]].
  apply extract_In in Hx. destruct Hx as [Hx1 Hx2].
  exists data. simpl. split; [exact E|].
  destruct x as [n s]. simpl in *. now subst s.
Qed.

Hypothesis scorer_nonneg : forall a b, 0 <= scorer a b.

(** The birth date-first function returns nothing exactly when its pool
    is empty. *)
Lemma birth_first_None_iff (d : PyDict.t WaData) (name : string)
      (bd : pyvalue) :
  FuzzyMatch2.find_best_match_birth_first scorer bd name d = Ok None <->
  FuzzyMatch2.candidates_of bd d = [].
Proof.
  split.
  - destruct (birth_first_keep scorer d name bd) as [cs [F ->]].
    intros [= H]. rewrite keep_best_None in H.
    destruct (FuzzyMatch2.candidates_of bd d) as [|kv cand] eqn:Ec;
      [reflexivity | exfalso].
    destruct (extract_head scorer name (PyDict.keys (kv :: cand)) 4)
      as [h [t [E _]]]; [discriminate|].
    rewrite E in F.
    destruct (candidates_for_In_l _ _ _ _ h F (or_introl eq_refl))
      as [data [_ Hin]].
    specialize (H _ Hin). simpl in H.
    assert (In h (extract scorer name (PyDict.keys (kv :: cand)) 5))
      by (rewrite E; now left).
    apply extract_In in H0. destruct H0 as [_ Hs].
    pose proof (scorer_nonneg name (fst h)). rewrite <- Hs in H0. lra.
  - intro E. unfold FuzzyMatch2.find_best_match_birth_first.
    now rewrite E.
Qed.

Lemma birth_first_total (d : PyDict.t WaData) (name : string)
      (bd : pyvalue) :
  exists r, FuzzyMatch2.find_best_match_birth_first scorer bd name d = Ok r.
Proof.
  destruct (birth_first_keep scorer d name bd) as [cs [_ ->]]. eauto.
Qed.
End Returned.

(** ** The sample backend *)

Lemma exact_scorer_range (a b : string) : 0 <= exact_scorer a b <= 100.
Proof. unfold exact_scorer. destruct (String.eqb a b); split; lra. Qed.

Lemma exact_scorer_nonneg (a b : string) : 0 <= exact_scorer a b.
Proof. apply exact_scorer_range. Qed.

(** ** The frame of fuzzy_match2.py, row by row *)

Lemma nth_error_loc_set {A : Type} (f : A -> A) (df : list A) (i j : nat) :
  nth_error (loc_set i f df) j =
  if Nat.eqb i j then option_map f (nth_error df j) else nth_error df j.
Proof.
  revert i j. induction df as [|row df IH]; intros [|i] [|j]; simpl;
    try reflexivity.
  - now destruct (Nat.eqb i j).
  - apply IH.
Qed.

Lemma frame_other (results : list FuzzyMatch2.ResultRow)
      (df : list FuzzyMatch2.Columns) (j : nat) :
  ~ In j (map FuzzyMatch2.Athlete_Index results) ->
  nth_error
    (fold_left (fun df m => loc_set (FuzzyMatch2.Athlete_Index m)
                              (FuzzyMatch2.write_match m) df) results df) j
  = nth_error df j.
Proof.
  revert df. induction results as [|r results IH]; intros df H; simpl;
    [reflexivity|].
  simpl in H. rewrite IH by tauto. rewrite nth_error_loc_set.
  destruct (Nat.eqb (FuzzyMatch2.Athlete_Index r) j) eqn:E; [|reflexivity].
  apply Nat.eqb_eq in E. tauto.
Qed.

Lemma frame_hit (results : list FuzzyMatch2.ResultRow)
      (df : list FuzzyMatch2.Columns) (m : FuzzyMatch2.ResultRow)
      (row : FuzzyMatch2.Columns) :
  NoDup (map FuzzyMatch2.Athlete_Index results) -> In m results ->
  nth_error df (FuzzyMatch2.Athlete_Index m) = Some row ->
  nth_error
    (fold_left (fun df m => loc_set (FuzzyMatch2.Athlete_Index m)
                              (FuzzyMatch2.write_match m) df) results df)
    (FuzzyMatch2.Athlete_Index m)
  = Some (FuzzyMatch2.write_match m row).
Proof.
  revert df. induction results as [|r results IH]; intros df ND Hin Hrow;
    [destruct Hin|].
  simpl in ND. inversion ND as [|? ? Hn ND']; subst. simpl.
  destruct Hin as [-> | Hin].
  - rewrite frame_other by exact Hn.
    now rewrite nth_error_loc_set, Nat.eqb_refl, Hrow.
  - apply IH; [exact ND' | exact Hin|].
    rewrite nth_error_loc_set.
    destruct (Nat.eqb (FuzzyMatch2.Athlete_Index r)
                (FuzzyMatch2.Athlete_Index m)) eqn:E; [|exact Hrow].
    apply Nat.eqb_eq in E. exfalso. apply Hn. rewrite E. now apply in_map.
Qed.

(** The row that the script leaves at the index of a matched athlete is
    [final_row]: each athlete has one element in [results]. *)
Lemma update_frame_row (results : list FuzzyMatch2.ResultRow) (rows : nat)
      (m : FuzzyMatch2.ResultRow) :
  NoDup (map FuzzyMatch2.Athlete_Index results) -> In m results ->
  (FuzzyMatch2.Athlete_Index m < rows)%nat ->
  nth_error (FuzzyMatch2.update_frame results rows)
    (FuzzyMatch2.Athlete_Index m)
  = Some (FuzzyMatch2.final_row m).
Proof.
  intros ND Hin Hlt. unfold FuzzyMatch2.update_frame, FuzzyMatch2.final_row.
  rewrite nth_error_map.
  rewrite (frame_hit results _ m FuzzyMatch2.blank ND Hin);
    [reflexivity | now apply nth_error_repeat].
Qed.

(** ** The backends of fuzzymatch_3.py *)

(** A backend runs the two strategies of fuzzy_match2.py and combines
    them. *)
Lemma backend_strategies (scorer : string -> string -> Q) (athlete : Athlete)
      (names : list string) (d : PyDict.t WaData) :
  FuzzyMatch3.backend scorer athlete names d =
  (best_match1 <- FuzzyMatch2.strategy1 scorer athlete names d ;;
   best_match2 <- FuzzyMatch2.strategy2 scorer athlete d ;;
   Ok (FuzzyMatch2.combine best_match1 best_match2)).
Proof.
  unfold FuzzyMatch3.backend, FuzzyMatch2.strategy1, FuzzyMatch2.strategy2.
  rewrite !find_best_match_name_first_3.
  destruct (FuzzyMatch2.find_best_match_name_first scorer (Full_Name athlete)
              (Birth_date_str athlete) names d) as [a1|k]; simpl;
    [|reflexivity].
  destruct (FuzzyMatch2.find_best_match_name_first scorer
              (Full_Name_Reversed athlete) (Birth_date_str athlete) names d)
    as [b1|k]; simpl; [|reflexivity].
  change (FuzzyMatch3.find_best_match_birth_first scorer)
    with (FuzzyMatch2.find_best_match_birth_first scorer).
  destruct (FuzzyMatch2.find_best_match_birth_first scorer
              (Birth_date_str athlete) (Full_Name athlete) d) as [a2|k];
    simpl; [|reflexivity].
  destruct (FuzzyMatch2.find_best_match_birth_first scorer
              (Birth_date_str athlete) (Full_Name_Reversed athlete) d)
    as [b2|k]; simpl; [|reflexivity].
  now rewrite !best_of_formats_3.
Qed.

(** [get_confidence] has the bands of the other two scripts. *)
Lemma get_confidence_bands (s : Q) :
  (FuzzyMatch3.get_confidence (Some s) = Some High <-> 90 <= s) /\
  (FuzzyMatch3.get_confidence (Some s) = Some Medium <-> 70 <= s /\ s < 90) /\
  (FuzzyMatch3.get_confidence (Some s) = Some Low <-> s < 70).
Proof.
  unfold FuzzyMatch3.get_confidence.
  destruct (Qge_bool s 90) eqn:G90;
    [apply Qge_bool_true in G90 | apply Qge_bool_false in G90];
    destruct (Qge_bool s 70) eqn:G70;
    [apply Qge_bool_true in G70 | apply Qge_bool_false in G70 |
     apply Qge_bool_true in G70 | apply Qge_bool_false in G70];
    repeat split; intros; try discriminate; try reflexivity; try lra.
Qed.

(** * The claims *)

(** ** C10: the score of the birth date-first strategy *)

(** C10.  Whenever the birth date-first function returns a match, its
    combined score is [0.7 * 100 + 0.3 * name_score] and lies in [70, 100],
    whether the pool was filtered or, the value passed for the birth date
    being false, is the whole dictionary; so does the score of the strategy over the two
    name formats.  The backend's scores are in [0, 100]. *)
Theorem C10_birth_first_score_range (scorer : string -> string -> Q) :
  (forall a b, 0 <= scorer a b <= 100) ->
  forall (d : PyDict.t WaData) (bd : pyvalue),
    (forall name m,
        FuzzyMatch2.find_best_match_birth_first scorer bd name d = Ok (Some m) ->
        Combined_Match_Score m == 0.7 * 100 + 0.3 * Name_Match_Score m /\
        70 <= Combined_Match_Score m <= 100) /\
    (forall name m,
        FuzzyMatch3.find_best_match_birth_first scorer bd name d = Ok (Some m) ->
        Combined_Match_Score m == 0.7 * 100 + 0.3 * Name_Match_Score m /\
        70 <= Combined_Match_Score m <= 100) /\
    (forall first last m,
        FuzzyMatch2.strategy2 scorer (mkAthlete first last bd) d = Ok (Some m) ->
        70 <= Combined_Match_Score m <= 100).
Proof.
  intros R d bd.
  assert (B : forall name m,
             FuzzyMatch2.find_best_match_birth_first scorer bd name d
             = Ok (Some m) ->
             Combined_Match_Score m == 0.7 * 100 + 0.3 * Name_Match_Score m /\
             70 <= Combined_Match_Score m <= 100).
  { intros name m H. apply birth_first_returns in H.
    destruct H as [data [_ ->]]. simpl.
    pose proof (R name (Matched_Name (birth_first_candidate data
      (Matched_Name m, scorer name (Matched_Name m))))) as Hr.
    simpl in Hr. pose proof (R name (Matched_Name m)) as Hr'.
    split; [reflexivity | split; lra]. }
  split; [exact B | split; [exact B|]].
  intros first last m. unfold FuzzyMatch2.strategy2. simpl.
  destruct (FuzzyMatch2.find_best_match_birth_first scorer bd
              (Full_Name (mkAthlete first last bd)) d) as [ra|k] eqn:Ea;
    simpl; [|discriminate].
  destruct (FuzzyMatch2.find_best_match_birth_first scorer bd
              (Full_Name_Reversed (mkAthlete first last bd)) d)
    as [rb|k] eqn:Eb; simpl; [|discriminate].
  intros [= H].
  destruct (best_of_formats_cases ra rb) as [E | E]; rewrite E in H; subst.
  - now apply (B _ _ Ea).
  - now apply (B _ _ Eb).
Qed.

Lemma C10_witness :
  Combined_Match_Score xyz_match
  == 0.7 * 100 + 0.3 * Name_Match_Score xyz_match /\
  70 <= Combined_Match_Score xyz_match <= 100.
Proof.
  apply (proj1 (C10_birth_first_score_range exact_scorer exact_scorer_range
                  (wa_athletes_dict xyz_registry) (Some "1998-03-02"))
           "ab cd" xyz_match).
  vm_compute. reflexivity.
Defined.

(** ** C1: the weights of the birth date-first strategy *)

(** C1, as the code has it.  For every match that the birth date-first
    function returns when the athlete's birth date is present, the pool having
    been filtered to the records of that birth date: the matched record has
    the athlete's birth date, the birth-date score is 100, and the combined
    score is [0.7 * birth_date_score + 0.3 * name_score], that is
    [70 + 0.3 * name_score].  The weight 0.7 is on the birth date. *)
Theorem C1_birth_first_weights (scorer : string -> string -> Q)
        (rows : list WaRow) (bd : pyvalue) (name : string) (m : Match) :
  truthy bd = true ->
  FuzzyMatch2.find_best_match_birth_first scorer bd name
    (wa_athletes_dict rows) = Ok (Some m) \/
  FuzzyMatch3.find_best_match_birth_first scorer bd name
    (wa_athletes_dict rows) = Ok (Some m) ->
  bd = Matched_Birth_Date m /\
  Birth_Date_Match_Score m = 100 /\
  Name_Match_Score m = scorer name (Matched_Name m) /\
  Combined_Match_Score m
  == 0.7 * Birth_Date_Match_Score m + 0.3 * Name_Match_Score m /\
  Combined_Match_Score m == 70 + 0.3 * Name_Match_Score m.
Proof.
  intros T H.
  assert (H' : FuzzyMatch2.find_best_match_birth_first scorer bd name
                 (wa_athletes_dict rows) = Ok (Some m))
    by (destruct H as [H | H]; exact H).
  clear H. apply birth_first_returns in H'. destruct H' as [data [E ->]].
  apply candidates_of_get in E; [|apply wa_athletes_dict_NoDup].
  destruct E as [_ Eb]. simpl.
  repeat split; try lra. specialize (Eb T). congruence.
Qed.

Lemma C1_witness :
  Value (Some "1998-03-02") = Matched_Birth_Date xyz_match /\
  Birth_Date_Match_Score xyz_match = 100 /\
  Name_Match_Score xyz_match = exact_scorer "ab cd" (Matched_Name xyz_match) /\
  Combined_Match_Score xyz_match
  == 0.7 * Birth_Date_Match_Score xyz_match
     + 0.3 * Name_Match_Score xyz_match /\
  Combined_Match_Score xyz_match == 70 + 0.3 * Name_Match_Score xyz_match.
Proof.
  apply (C1_birth_first_weights exact_scorer pair_registry
           (Some "1998-03-02") "ab cd" xyz_match).
  - reflexivity.
  - left. vm_compute. reflexivity.
Defined.

(** C1 as stated fails: the athlete "ab cd" born 1998-03-02 against the
    record "Xyz" of the same birth date has name score 0 and combined score
    70, not [0.7 * 0 + 0.3 * 100 = 30]. *)
Lemma C1_counterexample :
  exists m,
    FuzzyMatch2.find_best_match_birth_first exact_scorer (Some "1998-03-02")
      "ab cd" (wa_athletes_dict pair_registry) = Ok (Some m) /\
    Matched_Birth_Date m = Some "1998-03-02" /\
    Name_Match_Score m == 0 /\
    Combined_Match_Score m == 70 /\
    ~ Combined_Match_Score m == 0.7 * Name_Match_Score m + 0.3 * 100.
Proof.
  exists xyz_match. repeat split; try (vm_compute; reflexivity).
  vm_compute. discriminate.
Qed.

(** ** C2: no fall-back to the unfiltered pool *)

Lemma wa_athletes_dict_nonempty (rows : list WaRow) :
  rows <> [] -> wa_athletes_dict rows <> [].
Proof.
  destruct rows as [|row rows]; [congruence|]. intros _ E.
  destruct (wa_names_in_dict (row :: rows) (Name row)) as [data G].
  - rewrite wa_names_list_map. now left.
  - rewrite E in G. discriminate.
Qed.

Lemma candidates_of_unmatched (rows : list WaRow) (bd : pyvalue) :
  truthy bd = true ->
  (forall row, In row rows -> bd <> birthDate row) ->
  FuzzyMatch2.candidates_of bd (wa_athletes_dict rows) = [].
Proof.
  intros T U.
  destruct (FuzzyMatch2.candidates_of bd (wa_athletes_dict rows))
    as [|[k data] cand] eqn:E; [reflexivity | exfalso].
  assert (G : PyDict.get k (FuzzyMatch2.candidates_of bd (wa_athletes_dict rows))
              = Some data)
    by (rewrite E; simpl; now rewrite String.eqb_refl).
  apply candidates_of_get in G; [|apply wa_athletes_dict_NoDup].
  destruct G as [G Gb]. rewrite wa_athletes_dict_get in G.
  destruct (last_named k rows) as [row|] eqn:L; [|discriminate].
  injection G as <-. apply last_named_Name in L. destruct L as [_ Hin].
  apply (U row Hin). now apply Gb.
Qed.

(** C2, as the code has it.  When the athlete's birth date is present and is
    the birth date of no reference record, the birth date-first function
    returns [None], however many records there are: the filtered pool is
    empty and nothing falls back to the whole dictionary.  The same holds of
    the [nan] that the scripts pass for an empty birth date cell: it is true
    and equal to no date. *)
Theorem C2_no_fallback (scorer : string -> string -> Q) (rows : list WaRow)
        (bd : pyvalue) (name : string) :
  truthy bd = true ->
  (forall row, In row rows -> bd <> birthDate row) ->
  FuzzyMatch2.find_best_match_birth_first scorer bd name
    (wa_athletes_dict rows) = Ok None /\
  FuzzyMatch3.find_best_match_birth_first scorer bd name
    (wa_athletes_dict rows) = Ok None.
Proof.
  intros T U.
  change (FuzzyMatch3.find_best_match_birth_first scorer bd name
            (wa_athletes_dict rows))
    with (FuzzyMatch2.find_best_match_birth_first scorer bd name
            (wa_athletes_dict rows)).
  assert (FuzzyMatch2.find_best_match_birth_first scorer bd name
            (wa_athletes_dict rows) = Ok None).
  { unfold FuzzyMatch2.find_best_match_birth_first.
    now rewrite (candidates_of_unmatched rows bd T U). }
  split; assumption.
Qed.

Lemma C2_witness :
  FuzzyMatch2.find_best_match_birth_first exact_scorer (Some "2005-07-01")
    "ab cd" (wa_athletes_dict pair_registry) = Ok None /\
  FuzzyMatch3.find_best_match_birth_first exact_scorer (Some "2005-07-01")
    "ab cd" (wa_athletes_dict pair_registry) = Ok None.
Proof.
  apply (C2_no_fallback exact_scorer pair_registry (Some "2005-07-01")
           "ab cd").
  - reflexivity.
  - intros row Hin. simpl in Hin.
    destruct Hin as [<- | [<- | []]]; discriminate.
Defined.

(** C2 as stated fails: two records, an athlete born 2005-07-01 like none of
    them, and the birth date-first function returns [None]. *)
Lemma C2_counterexample :
  truthy (Some "2005-07-01") = true /\
  wa_athletes_dict pair_registry <> [] /\
  (forall row, In row pair_registry -> birthDate row <> Some "2005-07-01") /\
  FuzzyMatch2.find_best_match_birth_first exact_scorer (Some "2005-07-01")
    "ab cd" (wa_athletes_dict pair_registry) = Ok None /\
  FuzzyMatch3.find_best_match_birth_first exact_scorer (Some "2005-07-01")
    "ab cd" (wa_athletes_dict pair_registry) = Ok None.
Proof.
  repeat split; try (vm_compute; reflexivity).
  - vm_compute. discriminate.
  - intros row Hin. simpl in Hin.
    destruct Hin as [<- | [<- | []]]; discriminate.
Qed.

(** ** C3: a missing birth date *)

(** When it is the reference record that has no birth date, the name-first
    functions of the three scripts leave the name score as the combined
    score. *)
Lemma name_first_undated_record (scorer : string -> string -> Q)
      (rows : list WaRow) (name : string) (bd : pyvalue) (m : Match) :
  FuzzyMatch2.find_best_match_name_first scorer name bd
    (wa_names_list rows) (wa_athletes_dict rows) = Ok (Some m) \/
  FuzzyMatch.find_best_match scorer name bd
    (wa_names_list rows) (wa_athletes_dict rows) = Ok (Some m) \/
  FuzzyMatch3.find_best_match_name_first scorer name bd
    (wa_names_list rows) (wa_athletes_dict rows) = Ok (Some m) ->
  truthy (Matched_Birth_Date m) = false ->
  Combined_Match_Score m = Name_Match_Score m /\
  Birth_Date_Match_Score m = 0.
Proof.
  rewrite find_best_match_name_first_1, find_best_match_name_first_3.
  intros H A.
  assert (H' : FuzzyMatch2.find_best_match_name_first scorer name bd
                 (wa_names_list rows) (wa_athletes_dict rows) = Ok (Some m))
    by tauto.
  clear H. apply name_first_returns in H'.
  destruct H' as [data [_ [_ [E _]]]]. rewrite E in *. simpl in *.
  rewrite A, andb_false_r. auto.
Qed.

(** C3, at the input where the code departs from it.  The birth date cell of
    the athlete "Ali Hassan" is empty, so that the scripts pass [nan]; the
    reference record "Ali Hassan" has a birth date.  [nan] is true, and the
    name-first functions compare the two dates: the name score is 100, the
    birth-date score 0 and the combined score [0.7 * 100 + 0.3 * 0 = 70],
    which is not the name score.  The birth date-first function finds no
    candidate. *)
Theorem C3_name_first_nan_date :
  exists m,
    FuzzyMatch2.find_best_match_name_first exact_scorer "Ali Hassan" NaN
      (wa_names_list ali_registry) (wa_athletes_dict ali_registry)
    = Ok (Some m) /\
    FuzzyMatch.find_best_match exact_scorer "Ali Hassan" NaN
      (wa_names_list ali_registry) (wa_athletes_dict ali_registry)
    = Ok (Some m) /\
    Matched_Birth_Date m = Some "2000-01-05" /\
    Name_Match_Score m == 100 /\
    Birth_Date_Match_Score m == 0 /\
    Combined_Match_Score m == 70 /\
    ~ Combined_Match_Score m == Name_Match_Score m /\
    FuzzyMatch2.find_best_match_birth_first exact_scorer NaN "Ali Hassan"
      (wa_athletes_dict ali_registry) = Ok None.
Proof.
  exists undated_match. repeat split; try (vm_compute; reflexivity).
  vm_compute. discriminate.
Qed.

(** ** C4: when a strategy returns nothing *)

Section NameFirstSome.
Variable scorer : string -> string -> Q.

Lemma name_first_total (rows : list WaRow) (name : string)
      (bd : pyvalue) :
  exists r, FuzzyMatch2.find_best_match_name_first scorer name bd
              (wa_names_list rows) (wa_athletes_dict rows) = Ok r.
Proof.
  destruct (name_first_keep scorer rows name bd) as [cs [_ ->]]. eauto.
Qed.

Lemma name_first_candidate_lower (bd : pyvalue) (data : WaData)
      (x : string * Q) :
  0 <= snd x ->
  0.7 * snd x <= Combined_Match_Score (name_first_candidate bd data x).
Proof.
  intro H. unfold name_first_candidate. simpl.
  destruct (truthy bd && truthy (wd_birthDate data)); [|lra].
  destruct (py_eqb bd (wd_birthDate data)); lra.
Qed.

(** A reference name of positive similarity is enough for the name-first
    function to return a match. *)
Lemma name_first_Some (rows : list WaRow) (name : string)
      (bd : pyvalue) (n : string) :
  In n (wa_names_list rows) -> 0 < scorer name n ->
  exists m, FuzzyMatch2.find_best_match_name_first scorer name bd
              (wa_names_list rows) (wa_athletes_dict rows) = Ok (Some m).
Proof.
  intros Hin Hpos.
  destruct (name_first_keep scorer rows name bd) as [cs [F ->]].
  destruct (fst (keep_best cs (None, 0))) as [m|] eqn:E; [eauto|].
  exfalso. rewrite keep_best_None in E.
  destruct (extract_head scorer name (wa_names_list rows) 4)
    as [h [t [Eh Hmax]]]; [intro N; rewrite N in Hin; destruct Hin|].
  rewrite Eh in F.
  destruct (candidates_for_In_l _ _ _ _ h F (or_introl eq_refl))
    as [data [_ Hc]].
  specialize (E _ Hc). specialize (Hmax n Hin).
  pose proof (name_first_candidate_lower bd data h) as L.
  assert (0 <= snd h) by lra. specialize (L H). lra.
Qed.
End NameFirstSome.

(** The pool of the birth date-first function is empty when there is no
    record, or when the value passed for the birth date is true and no entry
    has it. *)
Lemma candidates_of_nil_iff (rows : list WaRow) (bd : pyvalue) :
  FuzzyMatch2.candidates_of bd (wa_athletes_dict rows) = [] <->
  rows = [] \/
  (truthy bd = true /\
   forall n data, PyDict.get n (wa_athletes_dict rows) = Some data ->
                  bd <> wd_birthDate data).
Proof.
  split.
  - intro E. destruct (truthy bd) eqn:T.
    + right. split; [reflexivity|]. intros n data G Hb.
      assert (C : PyDict.get n
                    (FuzzyMatch2.candidates_of bd (wa_athletes_dict rows))
                  = Some data).
      { apply candidates_of_get; [apply wa_athletes_dict_NoDup|].
        split; [exact G | intros _; exact Hb]. }
      rewrite E in C. discriminate.
    + left. unfold FuzzyMatch2.candidates_of in E. rewrite T in E.
      destruct rows as [|row rows']; [reflexivity|].
      exfalso. apply (wa_athletes_dict_nonempty (row :: rows'));
        [discriminate | exact E].
  - intros [-> | [T U]].
    + unfold FuzzyMatch2.candidates_of. now destruct (truthy bd).
    + destruct (FuzzyMatch2.candidates_of bd (wa_athletes_dict rows))
        as [|[k data] cand] eqn:E; [reflexivity | exfalso].
      assert (G : PyDict.get k
                    (FuzzyMatch2.candidates_of bd (wa_athletes_dict rows))
                  = Some data)
        by (rewrite E; simpl; now rewrite String.eqb_refl).
      apply candidates_of_get in G; [|apply wa_athletes_dict_NoDup].
      destruct G as [G Gb]. apply (U k data G). now apply Gb.
Qed.

(** The name-first function returns nothing when no listed name has a
    positive score and no entry has the birth date passed. *)
Lemma name_first_None (scorer : string -> string -> Q) (rows : list WaRow)
      (name : string) (bd : pyvalue) :
  (forall n, In n (wa_names_list rows) -> scorer name n == 0) ->
  (forall n data, PyDict.get n (wa_athletes_dict rows) = Some data ->
                  bd <> wd_birthDate data) ->
  FuzzyMatch2.find_best_match_name_first scorer name bd
    (wa_names_list rows) (wa_athletes_dict rows) = Ok None.
Proof.
  intros Z U.
  destruct (name_first_keep scorer rows name bd) as [cs [F ->]].
  f_equal. apply keep_best_None. intros c Hc.
  destruct (candidates_for_In _ _ _ _ _ F Hc) as [x [data [Hx [G ->]]]].
  apply extract_In in Hx. destruct Hx as [Hx1 Hx2].
  specialize (Z _ Hx1). specialize (U _ _ G).
  unfold name_first_candidate. simpl. rewrite Hx2.
  destruct (truthy bd && truthy (wd_birthDate data)); [|lra].
  destruct (py_eqb bd (wd_birthDate data)) eqn:P; [|lra].
  apply py_eqb_Value in P. contradiction.
Qed.

(** C4, as the code has it.  With no reference record both strategies
    return [None], but not only then.  With a birth date value that is true
    (a date, or the [nan] of an empty cell) the birth date-first strategy
    returns [None] exactly when no record of the dictionary has that value,
    and a match otherwise; the name-first strategy returns a match as soon as
    a reference name has a positive similarity to one of the two name
    formats, and [None] when every reference name has similarity 0 to both
    formats and no record has the birth date passed.  No strategy raises.
    The backend's scores are not negative. *)
Theorem C4_strategy_results (scorer : string -> string -> Q)
        (rows : list WaRow) (athlete : Athlete) :
  (forall a b, 0 <= scorer a b) ->
  (rows = [] ->
   FuzzyMatch2.strategy1 scorer athlete (wa_names_list rows)
     (wa_athletes_dict rows) = Ok None /\
   FuzzyMatch2.strategy2 scorer athlete (wa_athletes_dict rows) = Ok None) /\
  (truthy (Birth_date_str athlete) = true ->
   (FuzzyMatch2.strategy2 scorer athlete (wa_athletes_dict rows) = Ok None <->
    forall n data, PyDict.get n (wa_athletes_dict rows) = Some data ->
                   Birth_date_str athlete <> wd_birthDate data)) /\
  (exists r,
      FuzzyMatch2.strategy2 scorer athlete (wa_athletes_dict rows) = Ok r) /\
  (exists r,
      FuzzyMatch2.strategy1 scorer athlete (wa_names_list rows)
        (wa_athletes_dict rows) = Ok r) /\
  ((exists n, In n (wa_names_list rows) /\
              (0 < scorer (Full_Name athlete) n \/
               0 < scorer (Full_Name_Reversed athlete) n)) ->
   exists m,
     FuzzyMatch2.strategy1 scorer athlete (wa_names_list rows)
       (wa_athletes_dict rows) = Ok (Some m)) /\
  ((forall n, In n (wa_names_list rows) ->
              scorer (Full_Name athlete) n == 0 /\
              scorer (Full_Name_Reversed athlete) n == 0) ->
   (forall n data, PyDict.get n (wa_athletes_dict rows) = Some data ->
                   Birth_date_str athlete <> wd_birthDate data) ->
   FuzzyMatch2.strategy1 scorer athlete (wa_names_list rows)
     (wa_athletes_dict rows) = Ok None).
Proof.
  intro Pos.
  set (d := wa_athletes_dict rows). set (names := wa_names_list rows).
  set (bd := Birth_date_str athlete).
  destruct (birth_first_total scorer d (Full_Name athlete) bd) as [ra Ea].
  destruct (birth_first_total scorer d (Full_Name_Reversed athlete) bd)
    as [rb Eb].
  destruct (name_first_total scorer rows (Full_Name athlete) bd) as [na Na].
  destruct (name_first_total scorer rows (Full_Name_Reversed athlete) bd)
    as [nb Nb].
  assert (S2 : FuzzyMatch2.strategy2 scorer athlete d
               = Ok (FuzzyMatch2.best_of_formats ra rb))
    by (unfold FuzzyMatch2.strategy2; fold bd; now rewrite Ea, Eb).
  assert (S1 : FuzzyMatch2.strategy1 scorer athlete names d
               = Ok (FuzzyMatch2.best_of_formats na nb))
    by (unfold FuzzyMatch2.strategy1; fold bd; unfold names, d;
        now rewrite Na, Nb).
  assert (I2 : FuzzyMatch2.strategy2 scorer athlete d = Ok None <->
               FuzzyMatch2.candidates_of bd d = []).
  { rewrite S2. split.
    - intros [= H]. apply best_of_formats_None in H. destruct H as [-> _].
      now apply (birth_first_None_iff scorer Pos) in Ea.
    - intro E.
      apply (birth_first_None_iff scorer Pos d (Full_Name athlete)) in E as E1.
      apply (birth_first_None_iff scorer Pos d (Full_Name_Reversed athlete))
        in E as E2.
      rewrite Ea in E1. rewrite Eb in E2.
      injection E1 as ->. injection E2 as ->. reflexivity. }
  pose proof (candidates_of_nil_iff rows bd) as N. fold d in N.
  split; [|split; [|split; [eauto | split; [eauto | split]]]].
  - intros ->. split; [vm_compute; reflexivity|].
    apply I2, N. now left.
  - intro T. rewrite I2, N. split.
    + intros [-> | [_ U]]; [intros n data G; discriminate | exact U].
    + intro U. right. split; [exact T | exact U].
  - intros [n [Hin [H | H]]]; rewrite S1.
    + destruct (name_first_Some scorer rows _ bd n Hin H) as [m E].
      unfold names, d in *. rewrite Na in E. injection E as ->.
      destruct (best_of_formats_max (Some m) nb m) as [m' [-> _]]; eauto.
    + destruct (name_first_Some scorer rows _ bd n Hin H) as [m E].
      unfold names, d in *. rewrite Nb in E. injection E as ->.
      destruct (best_of_formats_max na (Some m) m) as [m' [-> _]]; eauto.
  - intros Z U. rewrite S1.
    pose proof (name_first_None scorer rows (Full_Name athlete) bd
                  (fun n Hn => proj1 (Z n Hn)) U) as E1.
    pose proof (name_first_None scorer rows (Full_Name_Reversed athlete) bd
                  (fun n Hn => proj2 (Z n Hn)) U) as E2.
    unfold names, d in *. rewrite Na in E1. rewrite Nb in E2.
    injection E1 as ->. injection E2 as ->. reflexivity.
Qed.

Lemma C4_witness :
  FuzzyMatch2.strategy2 exact_scorer ab_cd_2005 (wa_athletes_dict pair_registry)
  = Ok None.
Proof.
  apply (proj1 (proj2 (C4_strategy_results exact_scorer pair_registry
                         ab_cd_2005 exact_scorer_nonneg))).
  - reflexivity.
  - intros n data G.
    apply PyDictFacts.get_In in G.
    set (d := wa_athletes_dict pair_registry) in G. vm_compute in d. subst d.
    destruct G as [G | [G | []]]; injection G as _ <-; discriminate.
Defined.

(** C4 as stated fails: the dictionary holds a record and, for the athlete
    "ab cd" born 2005-07-01, both strategies return [None]: the name scores
    are 0 and no record has that birth date. *)
Lemma C4_counterexample :
  wa_athletes_dict xyz_registry <> [] /\
  FuzzyMatch2.strategy1 exact_scorer ab_cd_2005 (wa_names_list xyz_registry)
    (wa_athletes_dict xyz_registry) = Ok None /\
  FuzzyMatch2.strategy2 exact_scorer ab_cd_2005 (wa_athletes_dict xyz_registry)
  = Ok None.
Proof.
  split; [vm_compute; discriminate|].
  split; vm_compute; reflexivity.
Qed.

(** ** C5: the combination of the two strategies *)

(** C5.  When both strategies return a match: with the same id the overall
    score is the average of the two combined scores, between the smaller and
    the greater; with different ids it is 0.9 times the greater score and the
    final match is that of the strategy with the greater score (the first on
    a tie).  When one strategy alone returns a match, it is the final match
    and its score is unchanged. *)
Theorem C5_consensus (m1 m2 : Match) :
  let s1 := Combined_Match_Score m1 in
  let s2 := Combined_Match_Score m2 in
  (Matched_ID m1 = Matched_ID m2 ->
   exists s,
     FuzzyMatch2.combine (Some m1) (Some m2) = (Some m1, Some s) /\
     s == (s1 + s2) / 2 /\ Qmin s1 s2 <= s <= Qmax s1 s2) /\
  (Matched_ID m1 <> Matched_ID m2 ->
   exists fm s,
     FuzzyMatch2.combine (Some m1) (Some m2) = (Some fm, Some s) /\
     s == 0.9 * Qmax s1 s2 /\
     Combined_Match_Score fm == Qmax s1 s2 /\
     (s2 <= s1 -> fm = m1) /\ (s1 < s2 -> fm = m2)) /\
  FuzzyMatch2.combine (Some m1) None = (Some m1, Some s1) /\
  FuzzyMatch2.combine None (Some m2) = (Some m2, Some s2) /\
  FuzzyMatch2.combine None None = (None, None) /\
  FuzzyMatch3.combine = FuzzyMatch2.combine.
Proof.
  intros s1 s2. repeat split.
  - intro E. apply Z.eqb_eq in E. simpl. rewrite E.
    exists ((s1 + s2) / 2). split; [reflexivity|]. split; [reflexivity|].
    destruct (Q.min_spec s1 s2) as [[? ->] | [? ->]];
      destruct (Q.max_spec s1 s2) as [[? ->] | [? ->]];
      split; apply Qle_shift_div_l || apply Qle_shift_div_r; lra.
  - intro N. apply Z.eqb_neq in N. simpl. rewrite N.
    destruct (Qge_bool (Combined_Match_Score m1) (Combined_Match_Score m2))
      eqn:G; [apply Qge_bool_true in G | apply Qge_bool_false in G];
      fold s1 s2 in G.
    + exists m1, (s1 * 0.9).
      destruct (Q.max_spec s1 s2) as [[? ->] | [? ->]];
        repeat split; fold s1; try lra; intro; lra.
    + exists m2, (s2 * 0.9).
      destruct (Q.max_spec s1 s2) as [[? ->] | [? ->]];
        repeat split; fold s2; try lra; intro; lra.
Qed.

Lemma C5_witness :
  (exists s,
      FuzzyMatch2.combine (Some match_5_92) (Some match_5_88)
      = (Some match_5_92, Some s) /\
      s == (92 + 88) / 2 /\ Qmin 92 88 <= s <= Qmax 92 88) /\
  (exists fm s,
      FuzzyMatch2.combine (Some match_5_92) (Some match_9_88)
      = (Some fm, Some s) /\
      s == 0.9 * Qmax 92 88 /\
      Combined_Match_Score fm == Qmax 92 88 /\
      (88 <= 92 -> fm = match_5_92) /\ (92 < 88 -> fm = match_9_88)).
Proof.
  split.
  - apply (proj1 (C5_consensus match_5_92 match_5_88)). reflexivity.
  - apply (proj1 (proj2 (C5_consensus match_5_92 match_9_88))).
    vm_compute. discriminate.
Defined.

(** ** C6: the confidence bands *)

Ltac band_cases s :=
  destruct (Qge_bool s 90) eqn:?G90;
  [apply Qge_bool_true in G90 | apply Qge_bool_false in G90];
  destruct (Qge_bool s 70) eqn:?G70;
  [apply Qge_bool_true in G70 | apply Qge_bool_false in G70 |
   apply Qge_bool_true in G70 | apply Qge_bool_false in G70];
  simpl; repeat split; intros; try discriminate; try congruence;
  try reflexivity; try lra.

(** C6.  On the row of a matched athlete, for the overall score [s]: the
    confidence is High exactly when [s >= 90], Medium exactly when
    [70 <= s < 90] and Low exactly when [s < 70]; [WA_Recommended] is true
    exactly when [s >= 70]; [WA_Recommended_ID] holds the matched id exactly
    when [s >= 90] and is empty otherwise.  In fuzzy_match2.py and in
    fuzzy_match.py. *)
Theorem C6_confidence :
  (forall (m : FuzzyMatch2.ResultRow) (s : Q),
      FuzzyMatch2.Overall_Match_Score m = Some s ->
      let row := FuzzyMatch2.final_row m in
      (FuzzyMatch2.WA_Match_Confidence row = Some High <-> 90 <= s) /\
      (FuzzyMatch2.WA_Match_Confidence row = Some Medium
       <-> 70 <= s /\ s < 90) /\
      (FuzzyMatch2.WA_Match_Confidence row = Some Low <-> s < 70) /\
      (FuzzyMatch2.WA_Recommended row = true <-> 70 <= s) /\
      (FuzzyMatch2.WA_Recommended_ID row
       = Some (FuzzyMatch2.Final_Matched_ID m) <-> 90 <= s) /\
      (FuzzyMatch2.WA_Recommended_ID row = None <-> s < 90)) /\
  (forall (m : Match),
      let s := Combined_Match_Score m in
      let row := FuzzyMatch.final_row m in
      (FuzzyMatch.WA_Match_Confidence row = Some High <-> 90 <= s) /\
      (FuzzyMatch.WA_Match_Confidence row = Some Medium
       <-> 70 <= s /\ s < 90) /\
      (FuzzyMatch.WA_Match_Confidence row = Some Low <-> s < 70) /\
      (FuzzyMatch.WA_Recommended row = true <-> 70 <= s) /\
      (FuzzyMatch.WA_Recommended_ID row = Some (Matched_ID m) <-> 90 <= s) /\
      (FuzzyMatch.WA_Recommended_ID row = None <-> s < 90)).
Proof.
  split.
  - intros m s E row. subst row.
    unfold FuzzyMatch2.final_row, FuzzyMatch2.write_recommended_id,
      FuzzyMatch2.high_mask, FuzzyMatch2.write_match. simpl. rewrite E.
    band_cases s.
  - intros m s row. subst row.
    unfold FuzzyMatch.final_row, FuzzyMatch.write_recommended_id,
      FuzzyMatch.high_mask, FuzzyMatch.write_match. simpl. fold s.
    band_cases s.
Qed.

Lemma C6_witness :
  let row := FuzzyMatch2.final_row disagreeing_result in
  (FuzzyMatch2.WA_Match_Confidence row = Some High <-> 90 <= 82.8) /\
  (FuzzyMatch2.WA_Match_Confidence row = Some Medium
   <-> 70 <= 82.8 /\ 82.8 < 90) /\
  (FuzzyMatch2.WA_Match_Confidence row = Some Low <-> 82.8 < 70) /\
  (FuzzyMatch2.WA_Recommended row = true <-> 70 <= 82.8) /\
  (FuzzyMatch2.WA_Recommended_ID row
   = Some (FuzzyMatch2.Final_Matched_ID disagreeing_result) <-> 90 <= 82.8) /\
  (FuzzyMatch2.WA_Recommended_ID row = None <-> 82.8 < 90).
Proof.
  apply (proj1 C6_confidence disagreeing_result 82.8). reflexivity.
Defined.

(** ** C8: the aggregation across backends *)

Lemma mean_one (a : Q) : FuzzyMatch3.mean [a] == a.
Proof. unfold FuzzyMatch3.mean. simpl. field. Qed.

Lemma mean_two (a b : Q) : FuzzyMatch3.mean [a; b] == (a + b) / 2.
Proof. unfold FuzzyMatch3.mean. simpl. field. Qed.

(** C8, as the code has it.  [avg_score] is the plain mean of the
    per-backend overall scores that exist, whatever the matched ids: the
    average of the two when both exist, the one that exists otherwise, nothing
    when none does.  It coincides with the rule of the strategy-level
    combination when the two backends matched the same id or when a backend
    has no score; no penalty of 0.9 is applied when the ids differ. *)
Theorem C8_avg_score (row : FuzzyMatch3.ResultRow) :
  (forall a b,
      FuzzyMatch3.FW_Overall_Score row = Some a ->
      FuzzyMatch3.RF_Overall_Score row = Some b ->
      exists s, FuzzyMatch3.avg_score row = Some s /\ s == (a + b) / 2) /\
  (forall a,
      FuzzyMatch3.FW_Overall_Score row = Some a ->
      FuzzyMatch3.RF_Overall_Score row = None ->
      exists s, FuzzyMatch3.avg_score row = Some s /\ s == a) /\
  (forall b,
      FuzzyMatch3.FW_Overall_Score row = None ->
      FuzzyMatch3.RF_Overall_Score row = Some b ->
      exists s, FuzzyMatch3.avg_score row = Some s /\ s == b) /\
  (FuzzyMatch3.FW_Overall_Score row = None ->
   FuzzyMatch3.RF_Overall_Score row = None ->
   FuzzyMatch3.avg_score row = None) /\
  (FuzzyMatch3.FW_Matched_ID row = FuzzyMatch3.RF_Matched_ID row \/
   FuzzyMatch3.FW_Overall_Score row = None \/
   FuzzyMatch3.RF_Overall_Score row = None ->
   option_Qeq (FuzzyMatch3.avg_score row)
     (FuzzyMatch3.spec_backend_aggregate row)).
Proof.
  unfold FuzzyMatch3.avg_score, FuzzyMatch3.spec_backend_aggregate.
  repeat split.
  - intros a b -> ->. simpl. eexists. split; [reflexivity | apply mean_two].
  - intros a -> ->. simpl. eexists. split; [reflexivity | apply mean_one].
  - intros b -> ->. simpl. eexists. split; [reflexivity | apply mean_one].
  - intros -> ->. reflexivity.
  - destruct (FuzzyMatch3.FW_Overall_Score row) as [a|],
      (FuzzyMatch3.RF_Overall_Score row) as [b|]; simpl;
      try (intros _; apply mean_one); try exact (fun _ => I).
    intros [E | [E | E]]; try discriminate. rewrite E.
    destruct (FuzzyMatch3.RF_Matched_ID row) as [i|]; simpl;
      [rewrite Z.eqb_refl|]; apply mean_two.
Qed.

Lemma C8_witness :
  exists s, FuzzyMatch3.avg_score disagreeing_backends = Some s /\
            s == (92 + 88) / 2.
Proof.
  apply (proj1 (C8_avg_score disagreeing_backends)); reflexivity.
Defined.

(** C8 as stated fails: the backends matched the ids 5 and 9 with the scores
    92 and 88; [avg_score] is 90, the rule of the strategy level gives
    [0.9 * 92 = 82.8]. *)
Lemma C8_counterexample :
  exists s s',
    FuzzyMatch3.avg_score disagreeing_backends = Some s /\
    FuzzyMatch3.spec_backend_aggregate disagreeing_backends = Some s' /\
    s == 90 /\ s' == 82.8 /\ ~ s == s'.
Proof.
  eexists. eexists. split; [reflexivity|]. split; [reflexivity|].
  repeat split; try (vm_compute; reflexivity). vm_compute. discriminate.
Qed.

(** ** C9: records of the same name *)

(** C9.  The dictionary has one entry per name, the last record of that
    name; every match returned by a matching function of the three scripts
    carries the id and the birth date of the last record that has the
    matched name, so that an earlier record of that name is never what is
    returned. *)
Theorem C9_last_record_wins (scorer : string -> string -> Q)
        (rows : list WaRow) :
  NoDup (PyDict.keys (wa_athletes_dict rows)) /\
  (forall n, PyDict.get n (wa_athletes_dict rows)
             = option_map wa_data_of (last_named n rows)) /\
  (forall name bd m,
      FuzzyMatch2.find_best_match_name_first scorer name bd
        (wa_names_list rows) (wa_athletes_dict rows) = Ok (Some m) \/
      FuzzyMatch.find_best_match scorer name bd
        (wa_names_list rows) (wa_athletes_dict rows) = Ok (Some m) \/
      FuzzyMatch2.find_best_match_birth_first scorer bd name
        (wa_athletes_dict rows) = Ok (Some m) ->
      exists row,
        last_named (Matched_Name m) rows = Some row /\
        Matched_ID m = ID row /\
        Matched_Birth_Date m = birthDate row).
Proof.
  split; [apply wa_athletes_dict_NoDup|].
  split; [apply wa_athletes_dict_get|].
  intros name bd m. rewrite find_best_match_name_first_1.
  intros [H | [H | H]].
  1, 2: apply name_first_returns in H; destruct H as [data [G [_ [E _]]]].
  3: apply birth_first_returns in H; destruct H as [data [G E]];
     apply candidates_of_get in G; [destruct G as [G _]
                                   | apply wa_athletes_dict_NoDup].
  all: rewrite wa_athletes_dict_get in G;
    destruct (last_named (Matched_Name m) rows) as [row|]; [|discriminate];
    injection G as <-; exists row; rewrite E; simpl; auto.
Qed.

Lemma C9_witness :
  exists row,
    last_named (Matched_Name duplicate_match) sample_registry = Some row /\
    Matched_ID duplicate_match = ID row /\
    Matched_Birth_Date duplicate_match = birthDate row.
Proof.
  apply (proj2 (proj2 (C9_last_record_wins exact_scorer sample_registry))
           "Ali Hassan" (Some "2000-01-05") duplicate_match).
  left. vm_compute. reflexivity.
Defined.

(** ** C7: an exact match *)

Section ExactMatch.
Variable scorer : string -> string -> Q.
Variable rows : list WaRow.
Variable athlete : Athlete.
Variable n : string.
Variable row : WaRow.

Let bd := Birth_date_str athlete.
Let d := wa_athletes_dict rows.
Let names := wa_names_list rows.

Hypothesis scorer_le : forall a b, scorer a b <= 100.
Hypothesis held : last_named n rows = Some row.
Hypothesis dated : truthy bd = true.
Hypothesis same_date : bd = birthDate row.
Hypothesis perfect : scorer n n == 100.




Section OneFormat.
Variable q : string.
Hypothesis others_below :
  forall n', In n' names -> n' <> n -> scorer q n' < 100.




Hypothesis q_scores_n : scorer q n == 100.


End OneFormat.


Hypothesis exact :
  Full_Name athlete = n \/ Full_Name_Reversed athlete = n.
Hypothesis others_below :
  forall n', In n' names -> n' <> n ->
             scorer (Full_Name athlete) n' < 100 /\
             scorer (Full_Name_Reversed athlete) n' < 100.





End ExactMatch.



(** * Further properties of the scripts *)

(** ** The preparation loop *)

Lemma wa_dict_keys_iff (rows : list WaRow) (n : string) :
  In n (PyDict.keys (wa_athletes_dict rows)) <-> In n (wa_names_list rows).
Proof.
  split; intro H.
  - destruct (PyDict.get n (wa_athletes_dict rows)) as [data|] eqn:E.
    + now apply wa_dict_keys_in_names in E.
    + apply PyDictFacts.get_None in E. contradiction.
  - destruct (wa_names_in_dict rows n H) as [data E].
    destruct (in_dec string_dec n (PyDict.keys (wa_athletes_dict rows)))
      as [I | I]; [exact I|].
    apply PyDictFacts.get_None in I. congruence.
Qed.

Lemma wa_dict_keys_order (rows : list WaRow) :
  rev (PyDict.keys (wa_athletes_dict rows))
  = nodup string_dec (rev (map Name rows)).
Proof.
  induction rows as [|row rows IH] using rev_ind; [reflexivity|].
  unfold wa_athletes_dict in *. rewrite prepare_snoc. simpl.
  rewrite PyDictFacts.keys_set, map_app, rev_app_distr. simpl.
  destruct (in_dec string_dec (Name row) (rev (map Name rows))) as [I | I].
  - destruct (PyDict.get (Name row) (fst (prepare rows))) eqn:E; [exact IH|].
    exfalso. apply PyDictFacts.get_None in E. apply E.
    apply (wa_dict_keys_iff rows). rewrite wa_names_list_map.
    now apply in_rev.
  - destruct (PyDict.get (Name row) (fst (prepare rows))) as [data|] eqn:E.
    + exfalso. apply I. rewrite <- in_rev, <- wa_names_list_map.
      eapply wa_dict_keys_in_names. exact E.
    + rewrite rev_app_distr. simpl. now rewrite IH.
Qed.

(** X1.  After the preparation loop [wa_names_list] holds the name of every
    row of the sheet, in order and with repetitions, and the keys of
    [wa_athletes_dict] are these names without repetition, in the order of
    their first appearance.  The dictionary is never longer than the list,
    and as long exactly when no two rows have the same name. *)
Theorem X1_prepared_tables (rows : list WaRow) :
  wa_names_list rows = map Name rows /\
  PyDict.keys (wa_athletes_dict rows)
  = rev (nodup string_dec (rev (map Name rows))) /\
  (forall n, In n (PyDict.keys (wa_athletes_dict rows))
             <-> In n (wa_names_list rows)) /\
  (List.length (wa_athletes_dict rows) <= List.length (wa_names_list rows))%nat /\
  (List.length (wa_athletes_dict rows) = List.length (wa_names_list rows)
   <-> NoDup (map Name rows)).
Proof.
  pose proof (wa_athletes_dict_NoDup rows) as ND.
  assert (L : List.length (wa_athletes_dict rows)
              = List.length (PyDict.keys (wa_athletes_dict rows)))
    by (unfold PyDict.keys; now rewrite length_map).
  assert (I1 : incl (PyDict.keys (wa_athletes_dict rows)) (wa_names_list rows))
    by (intros n; apply wa_dict_keys_iff).
  assert (I2 : incl (wa_names_list rows) (PyDict.keys (wa_athletes_dict rows)))
    by (intros n; apply wa_dict_keys_iff).
  split; [apply wa_names_list_map|].
  split; [rewrite <- wa_dict_keys_order; now rewrite rev_involutive|].
  split; [apply wa_dict_keys_iff|].
  split; [rewrite L; now apply NoDup_incl_length|].
  rewrite L, <- wa_names_list_map. split.
  - intro E.
    apply NoDup_incl_NoDup with (l := PyDict.keys (wa_athletes_dict rows));
      [exact ND | lia | exact I1].
  - intro NDn. apply Nat.le_antisymm; now apply NoDup_incl_length.
Qed.

(** ** Missing keys *)

Lemma for_each_name_first_error (bd : pyvalue) (d : PyDict.t WaData)
      (matches : list (string * Q)) :
  (exists x, In x matches /\ PyDict.get (fst x) d = None) ->
  forall st, exists k,
      for_each (FuzzyMatch2.name_first_body bd d) matches st = KeyError k /\
      PyDict.get k d = None /\ In k (map fst matches).
Proof.
  induction matches as [|y matches IH]; intros [x [Hin Hx]] st;
    [destruct Hin|].
  simpl. unfold FuzzyMatch2.name_first_body at 1, PyDict.subscript.
  destruct (PyDict.get (fst y) d) as [data|] eqn:E; simpl.
  - destruct Hin as [-> | Hin]; [congruence|].
    destruct (Qgt_bool _ (snd st)); simpl;
      match goal with
      | |- context [for_each _ matches ?st'] =>
          destruct (IH (ex_intro _ x (conj Hin Hx)) st') as [k [H1 [H2 H3]]]
      end; exists k; auto.
  - exists (fst y). auto.
Qed.

Lemma strategy1_total (scorer : string -> string -> Q) (rows : list WaRow)
      (athlete : Athlete) :
  exists r, FuzzyMatch2.strategy1 scorer athlete (wa_names_list rows)
              (wa_athletes_dict rows) = Ok r.
Proof.
  unfold FuzzyMatch2.strategy1.
  destruct (name_first_total scorer rows (Full_Name athlete)
              (Birth_date_str athlete)) as [ra ->].
  destruct (name_first_total scorer rows (Full_Name_Reversed athlete)
              (Birth_date_str athlete)) as [rb ->].
  simpl. eauto.
Qed.

Lemma strategy2_total (scorer : string -> string -> Q) (d : PyDict.t WaData)
      (athlete : Athlete) :
  exists r, FuzzyMatch2.strategy2 scorer athlete d = Ok r.
Proof.
  unfold FuzzyMatch2.strategy2.
  destruct (birth_first_total scorer d (Full_Name athlete)
              (Birth_date_str athlete)) as [ra ->].
  destruct (birth_first_total scorer d (Full_Name_Reversed athlete)
              (Birth_date_str athlete)) as [rb ->].
  simpl. eauto.
Qed.

Lemma match_athlete_total (scorer : string -> string -> Q) (rows : list WaRow)
      (idx : nat) (athlete : Athlete) :
  exists r, FuzzyMatch2.match_athlete scorer idx athlete (wa_names_list rows)
              (wa_athletes_dict rows) = Ok r.
Proof.
  unfold FuzzyMatch2.match_athlete.
  destruct (strategy1_total scorer rows athlete) as [r1 ->].
  destruct (strategy2_total scorer (wa_athletes_dict rows) athlete) as [r2 ->].
  simpl. destruct (FuzzyMatch2.combine r1 r2) as [[fm|] os]; eauto.
Qed.

(** X2.  On the tables of the preparation loop no script raises [KeyError]:
    every name of [wa_names_list] is a key of [wa_athletes_dict].  On other
    tables the name-first function raises [KeyError] as soon as one of its
    five candidates is not a key of the dictionary, on a name of the list
    that the dictionary lacks.  The birth date-first function, which takes
    its candidates from the dictionary, never raises. *)
Theorem X2_key_errors (scorer : string -> string -> Q) :
  (forall rows idx athlete,
      exists r, FuzzyMatch2.match_athlete scorer idx athlete
                  (wa_names_list rows) (wa_athletes_dict rows) = Ok r) /\
  (forall rows name bd,
      exists r, FuzzyMatch.find_best_match scorer name bd
                  (wa_names_list rows) (wa_athletes_dict rows) = Ok r) /\
  (forall rf_scorer rows idx athlete,
      exists r, FuzzyMatch3.match_athlete scorer rf_scorer idx athlete
                  (wa_names_list rows) (wa_athletes_dict rows) = Ok r) /\
  (forall names d name bd,
      (exists x, In x (extract scorer name names 5) /\
                 PyDict.get (fst x) d = None) ->
      exists k,
        FuzzyMatch2.find_best_match_name_first scorer name bd names d
        = KeyError k /\
        PyDict.get k d = None /\ In k names) /\
  (forall d name bd,
      exists r, FuzzyMatch2.find_best_match_birth_first scorer bd name d
                = Ok r).
Proof.
  assert (B : forall sc rows athlete,
             exists r, FuzzyMatch3.backend sc athlete (wa_names_list rows)
                         (wa_athletes_dict rows) = Ok r).
  { intros sc rows athlete. rewrite backend_strategies.
    destruct (strategy1_total sc rows athlete) as [r1 ->].
    destruct (strategy2_total sc (wa_athletes_dict rows) athlete) as [r2 ->].
    simpl. eauto. }
  split; [intros; apply match_athlete_total|].
  split; [intros; rewrite find_best_match_name_first_1;
          apply name_first_total|].
  split.
  - intros rf rows idx athlete. unfold FuzzyMatch3.match_athlete.
    destruct (B scorer rows athlete) as [fw ->].
    destruct (B rf rows athlete) as [r ->]. simpl. eauto.
  - split; [|intros; apply birth_first_total].
    intros names d name bd H.
    destruct (for_each_name_first_error bd d _ H (None, 0))
      as [k [E [G I]]].
    exists k. unfold FuzzyMatch2.find_best_match_name_first. rewrite E.
    split; [reflexivity|]. split; [exact G|].
    apply in_map_iff in I. destruct I as [x [<- Hx]].
    now apply extract_In in Hx.
Qed.

Lemma X2_witness :
  exists k,
    FuzzyMatch2.find_best_match_name_first exact_scorer "ab cd"
      (Some "2005-07-01") ["Xyz"] [] = KeyError k /\
    PyDict.get k ([] : PyDict.t WaData) = None /\ In k ["Xyz"].
Proof.
  apply (proj1 (proj2 (proj2 (proj2 (X2_key_errors exact_scorer))))).
  exists ("Xyz", 0). split; [vm_compute; now left | reflexivity].
Defined.

(** ** Which candidate a loop keeps *)

(** X3.  On the tables of the preparation loop, the match returned by the
    name-first function is built from one of the five candidates of
    [process.extract] and from the record that the dictionary holds under
    the candidate's name; its combined score is positive, and none of the
    five candidates has a greater combined score.  (Which of several
    candidates of the same combined score is kept is left open: the order of
    two such scores can depend on the rounding of a floating-point
    product.) *)
Theorem X3_name_first_keeps_a_best (scorer : string -> string -> Q)
        (rows : list WaRow) (name : string) (bd : pyvalue) (m : Match) :
  FuzzyMatch2.find_best_match_name_first scorer name bd
    (wa_names_list rows) (wa_athletes_dict rows) = Ok (Some m) ->
  exists data,
    In (Matched_Name m, Name_Match_Score m)
       (extract scorer name (wa_names_list rows) 5) /\
    PyDict.get (Matched_Name m) (wa_athletes_dict rows) = Some data /\
    m = name_first_candidate bd data (Matched_Name m, Name_Match_Score m) /\
    0 < Combined_Match_Score m /\
    (forall x data',
        In x (extract scorer name (wa_names_list rows) 5) ->
        PyDict.get (fst x) (wa_athletes_dict rows) = Some data' ->
        Combined_Match_Score (name_first_candidate bd data' x)
        <= Combined_Match_Score m).
Proof.
  destruct (name_first_keep scorer rows name bd) as [cs [F ->]].
  intros [= H].
  apply keep_best_Some in H. destruct H as [Hin [Hpos Hmax]].
  destruct (candidates_for_In _ _ _ _ _ F Hin) as [x [data [Hx [G E]]]].
  exists data.
  assert (Ex : x = (Matched_Name m, Name_Match_Score m))
    by (rewrite E; destruct x; reflexivity).
  rewrite <- Ex. repeat split; auto.
  - rewrite Ex in G. exact G.
  - intros y data' Hy Gy.
    destruct (candidates_for_In_l _ _ _ _ y F Hy) as [data'' [Gy' Hc]].
    rewrite Gy in Gy'. injection Gy' as <-. now apply Hmax.
Qed.

Lemma X3_witness : 0 < Combined_Match_Score duplicate_match.
Proof.
  destruct (X3_name_first_keeps_a_best exact_scorer sample_registry
              "Ali Hassan" (Some "2000-01-05") duplicate_match)
    as [data [_ [_ [_ [H _]]]]].
  - vm_compute. reflexivity.
  - exact H.
Defined.

(** ** The scores of the name-first function *)

(** X4.  On the tables of the preparation loop and with a backend whose
    scores are in [0, 100], a match returned by the name-first function has
    the backend's score of the matched name as name score and a combined
    score in (0, 100].  When the matched record has no birth date the
    combined score is the name score.  When the record has one and the value
    passed for the athlete is true (a date, or the [nan] of an empty cell),
    the combined score is [0.7 * name_score + 30], at least 30, if the two
    are equal, and [0.7 * name_score], at most 70, if they differ, as they do
    for [nan]. *)
Theorem X4_name_first_by_dates (scorer : string -> string -> Q)
        (rows : list WaRow) (name : string) (bd : pyvalue) (m : Match) :
  (forall a b, 0 <= scorer a b <= 100) ->
  FuzzyMatch2.find_best_match_name_first scorer name bd
    (wa_names_list rows) (wa_athletes_dict rows) = Ok (Some m) ->
  Name_Match_Score m = scorer name (Matched_Name m) /\
  0 < Combined_Match_Score m <= 100 /\
  (truthy (Matched_Birth_Date m) = false ->
   Birth_Date_Match_Score m = 0 /\
   Combined_Match_Score m = Name_Match_Score m) /\
  (truthy bd = true -> truthy (Matched_Birth_Date m) = true ->
   bd = Matched_Birth_Date m ->
   Birth_Date_Match_Score m = 100 /\
   Combined_Match_Score m == 0.7 * Name_Match_Score m + 30 /\
   30 <= Combined_Match_Score m) /\
  (truthy bd = true -> truthy (Matched_Birth_Date m) = true ->
   bd <> Matched_Birth_Date m ->
   Birth_Date_Match_Score m = 0 /\
   Combined_Match_Score m == 0.7 * Name_Match_Score m /\
   Combined_Match_Score m <= 70) /\
  (bd = NaN -> truthy (Matched_Birth_Date m) = true ->
   Combined_Match_Score m == 0.7 * Name_Match_Score m).
Proof.
  intros R H. apply name_first_returns in H.
  destruct H as [data [_ [_ [E Hpos]]]].
  pose proof (R name (Matched_Name m)) as Hr.
  rewrite E in Hpos |- *. unfold name_first_candidate in *. simpl in *.
  destruct (truthy (wd_birthDate data)) eqn:T'.
  2:{ rewrite andb_false_r in *.
      split; [reflexivity|]. split; [split; lra|].
      split; [auto|]. repeat split; intros; discriminate. }
  destruct (truthy bd) eqn:T; simpl in *.
  2:{ split; [reflexivity|]. split; [split; lra|].
      split; [intros; discriminate|].
      split; [intros; discriminate|].
      split; [intros; discriminate|].
      intros ->. discriminate. }
  destruct (py_eqb bd (wd_birthDate data)) eqn:P.
  - apply py_eqb_Value in P.
    split; [reflexivity|]. split; [split; lra|].
    split; [intros; discriminate|].
    split; [intros _ _ _; repeat split; lra|].
    split; [intros _ _ N; contradiction|].
    intros ->. discriminate.
  - assert (N : bd <> wd_birthDate data).
    { intro Q. apply py_eqb_Value in Q. congruence. }
    split; [reflexivity|]. split; [split; lra|].
    split; [intros; discriminate|].
    split; [intros _ _ Q; contradiction|].
    split; intros; repeat split; lra.
Qed.

Lemma X4_witness :
  Name_Match_Score duplicate_match
  = exact_scorer "Ali Hassan" (Matched_Name duplicate_match) /\
  0 < Combined_Match_Score duplicate_match <= 100.
Proof.
  destruct (X4_name_first_by_dates exact_scorer sample_registry "Ali Hassan"
              (Some "2000-01-05") duplicate_match exact_scorer_range)
    as [H1 [H2 _]].
  - vm_compute. reflexivity.
  - split; [exact H1 | exact H2].
Defined.

(** ** The three scripts against each other *)

(** X7.  The three scripts compute the same things under different texts:
    [find_best_match] of fuzzy_match.py, with its extra variable
    [best_score], and the [_fw] and [_rf] name-first functions of
    fuzzymatch_3.py, with their one-line conditionals, return what
    [find_best_match_name_first] of fuzzy_match2.py returns, errors
    included; the three ways of choosing between the two name formats agree;
    and a backend of fuzzymatch_3.py is the two strategies of fuzzy_match2.py
    followed by their combination. *)
Theorem X7_scripts_agree (scorer : string -> string -> Q) (name : string)
        (bd : pyvalue) (names : list string) (d : PyDict.t WaData)
        (a b : option Match) (athlete : Athlete) :
  FuzzyMatch.find_best_match scorer name bd names d
  = FuzzyMatch2.find_best_match_name_first scorer name bd names d /\
  FuzzyMatch3.find_best_match_name_first scorer name bd names d
  = FuzzyMatch2.find_best_match_name_first scorer name bd names d /\
  FuzzyMatch3.find_best_match_birth_first scorer bd name d
  = FuzzyMatch2.find_best_match_birth_first scorer bd name d /\
  FuzzyMatch.choose a b = FuzzyMatch2.best_of_formats a b /\
  FuzzyMatch3.best_of_formats a b = FuzzyMatch2.best_of_formats a b /\
  FuzzyMatch3.backend scorer athlete names d
  = (best_match1 <- FuzzyMatch2.strategy1 scorer athlete names d ;;
     best_match2 <- FuzzyMatch2.strategy2 scorer athlete d ;;
     Ok (FuzzyMatch2.combine best_match1 best_match2)).
Proof.
  split; [apply find_best_match_name_first_1|].
  split; [apply find_best_match_name_first_3|].
  split; [reflexivity|].
  split; [apply choose_best_of_formats|].
  split; [apply best_of_formats_3 | apply backend_strategies].
Qed.

(** ** What the matching loop appends *)

Lemma strategy1_match (scorer : string -> string -> Q) (athlete : Athlete)
      (names : list string) (d : PyDict.t WaData) (m : Match) :
  FuzzyMatch2.strategy1 scorer athlete names d = Ok (Some m) ->
  exists q, FuzzyMatch2.find_best_match_name_first scorer q
              (Birth_date_str athlete) names d = Ok (Some m).
Proof.
  unfold FuzzyMatch2.strategy1.
  destruct (FuzzyMatch2.find_best_match_name_first scorer (Full_Name athlete)
              (Birth_date_str athlete) names d) as [ra|k] eqn:Ea;
    simpl; [|discriminate].
  destruct (FuzzyMatch2.find_best_match_name_first scorer
              (Full_Name_Reversed athlete) (Birth_date_str athlete) names d)
    as [rb|k] eqn:Eb; simpl; [|discriminate].
  intros [= H].
  destruct (best_of_formats_cases ra rb) as [E | E]; rewrite E in H; subst;
    eauto.
Qed.

Lemma strategy2_match (scorer : string -> string -> Q) (athlete : Athlete)
      (d : PyDict.t WaData) (m : Match) :
  FuzzyMatch2.strategy2 scorer athlete d = Ok (Some m) ->
  exists q, FuzzyMatch2.find_best_match_birth_first scorer
              (Birth_date_str athlete) q d = Ok (Some m).
Proof.
  unfold FuzzyMatch2.strategy2.
  destruct (FuzzyMatch2.find_best_match_birth_first scorer
              (Birth_date_str athlete) (Full_Name athlete) d)
    as [ra|k] eqn:Ea; simpl; [|discriminate].
  destruct (FuzzyMatch2.find_best_match_birth_first scorer
              (Birth_date_str athlete) (Full_Name_Reversed athlete) d)
    as [rb|k] eqn:Eb; simpl; [|discriminate].
  intros [= H].
  destruct (best_of_formats_cases ra rb) as [E | E]; rewrite E in H; subst;
    eauto.
Qed.

Lemma name_first_record (scorer : string -> string -> Q) (rows : list WaRow)
      (name : string) (bd : pyvalue) (m : Match) :
  FuzzyMatch2.find_best_match_name_first scorer name bd
    (wa_names_list rows) (wa_athletes_dict rows) = Ok (Some m) ->
  held_record rows m.
Proof.
  intro H. apply name_first_returns in H. destruct H as [data [G [_ [E _]]]].
  rewrite wa_athletes_dict_get in G. unfold held_record.
  destruct (last_named (Matched_Name m) rows) as [row|]; [|discriminate].
  injection G as <-. exists row. rewrite E. simpl. auto.
Qed.

Lemma birth_first_record (scorer : string -> string -> Q) (rows : list WaRow)
      (name : string) (bd : pyvalue) (m : Match) :
  FuzzyMatch2.find_best_match_birth_first scorer bd name
    (wa_athletes_dict rows) = Ok (Some m) ->
  held_record rows m.
Proof.
  intro H. apply birth_first_returns in H. destruct H as [data [G E]].
  apply candidates_of_get in G; [|apply wa_athletes_dict_NoDup].
  destruct G as [G _].
  rewrite wa_athletes_dict_get in G. unfold held_record.
  destruct (last_named (Matched_Name m) rows) as [row|]; [|discriminate].
  injection G as <-. exists row. rewrite E. simpl. auto.
Qed.

Section ScoreRanges.
Variable scorer : string -> string -> Q.
Hypothesis scorer_range : forall a b, 0 <= scorer a b <= 100.

Lemma name_first_range (rows : list WaRow) (name : string) (bd : pyvalue)
      (m : Match) :
  FuzzyMatch2.find_best_match_name_first scorer name bd
    (wa_names_list rows) (wa_athletes_dict rows) = Ok (Some m) ->
  0 < Combined_Match_Score m <= 100.
Proof.
  intro H. apply name_first_returns in H.
  destruct H as [data [_ [_ [E Hpos]]]]. split; [exact Hpos|].
  pose proof (scorer_range name (Matched_Name m)) as Hr.
  rewrite E. unfold name_first_candidate. simpl.
  destruct (truthy bd && truthy (wd_birthDate data));
    [destruct (py_eqb bd (wd_birthDate data))|]; lra.
Qed.

Lemma birth_first_range (d : PyDict.t WaData) (name : string)
      (bd : pyvalue) (m : Match) :
  FuzzyMatch2.find_best_match_birth_first scorer bd name d = Ok (Some m) ->
  70 <= Combined_Match_Score m <= 100.
Proof.
  intro H. apply birth_first_returns in H. destruct H as [data [_ E]].
  pose proof (scorer_range name (Matched_Name m)) as Hr.
  rewrite E. unfold birth_first_candidate. simpl. split; lra.
Qed.

(** X5.  On the tables of the preparation loop and with a backend whose
    scores are in [0, 100], every element that the matching loop of
    fuzzy_match2.py appends to [results] carries the athlete's index and
    name, an overall score that is present and in (0, 100], and as final match
    the name, id and birth date of a record of the sheet, the last one of
    that name; the final id is the id found by one of the two approaches. *)
Theorem X5_appended_result (rows : list WaRow) (idx : nat)
        (athlete : Athlete) (r : FuzzyMatch2.ResultRow) :
  FuzzyMatch2.match_athlete scorer idx athlete
    (wa_names_list rows) (wa_athletes_dict rows) = Ok (Some r) ->
  FuzzyMatch2.Athlete_Index r = idx /\
  FuzzyMatch2.Athlete_Name r = Full_Name athlete /\
  (exists s, FuzzyMatch2.Overall_Match_Score r = Some s /\ 0 < s <= 100) /\
  (exists row,
      last_named (FuzzyMatch2.Final_Matched_Name r) rows = Some row /\
      In row rows /\
      FuzzyMatch2.Final_Matched_ID r = ID row /\
      FuzzyMatch2.Final_Matched_Birth_Date r = birthDate row) /\
  (FuzzyMatch2.A1_Matched_ID r = Some (FuzzyMatch2.Final_Matched_ID r) \/
   FuzzyMatch2.A2_Matched_ID r = Some (FuzzyMatch2.Final_Matched_ID r)).
Proof.
  unfold FuzzyMatch2.match_athlete.
  destruct (FuzzyMatch2.strategy1 scorer athlete (wa_names_list rows)
              (wa_athletes_dict rows)) as [r1|k] eqn:E1; simpl;
    [|discriminate].
  destruct (FuzzyMatch2.strategy2 scorer athlete (wa_athletes_dict rows))
    as [r2|k] eqn:E2; simpl; [|discriminate].
  assert (P1 : forall m, r1 = Some m ->
                         held_record rows m /\
                         0 < Combined_Match_Score m <= 100).
  { intros m ->. destruct (strategy1_match _ _ _ _ _ E1) as [q Hq].
    split; [eapply name_first_record | eapply name_first_range]; exact Hq. }
  assert (P2 : forall m, r2 = Some m ->
                         held_record rows m /\
                         0 < Combined_Match_Score m <= 100).
  { intros m ->. destruct (strategy2_match _ _ _ _ E2) as [q Hq].
    split; [eapply birth_first_record; exact Hq|].
    pose proof (birth_first_range _ _ _ _ Hq). lra. }
  assert (F : forall fm (s : Q),
             held_record rows fm ->
             exists row,
               last_named (Matched_Name fm) rows = Some row /\
               In row rows /\
               Matched_ID fm = ID row /\
               Matched_Birth_Date fm = birthDate row).
  { intros fm _ [row [L [I B]]]. exists row.
    pose proof (last_named_Name _ _ _ L) as [_ Hin]. auto. }
  destruct r1 as [m1|], r2 as [m2|]; simpl.
  - destruct (P1 m1 eq_refl) as [H1 B1]. destruct (P2 m2 eq_refl) as [H2 B2].
    destruct (Z.eqb (Matched_ID m1) (Matched_ID m2)) eqn:Z;
      [|destruct (Qge_bool (Combined_Match_Score m1)
                    (Combined_Match_Score m2)) eqn:G];
      intros [= <-]; simpl; repeat split; auto;
      try (eexists; split; [reflexivity|];
           split; (apply Qlt_shift_div_l || apply Qle_shift_div_r || idtac);
           lra);
      try (now apply (F _ 0)).
  - destruct (P1 m1 eq_refl) as [H1 B1].
    intros [= <-]; simpl; repeat split; auto;
      try (eexists; split; [reflexivity | lra]); now apply (F _ 0).
  - destruct (P2 m2 eq_refl) as [H2 B2].
    intros [= <-]; simpl; repeat split; auto;
      try (eexists; split; [reflexivity | lra]); now apply (F _ 0).
  - discriminate.
Qed.
End ScoreRanges.

Lemma X5_witness :
  exists s, FuzzyMatch2.Overall_Match_Score hassan_ali_result = Some s /\
            0 < s <= 100.
Proof.
  destruct (X5_appended_result exact_scorer exact_scorer_range pair_registry
              0%nat hassan_ali hassan_ali_result) as [_ [_ [H _]]].
  - vm_compute. reflexivity.
  - exact H.
Defined.

(** ** What a disagreement costs *)

Lemma Qhalf (x : Q) : x / 2 == (1 # 2) * x.
Proof. field. Qed.

(** X6.  When both approaches return a match with combined scores of at
    most 100: if their ids differ the overall score is at most 90, reaches 90
    only if one of the two scores is 100, and is never 100; the overall score
    is 100 exactly when the ids are equal and both scores are 100. *)
Theorem X6_disagreement_cap (m1 m2 : Match) (fm : option Match) (s : Q) :
  Combined_Match_Score m1 <= 100 ->
  Combined_Match_Score m2 <= 100 ->
  FuzzyMatch2.combine (Some m1) (Some m2) = (fm, Some s) ->
  (Matched_ID m1 <> Matched_ID m2 ->
   s <= 90 /\
   (90 <= s <-> Combined_Match_Score m1 == 100 \/
                Combined_Match_Score m2 == 100)) /\
  (s == 100 <-> Matched_ID m1 = Matched_ID m2 /\
                Combined_Match_Score m1 == 100 /\
                Combined_Match_Score m2 == 100).
Proof.
  intros B1 B2. simpl.
  destruct (Z.eqb (Matched_ID m1) (Matched_ID m2)) eqn:Z;
    [apply Z.eqb_eq in Z | apply Z.eqb_neq in Z].
  - intros [= _ <-]. rewrite Qhalf. split; [intro; contradiction|].
    split.
    + intro H. split; [exact Z|]. split; lra.
    + intros [_ [H1 H2]]. lra.
  - destruct (Qge_bool (Combined_Match_Score m1) (Combined_Match_Score m2))
      eqn:G; [apply Qge_bool_true in G | apply Qge_bool_false in G];
      intros [= _ <-]; (split; [intros _; split; [lra|]; split|]).
    + intro H. left. lra.
    + intros [H | H]; lra.
    + split; [intro; lra | intros [E _]; contradiction].
    + intro H. right. lra.
    + intros [H | H]; lra.
    + split; [intro; lra | intros [E _]; contradiction].
Qed.

Lemma X6_witness :
  (5%Z <> 9%Z ->
   92 * 0.9 <= 90 /\ (90 <= 92 * 0.9 <-> 92 == 100 \/ 88 == 100)) /\
  (92 * 0.9 == 100 <-> 5%Z = 9%Z /\ 92 == 100 /\ 88 == 100).
Proof.
  apply (X6_disagreement_cap match_5_92 match_9_88 (Some match_5_92)
           (92 * 0.9)).
  - vm_compute. discriminate.
  - vm_compute. discriminate.
  - reflexivity.
Defined.

(** ** The update of the frame *)

Lemma length_loc_set {A : Type} (f : A -> A) (df : list A) (i : nat) :
  List.length (loc_set i f df) = List.length df.
Proof.
  revert i. induction df as [|row df IH]; intros [|i]; simpl; auto.
Qed.

Lemma length_update_frame (results : list FuzzyMatch2.ResultRow) (rows : nat) :
  List.length (FuzzyMatch2.update_frame results rows) = rows.
Proof.
  unfold FuzzyMatch2.update_frame. rewrite length_map.
  rewrite <- (repeat_length FuzzyMatch2.blank rows) at 2.
  generalize (repeat FuzzyMatch2.blank rows).
  induction results as [|r results IH]; intro df; simpl; [reflexivity|].
  rewrite IH. apply length_loc_set.
Qed.

Lemma update_frame_other (results : list FuzzyMatch2.ResultRow) (rows i : nat) :
  (i < rows)%nat ->
  ~ In i (map FuzzyMatch2.Athlete_Index results) ->
  nth_error (FuzzyMatch2.update_frame results rows) i
  = Some FuzzyMatch2.blank.
Proof.
  intros Hlt Hn. unfold FuzzyMatch2.update_frame.
  rewrite nth_error_map, frame_other by exact Hn.
  now rewrite nth_error_repeat.
Qed.

(** X8.  The loop over [results_df] and the assignment of
    [WA_Recommended_ID] keep the number of rows of the frame.  When no two
    results have the same index, the row at the index of a result holds what
    that result writes, and every other row keeps the initial values: no
    matched name, no score, no confidence, [WA_Recommended] false and no
    recommended id. *)
Theorem X8_update_frame (results : list FuzzyMatch2.ResultRow) (rows : nat) :
  NoDup (map FuzzyMatch2.Athlete_Index results) ->
  List.length (FuzzyMatch2.update_frame results rows) = rows /\
  (forall m, In m results -> (FuzzyMatch2.Athlete_Index m < rows)%nat ->
             nth_error (FuzzyMatch2.update_frame results rows)
               (FuzzyMatch2.Athlete_Index m)
             = Some (FuzzyMatch2.final_row m)) /\
  (forall i, (i < rows)%nat ->
             ~ In i (map FuzzyMatch2.Athlete_Index results) ->
             nth_error (FuzzyMatch2.update_frame results rows) i
             = Some (FuzzyMatch2.mkColumns None None None None None None
                       None false None)).
Proof.
  intro ND. split; [apply length_update_frame|]. split.
  - intros m Hin Hlt. now apply update_frame_row.
  - intros i Hlt Hn. now apply update_frame_other.
Qed.

Lemma X8_witness :
  List.length (FuzzyMatch2.update_frame [hassan_ali_result] 2) = 2%nat /\
  nth_error (FuzzyMatch2.update_frame [hassan_ali_result] 2) 0
  = Some (FuzzyMatch2.final_row hassan_ali_result).
Proof.
  destruct (X8_update_frame [hassan_ali_result] 2) as [H1 [H2 _]].
  - repeat constructor. intros [].
  - split; [exact H1|]. apply (H2 hassan_ali_result); [now left|].
    simpl. lia.
Defined.

(** ** The whole of fuzzy_match2.py *)

Lemma for_each_collect {A B : Type} (f : A -> result (option B))
      (l : list A) :
  (forall x, In x l -> exists r, f x = Ok r) ->
  forall acc,
    for_each (fun results x =>
                r <- f x ;;
                Ok (match r with
                    | Some m => (results ++ [m])%list
                    | None => results
                    end)) l acc
    = Ok (acc ++ collect f l)%list.
Proof.
  induction l as [|x l IH]; intros H acc; simpl.
  - now rewrite app_nil_r.
  - destruct (H x (or_introl eq_refl)) as [r E]. rewrite E. simpl.
    rewrite IH by (intros; apply H; now right).
    destruct r as [m|]; [|reflexivity].
    now rewrite <- app_assoc.
Qed.

Lemma collect_In {A B : Type} (f : A -> result (option B)) (l : list A)
      (m : B) :
  In m (collect f l) <-> exists x, In x l /\ f x = Ok (Some m).
Proof.
  induction l as [|x l IH]; simpl.
  - split; [intros [] | intros [x [[] _]]].
  - destruct (f x) as [[m'|]|k] eqn:E; simpl; rewrite ?IH; split.
    + intros [<- | [y [Hy Ey]]]; eauto.
    + intros [y [[<- | Hy] Ey]]; [left; congruence | right; eauto].
    + intros [y [Hy Ey]]; eauto.
    + intros [y [[<- | Hy] Ey]]; [congruence | eauto].
    + intros [y [Hy Ey]]; eauto.
    + intros [y [[<- | Hy] Ey]]; [congruence | eauto].
Qed.

Lemma collect_NoDup {A B : Type} (f : A -> result (option B))
      (key : A -> nat) (idx : B -> nat) (l : list A) :
  (forall x m, f x = Ok (Some m) -> idx m = key x) ->
  NoDup (map key l) -> NoDup (map idx (collect f l)).
Proof.
  intros K. induction l as [|x l IH]; simpl; intro ND; [constructor|].
  inversion ND as [|? ? Hn ND']; subst.
  destruct (f x) as [[m|]|k] eqn:E; auto.
  simpl. constructor; [|auto].
  intro H. apply in_map_iff in H. destruct H as [m' [Em Hm]].
  apply collect_In in Hm. destruct Hm as [y [Hy Ey]].
  apply Hn. apply in_map_iff. exists y. split; [|exact Hy].
  rewrite <- (K _ _ Ey), Em. now apply K.
Qed.

Lemma iterrows_from_In {A : Type} (df : list A) (k i : nat) (row : A) :
  In (i, row) (iterrows_from k df) <->
  (k <= i)%nat /\ nth_error df (i - k) = Some row.
Proof.
  revert k. induction df as [|r df IH]; intro k; simpl.
  - split; [intros [] | intros [_ H]].
    destruct (i - k)%nat; discriminate.
  - rewrite IH. split.
    + intros [[= <- <-] | [Hle H]].
      * split; [lia|]. now rewrite Nat.sub_diag.
      * split; [lia|]. replace (i - k)%nat with (S (i - S k)) by lia.
        exact H.
    + intros [Hle H]. destruct (i - k)%nat as [|j] eqn:E.
      * left. injection H as ->. f_equal. lia.
      * right. split; [lia|]. replace (i - S k)%nat with j by lia. exact H.
Qed.

Lemma iterrows_from_NoDup {A : Type} (df : list A) (k : nat) :
  NoDup (map fst (iterrows_from k df)).
Proof.
  revert k. induction df as [|r df IH]; intro k; simpl; constructor; auto.
  intro H. apply in_map_iff in H. destruct H as [[i row] [E Hin]].
  simpl in E. subst i. apply iterrows_from_In in Hin. lia.
Qed.

Lemma NoDup_map_filter {A K : Type} (key : A -> K) (p : A -> bool)
      (l : list A) :
  NoDup (map key l) -> NoDup (map key (filter p l)).
Proof.
  induction l as [|x l IH]; simpl; intro ND; [constructor|].
  inversion ND as [|? ? Hn ND']; subst.
  destruct (p x); simpl; auto. constructor; auto.
  intro H. apply Hn. apply in_map_iff in H. destruct H as [y [E Hy]].
  apply filter_In in Hy. apply in_map_iff. exists y. tauto.
Qed.

Lemma athletes_without_wa_In (athlete_df : list AthleteRow) (i : nat)
      (row : AthleteRow) :
  In (i, row) (athletes_without_wa athlete_df) <->
  nth_error athlete_df i = Some row /\ WA_no row = None.
Proof.
  unfold athletes_without_wa, iterrows. rewrite filter_In. simpl.
  rewrite iterrows_from_In, Nat.sub_0_r. split.
  - intros [[_ H] W]. destruct (WA_no row); [discriminate | tauto].
  - intros [H W]. rewrite W. split; [split; [lia | exact H] | reflexivity].
Qed.

Lemma athletes_without_wa_NoDup (athlete_df : list AthleteRow) :
  NoDup (map fst (athletes_without_wa athlete_df)).
Proof.
  unfold athletes_without_wa.
  apply (NoDup_map_filter fst). apply iterrows_from_NoDup.
Qed.

Lemma NoDup_fst_unique {A : Type} (l : list (nat * A)) (i : nat) (a b : A) :
  NoDup (map fst l) -> In (i, a) l -> In (i, b) l -> a = b.
Proof.
  induction l as [|[j c] l IH]; simpl; intros ND Ha Hb; [destruct Ha|].
  inversion ND as [|? ? Hn ND']; subst.
  destruct Ha as [Ha | Ha], Hb as [Hb | Hb].
  - congruence.
  - exfalso. apply Hn. injection Ha as Hj _. subst j.
    change i with (fst (i, b)). now apply in_map.
  - exfalso. apply Hn. injection Hb as Hj _. subst j.
    change i with (fst (i, a)). now apply in_map.
  - now apply IH.
Qed.

Lemma match_athlete_index (scorer : string -> string -> Q) (idx : nat)
      (athlete : Athlete) (names : list string) (d : PyDict.t WaData)
      (r : FuzzyMatch2.ResultRow) :
  FuzzyMatch2.match_athlete scorer idx athlete names d = Ok (Some r) ->
  FuzzyMatch2.Athlete_Index r = idx /\
  FuzzyMatch2.Overall_Match_Score r <> None.
Proof.
  unfold FuzzyMatch2.match_athlete.
  destruct (FuzzyMatch2.strategy1 scorer athlete names d) as [r1|k]; simpl;
    [|discriminate].
  destruct (FuzzyMatch2.strategy2 scorer athlete d) as [r2|k]; simpl;
    [|discriminate].
  destruct r1 as [m1|], r2 as [m2|]; simpl;
    try destruct (Z.eqb _ _); try destruct (Qge_bool _ _);
    intros [= <-]; simpl; split; congruence.
Qed.

Section Script.
Variable scorer : string -> string -> Q.
Variable athlete_df : list AthleteRow.
Variable wa_codes_df : list WaRow.

(** What the body of the matching loop appends for a row. *)
Let f (ir : nat * AthleteRow) : result (option FuzzyMatch2.ResultRow) :=
  match athlete_of (snd ir) with
  | Some athlete =>
      FuzzyMatch2.match_athlete scorer (fst ir) athlete
        (wa_names_list wa_codes_df) (wa_athletes_dict wa_codes_df)
  | None => Ok None
  end.

Let results : list FuzzyMatch2.ResultRow :=
  collect f (athletes_without_wa athlete_df).

(** The name cells of the rows without [WA_no] are filled. *)
Let names_filled : Prop :=
  forall i row, nth_error athlete_df i = Some row -> WA_no row = None ->
                athlete_of row <> None.

Lemma matching_loop_collect (athletes : list (nat * AthleteRow)) :
  (forall ir, In ir athletes -> athlete_of (snd ir) <> None) ->
  forall acc,
    FuzzyMatch2.matching_loop scorer athletes (wa_names_list wa_codes_df)
      (wa_athletes_dict wa_codes_df) acc
    = Finished (Ok (acc ++ collect f athletes)%list).
Proof.
  induction athletes as [|[idx row] athletes IH]; intros H acc; simpl.
  - now rewrite app_nil_r.
  - unfold f at 1. simpl.
    destruct (athlete_of row) as [athlete|] eqn:A;
      [|exfalso; now apply (H (idx, row) (or_introl eq_refl))].
    destruct (match_athlete_total scorer wa_codes_df idx athlete) as [r E].
    rewrite E. rewrite IH by (intros; apply H; now right).
    destruct r as [m|]; [|reflexivity].
    now rewrite <- app_assoc.
Qed.

Lemma matching_loop_nan (df : list AthleteRow) :
  forall (k i : nat) (row : AthleteRow) (acc : list FuzzyMatch2.ResultRow),
    (k <= i)%nat ->
    nth_error df (i - k) = Some row ->
    WA_no row = None -> athlete_of row = None ->
    (forall j row', (k <= j < i)%nat -> nth_error df (j - k) = Some row' ->
                    WA_no row' = None -> athlete_of row' <> None) ->
    FuzzyMatch2.matching_loop scorer
      (filter (fun ir => match WA_no (snd ir) with
                         | None => true
                         | Some _ => false
                         end) (iterrows_from k df))
      (wa_names_list wa_codes_df) (wa_athletes_dict wa_codes_df) acc
    = Nan_name i.
Proof.
  induction df as [|r df IH]; intros k i row acc Hle Hrow W A Hbefore.
  - destruct (i - k)%nat; discriminate.
  - simpl. destruct (Nat.eq_dec i k) as [-> | Hne].
    + rewrite Nat.sub_diag in Hrow. injection Hrow as ->.
      rewrite W. simpl. now rewrite A.
    + assert (Hrow' : nth_error df (i - S k) = Some row).
      { replace (i - k)%nat with (S (i - S k)) in Hrow by lia. exact Hrow. }
      assert (Hbefore' : forall j row',
                 (S k <= j < i)%nat -> nth_error df (j - S k) = Some row' ->
                 WA_no row' = None -> athlete_of row' <> None).
      { intros j row' Hj Hn. apply (Hbefore j); [lia|].
        replace (j - k)%nat with (S (j - S k)) by lia. exact Hn. }
      destruct (WA_no r) eqn:Wr; simpl.
      * apply (IH (S k) i row); auto; lia.
      * assert (Ar : athlete_of r <> None).
        { apply (Hbefore k); [lia | now rewrite Nat.sub_diag | exact Wr]. }
        destruct (athlete_of r) as [athlete|]; [|contradiction].
        destruct (match_athlete_total scorer wa_codes_df k athlete)
          as [res E].
        rewrite E. apply (IH (S k) i row); auto; lia.
Qed.

Lemma script_results :
  names_filled ->
  FuzzyMatch2.script scorer athlete_df wa_codes_df
  = Finished (Ok (FuzzyMatch2.update_frame results (List.length athlete_df))).
Proof.
  intro F. unfold FuzzyMatch2.script.
  rewrite matching_loop_collect; [reflexivity|].
  intros [i row] Hin. apply athletes_without_wa_In in Hin.
  destruct Hin as [Hrow W]. now apply (F i).
Qed.

Lemma f_index (ir : nat * AthleteRow) (m : FuzzyMatch2.ResultRow) :
  f ir = Ok (Some m) ->
  FuzzyMatch2.Athlete_Index m = fst ir /\
  FuzzyMatch2.Overall_Match_Score m <> None.
Proof.
  unfold f. destruct (athlete_of (snd ir)) as [athlete|]; [|discriminate].
  apply match_athlete_index.
Qed.

Lemma results_NoDup : NoDup (map FuzzyMatch2.Athlete_Index results).
Proof.
  apply (collect_NoDup f fst); [|apply athletes_without_wa_NoDup].
  intros x m H. now apply f_index in H.
Qed.

Lemma results_index (i : nat) :
  In i (map FuzzyMatch2.Athlete_Index results) ->
  exists row m, In (i, row) (athletes_without_wa athlete_df) /\
                f (i, row) = Ok (Some m) /\ In m results.
Proof.
  intro H. apply in_map_iff in H. destruct H as [m [E Hm]].
  pose proof Hm as Hm'. apply collect_In in Hm'.
  destruct Hm' as [[j row] [Hx Ex]].
  pose proof (f_index _ _ Ex) as [Ei _].
  simpl in Ei. exists row, m. rewrite <- E, Ei. auto.
Qed.

Lemma frame_with_wa (i : nat) (row : AthleteRow) :
  nth_error athlete_df i = Some row -> WA_no row <> None ->
  nth_error (FuzzyMatch2.update_frame results (List.length athlete_df)) i
  = Some FuzzyMatch2.blank.
Proof.
  intros Hrow W.
  assert (Hlt : (i < List.length athlete_df)%nat)
    by (apply nth_error_Some; congruence).
  apply update_frame_other; [exact Hlt|].
  intro H. destruct (results_index i H) as [row' [m [Hin _]]].
  apply athletes_without_wa_In in Hin. destruct Hin as [Hrow' W'].
  congruence.
Qed.

(** X9.  fuzzy_match2.py as a whole, on a sheet [Athlete] whose name cells
    hold a string or are empty.  When the name cells of the rows without
    [WA_no] are filled, the script raises nothing and returns a frame with as
    many rows as [athlete_df]: the row of an athlete whose [WA_no] is filled
    keeps the initial values, so that no match is ever proposed for an
    athlete who has an id; the row of an athlete without [WA_no] is what
    matching that athlete alone against the reference sheet gives.  When a
    row without [WA_no] has an empty name cell, the embedding stops at the
    first such row, whose full name is [nan], and no frame is claimed.  An
    empty cell [Birth_date] gives the athlete the birth date [nan]. *)
Theorem X9_script_rows :
  ((forall i row, nth_error athlete_df i = Some row -> WA_no row = None ->
                  athlete_of row <> None) ->
   exists frame,
     FuzzyMatch2.script scorer athlete_df wa_codes_df = Finished (Ok frame) /\
     List.length frame = List.length athlete_df /\
     forall i row,
       nth_error athlete_df i = Some row ->
       (WA_no row <> None -> nth_error frame i = Some FuzzyMatch2.blank) /\
       (WA_no row = None ->
        exists athlete out,
          athlete_of row = Some athlete /\
          FuzzyMatch2.resolve scorer i athlete wa_codes_df = Ok out /\
          nth_error frame i = Some out)) /\
  (forall i row,
      nth_error athlete_df i = Some row -> WA_no row = None ->
      athlete_of row = None ->
      (forall j row', (j < i)%nat -> nth_error athlete_df j = Some row' ->
                      WA_no row' = None -> athlete_of row' <> None) ->
      FuzzyMatch2.script scorer athlete_df wa_codes_df = Nan_name i) /\
  (forall row athlete,
      athlete_of row = Some athlete ->
      (First_name_cell row = Some (First_name athlete) /\
       Last_name_cell row = Some (Last_name athlete)) /\
      (Birth_date row = None -> Birth_date_str athlete = NaN) /\
      (forall s, Birth_date row = Some s ->
                 Birth_date_str athlete = Value (Some s))).
Proof.
  split; [|split].
  - intro F.
    exists (FuzzyMatch2.update_frame results (List.length athlete_df)).
    split; [now apply script_results|]. split; [apply length_update_frame|].
    intros i row Hrow.
    assert (Hlt : (i < List.length athlete_df)%nat)
      by (apply nth_error_Some; congruence).
    split; [now apply frame_with_wa|].
    intro W.
    assert (Hin : In (i, row) (athletes_without_wa athlete_df))
      by (now apply athletes_without_wa_In).
    destruct (athlete_of row) as [athlete|] eqn:A;
      [|exfalso; now apply (F i row)].
    exists athlete. unfold FuzzyMatch2.resolve.
    destruct (match_athlete_total scorer wa_codes_df i athlete) as [r E].
    rewrite E. simpl. eexists. split; [reflexivity|].
    split; [reflexivity|].
    assert (Ef : f (i, row) = Ok r) by (unfold f; simpl; now rewrite A).
    destruct r as [m|].
    + assert (Hm : In m results)
        by (apply collect_In; exists (i, row); auto).
      pose proof (f_index _ _ Ef) as [Ei _]. simpl in Ei.
      rewrite <- Ei. apply update_frame_row;
        [apply results_NoDup | exact Hm | now rewrite Ei].
    + rewrite update_frame_other; [reflexivity | exact Hlt|].
      intro H. destruct (results_index i H) as [row' [m [Hin' [Em _]]]].
      rewrite (NoDup_fst_unique _ _ _ _ (athletes_without_wa_NoDup athlete_df)
                 Hin' Hin) in Em.
      congruence.
  - intros i row Hrow W A Hbefore. unfold FuzzyMatch2.script.
    unfold athletes_without_wa, iterrows.
    rewrite (matching_loop_nan athlete_df 0 i row); auto.
    + lia.
    + now rewrite Nat.sub_0_r.
    + intros j row' Hj Hn. rewrite Nat.sub_0_r in Hn.
      apply (Hbefore j); [lia | exact Hn].
  - intros row athlete. unfold athlete_of.
    destruct (First_name_cell row) as [fn|]; [|discriminate].
    destruct (Last_name_cell row) as [ln|]; [|discriminate].
    intros [= <-]. simpl. split; [split; reflexivity|].
    split; [intros ->; reflexivity | intros s ->; reflexivity].
Qed.

Lemma count_rows_cons (p : FuzzyMatch2.Columns -> bool)
      (row : FuzzyMatch2.Columns) (df : list FuzzyMatch2.Columns) :
  FuzzyMatch2.count_rows p (row :: df)
  = (Nat.b2n (p row) + FuzzyMatch2.count_rows p df)%nat.
Proof. unfold FuzzyMatch2.count_rows. simpl. now destruct (p row). Qed.

Lemma countable_counts (df : list FuzzyMatch2.Columns) :
  Forall countable df ->
  (FuzzyMatch2.count_rows (FuzzyMatch2.has_confidence High) df
   + FuzzyMatch2.count_rows (FuzzyMatch2.has_confidence Medium) df
   + FuzzyMatch2.count_rows (FuzzyMatch2.has_confidence Low) df
   = FuzzyMatch2.count_rows has_score df)%nat /\
  (FuzzyMatch2.count_rows FuzzyMatch2.is_perfect df
   <= FuzzyMatch2.count_rows (FuzzyMatch2.has_confidence High) df)%nat /\
  (FuzzyMatch2.count_rows FuzzyMatch2.WA_Recommended df
   = FuzzyMatch2.count_rows (FuzzyMatch2.has_confidence High) df
     + FuzzyMatch2.count_rows (FuzzyMatch2.has_confidence Medium) df)%nat /\
  FuzzyMatch2.count_rows has_recommended_id df
  = FuzzyMatch2.count_rows (FuzzyMatch2.has_confidence High) df.
Proof.
  induction 1 as [|row df [C1 [C2 [C3 C4]]] F [I1 [I2 [I3 I4]]]].
  - repeat split; reflexivity.
  - rewrite !count_rows_cons. rewrite C4.
    destruct (FuzzyMatch2.is_perfect row);
      [rewrite (C2 eq_refl) in *|]; simpl in *; repeat split; lia.
Qed.

Lemma blank_countable : countable FuzzyMatch2.blank.
Proof. repeat split. discriminate. Qed.

Lemma final_row_countable (m : FuzzyMatch2.ResultRow) :
  FuzzyMatch2.Overall_Match_Score m <> None ->
  countable (FuzzyMatch2.final_row m).
Proof.
  destruct (FuzzyMatch2.Overall_Match_Score m) as [s|] eqn:E; [|congruence].
  intros _.
  unfold countable, has_score, has_recommended_id, FuzzyMatch2.is_perfect,
    FuzzyMatch2.has_confidence, FuzzyMatch2.final_row,
    FuzzyMatch2.write_recommended_id, FuzzyMatch2.high_mask,
    FuzzyMatch2.write_match. simpl. rewrite E.
  destruct (Qge_bool s 90) eqn:G90; [|apply Qge_bool_false in G90];
    destruct (Qge_bool s 70) eqn:G70; simpl; repeat split; auto.
  all: intro P; apply Qeq_bool_iff in P; lra.
Qed.

Lemma filter_length_pointwise {A B : Type} (p : A -> bool) (q : B -> bool)
      (l1 : list A) :
  forall l2 : list B,
    List.length l1 = List.length l2 ->
    (forall i a b, nth_error l1 i = Some a -> nth_error l2 i = Some b ->
                   p a = true -> q b = true) ->
    (List.length (filter p l1) <= List.length (filter q l2))%nat.
Proof.
  induction l1 as [|a l1 IH]; intros [|b l2] L H; simpl in *;
    try discriminate; [lia|].
  assert (IH' : (List.length (filter p l1) <= List.length (filter q l2))%nat).
  { apply IH; [lia|]. intros i a' b' Ha Hb. apply (H (S i)); assumption. }
  destruct (p a) eqn:P; [|destruct (q b); simpl; lia].
  rewrite (H 0%nat a b eq_refl eq_refl P). simpl. lia.
Qed.

Lemma length_athletes_without_wa :
  List.length (athletes_without_wa athlete_df)
  = List.length (filter no_wa athlete_df).
Proof.
  unfold athletes_without_wa, iterrows.
  generalize 0%nat. induction athlete_df as [|row df IH]; intro k; simpl;
    [reflexivity|].
  unfold no_wa at 1. destruct (WA_no row); simpl; now rewrite IH.
Qed.

Lemma frame_countable :
  Forall countable
    (FuzzyMatch2.update_frame results (List.length athlete_df)).
Proof.
  apply Forall_forall. intros out Hin.
  apply In_nth_error in Hin. destruct Hin as [i Hi].
  assert (Hlt : (i < List.length athlete_df)%nat).
  { rewrite <- (length_update_frame results). apply nth_error_Some.
    congruence. }
  destruct (in_dec Nat.eq_dec i (map FuzzyMatch2.Athlete_Index results))
    as [I | I].
  - destruct (results_index i I) as [a [m [_ [Em Hm]]]].
    pose proof (f_index _ _ Em) as [Ei Es].
    simpl in Ei.
    rewrite <- Ei, (update_frame_row results _ m results_NoDup Hm) in Hi
      by (now rewrite Ei).
    injection Hi as <-. now apply final_row_countable.
  - rewrite update_frame_other in Hi by assumption.
    injection Hi as <-. apply blank_countable.
Qed.

(** X10.  The sheet [Matching_Summary], when the name cells of the rows
    without [WA_no] are filled.  The athletes with and without [WA_no] add up
    to the total; the High, Medium and Low counts add up to the number of
    rows that have a match score, which is at most the number of athletes
    without [WA_no].  Row by row: a row has a confidence exactly when it has
    a match score; a row whose score is 100 is High; [WA_Recommended] is true
    exactly on the High and the Medium rows; [WA_Recommended_ID] is filled
    exactly on the High rows; a row of an athlete who has a [WA_no] has no
    score.  Hence the perfect matches are counted among the High ones, and
    the rows with a recommended id are as many as the High ones. *)
Theorem X10_summary_counts :
  (forall i row, nth_error athlete_df i = Some row -> WA_no row = None ->
                 athlete_of row <> None) ->
  exists frame,
    FuzzyMatch2.script scorer athlete_df wa_codes_df = Finished (Ok frame) /\
    let sm := FuzzyMatch2.summary frame
                (List.length (athletes_without_wa athlete_df)) in
    FuzzyMatch2.Total_athletes sm = List.length athlete_df /\
    (FuzzyMatch2.With_existing_WA_no sm + FuzzyMatch2.Without_WA_no sm
     = FuzzyMatch2.Total_athletes sm)%nat /\
    (FuzzyMatch2.High_confidence sm + FuzzyMatch2.Medium_confidence sm
     + FuzzyMatch2.Low_confidence sm
     = FuzzyMatch2.count_rows has_score frame)%nat /\
    (FuzzyMatch2.count_rows has_score frame
     <= FuzzyMatch2.Without_WA_no sm)%nat /\
    (FuzzyMatch2.Perfect_matches sm <= FuzzyMatch2.High_confidence sm)%nat /\
    (FuzzyMatch2.count_rows FuzzyMatch2.WA_Recommended frame
     = FuzzyMatch2.High_confidence sm + FuzzyMatch2.Medium_confidence sm)%nat /\
    FuzzyMatch2.count_rows has_recommended_id frame
    = FuzzyMatch2.High_confidence sm /\
    (forall out, In out frame ->
       (has_score out = true <->
        FuzzyMatch2.WA_Match_Confidence out <> None) /\
       (FuzzyMatch2.is_perfect out = true ->
        FuzzyMatch2.WA_Match_Confidence out = Some High) /\
       (FuzzyMatch2.WA_Recommended out = true <->
        FuzzyMatch2.WA_Match_Confidence out = Some High \/
        FuzzyMatch2.WA_Match_Confidence out = Some Medium) /\
       (FuzzyMatch2.WA_Recommended_ID out <> None <->
        FuzzyMatch2.WA_Match_Confidence out = Some High)) /\
    (forall i row out,
        nth_error athlete_df i = Some row -> WA_no row <> None ->
        nth_error frame i = Some out -> has_score out = false).
Proof.
  intro F.
  exists (FuzzyMatch2.update_frame results (List.length athlete_df)).
  split; [now apply script_results|].
  destruct (countable_counts _ frame_countable) as [K1 [K2 [K3 K4]]].
  pose proof (length_update_frame results (List.length athlete_df)) as L.
  assert (W : (List.length (athletes_without_wa athlete_df)
               <= List.length athlete_df)%nat)
    by (rewrite length_athletes_without_wa; apply filter_length_le).
  assert (B : forall i row out,
             nth_error athlete_df i = Some row -> WA_no row <> None ->
             nth_error (FuzzyMatch2.update_frame results
                          (List.length athlete_df)) i = Some out ->
             has_score out = false).
  { intros i row out Hrow Wn Hout.
    rewrite (frame_with_wa i row Hrow Wn) in Hout.
    now injection Hout as <-. }
  simpl. rewrite L.
  split; [reflexivity|]. split; [lia|]. split; [exact K1|].
  split; [|split; [exact K2|]; split; [exact K3|]; split; [exact K4|];
           split; [|exact B]].
  - rewrite length_athletes_without_wa. unfold FuzzyMatch2.count_rows.
    apply filter_length_pointwise; [exact L|].
    intros i out row Hout Hrow S. unfold no_wa.
    destruct (WA_no row) as [z|] eqn:Wz; [exfalso | reflexivity].
    assert (Wn : WA_no row <> None) by congruence.
    rewrite (B i row out Hrow Wn Hout) in S. discriminate.
  - intros out Hin.
    pose proof frame_countable as C. rewrite Forall_forall in C.
    destruct (C out Hin) as [C1 [C2 [C3 C4]]]. clear C.
    unfold has_recommended_id, has_score, FuzzyMatch2.has_confidence in *.
    destruct (FuzzyMatch2.WA_Match_Confidence out) as [[| |]|];
      destruct (FuzzyMatch2.WA_Match_Score out);
      destruct (FuzzyMatch2.WA_Recommended out);
      destruct (FuzzyMatch2.WA_Recommended_ID out);
      destruct (FuzzyMatch2.is_perfect out);
      simpl in *; try discriminate; try lia;
      try (specialize (C2 eq_refl); discriminate);
      repeat split; intros; try congruence; try discriminate; auto;
      try (match goal with H : _ \/ _ |- _ => destruct H; discriminate end).
Qed.
End Script.

Lemma X9_witness :
  (exists frame,
      FuzzyMatch2.script exact_scorer sample_athletes pair_registry
      = Finished (Ok frame) /\
      nth_error frame 1 = Some FuzzyMatch2.blank /\
      exists out,
        FuzzyMatch2.resolve exact_scorer 0 hassan_ali pair_registry = Ok out /\
        nth_error frame 0 = Some out) /\
  FuzzyMatch2.script exact_scorer unnamed_athletes pair_registry = Nan_name 1.
Proof.
  split.
  - destruct (proj1 (X9_script_rows exact_scorer sample_athletes
                       pair_registry))
      as [frame [E [_ H]]].
    + intros [|[|i]] row Hrow W; simpl in Hrow;
        try (injection Hrow as <-); try discriminate.
      destruct i; discriminate.
    + exists frame. split; [exact E|]. split.
      * apply (proj1 (H 1%nat _ eq_refl)). discriminate.
      * destruct (proj2 (H 0%nat _ eq_refl) eq_refl)
          as [athlete [out [A [R N]]]].
        injection A as <-. exists out. split; [exact R | exact N].
  - apply (proj1 (proj2 (X9_script_rows exact_scorer unnamed_athletes
                           pair_registry))
             1%nat (mkAthleteRow (Some "ab") None (Some "2005-07-01") None)).
    + reflexivity.
    + reflexivity.
    + reflexivity.
    + intros [|j] row' Hj Hrow W; [|lia].
      simpl in Hrow. injection Hrow as <-. discriminate.
Defined.

Lemma X10_witness :
  exists frame,
    FuzzyMatch2.script exact_scorer sample_athletes pair_registry
    = Finished (Ok frame) /\
    FuzzyMatch2.Total_athletes
      (FuzzyMatch2.summary frame
         (List.length (athletes_without_wa sample_athletes))) = 2%nat.
Proof.
  destruct (X10_summary_counts exact_scorer sample_athletes pair_registry)
    as [frame [E [T _]]].
  - intros [|[|i]] row Hrow W; simpl in Hrow;
      try (injection Hrow as <-); try discriminate.
    destruct i; discriminate.
  - exists frame. split; [exact E | exact T].
Defined.

(** ** The loop and the summary of fuzzymatch_3.py *)

Lemma for_each_append {A B : Type} (g : A -> result B) (l : list A) :
  (forall x, In x l -> exists r, g x = Ok r) ->
  forall acc, exists rs,
    for_each (fun results x => r <- g x ;; Ok (results ++ [r])%list) l acc
    = Ok (acc ++ rs)%list /\
    Forall2 (fun x r => g x = Ok r) l rs.
Proof.
  induction l as [|x l IH]; intros H acc; simpl.
  - exists []. split; [now rewrite app_nil_r | constructor].
  - destruct (H x (or_introl eq_refl)) as [r E]. rewrite E. simpl.
    destruct (IH (fun y Hy => H y (or_intror Hy)) (acc ++ [r])%list)
      as [rs [E' F]].
    exists (r :: rs). rewrite E', <- app_assoc. split; [reflexivity|].
    now constructor.
Qed.

Lemma match_athlete_3_total (fw_scorer rf_scorer : string -> string -> Q)
      (rows : list WaRow) (idx : nat) (athlete : Athlete) :
  exists r,
    FuzzyMatch3.match_athlete fw_scorer rf_scorer idx athlete
      (wa_names_list rows) (wa_athletes_dict rows) = Ok r /\
    FuzzyMatch3.Athlete_Index r = idx /\
    FuzzyMatch3.Athlete_Name r = Full_Name athlete.
Proof.
  unfold FuzzyMatch3.match_athlete. rewrite !backend_strategies.
  destruct (strategy1_total fw_scorer rows athlete) as [a1 ->].
  destruct (strategy2_total fw_scorer (wa_athletes_dict rows) athlete)
    as [a2 ->].
  destruct (strategy1_total rf_scorer rows athlete) as [b1 ->].
  destruct (strategy2_total rf_scorer (wa_athletes_dict rows) athlete)
    as [b2 ->].
  simpl. eexists. repeat split.
Qed.

Lemma confidence_3_countable (row : FuzzyMatch3.ResultRow) :
  (Nat.b2n (FuzzyMatch3.has_confidence High row)
   + Nat.b2n (FuzzyMatch3.has_confidence Medium row)
   + Nat.b2n (FuzzyMatch3.has_confidence Low row)
   = Nat.b2n (has_overall row))%nat /\
  (FuzzyMatch3.is_perfect row = true ->
   FuzzyMatch3.has_confidence High row = true).
Proof.
  unfold FuzzyMatch3.has_confidence, FuzzyMatch3.Confidence_of, has_overall,
    FuzzyMatch3.is_perfect, FuzzyMatch3.get_confidence.
  destruct (FuzzyMatch3.Overall_Score row) as [s|];
    [|split; [reflexivity | discriminate]].
  destruct (Qge_bool s 90) eqn:G90; [|apply Qge_bool_false in G90];
    destruct (Qge_bool s 70) eqn:G70; simpl; split; auto.
  all: intro P; apply Qeq_bool_iff in P; lra.
Qed.

(** X11.  The matching loop of fuzzymatch_3.py, on the tables of the
    preparation loop and for athletes whose name cells are filled: it raises
    nothing and appends one element per athlete, matched or not, in the order
    of the athletes and with their index and name.  With no athlete the
    summary report raises [ValueError] before any count.  With at least one
    athlete [total_athletes] is the number of athletes processed, the High,
    Medium and Low counts add up to the number of rows that have an overall
    score, at most [total_athletes], and the perfect matches are counted
    among the High ones: a row whose overall score is 100 is High, and a row
    has a confidence exactly when it has an overall score. *)
Theorem X11_loop_and_summary_3 (fw_scorer rf_scorer : string -> string -> Q)
        (athletes : list (nat * Athlete)) (rows : list WaRow) :
  exists results,
    FuzzyMatch3.matching_loop fw_scorer rf_scorer athletes
      (wa_names_list rows) (wa_athletes_dict rows) = Ok results /\
    map FuzzyMatch3.Athlete_Index results = map fst athletes /\
    map FuzzyMatch3.Athlete_Name results
    = map (fun ia => Full_Name (snd ia)) athletes /\
    (athletes = [] ->
     FuzzyMatch3.summary results
     = inr FuzzyMatch3.Cannot_set_a_frame_with_no_defined_columns) /\
    (athletes <> [] ->
     exists sm,
       FuzzyMatch3.summary results = inl sm /\
       FuzzyMatch3.total_athletes sm = List.length athletes /\
       (FuzzyMatch3.high_count sm + FuzzyMatch3.medium_count sm
        + FuzzyMatch3.low_count sm
        = List.length (filter has_overall results))%nat /\
       (FuzzyMatch3.high_count sm + FuzzyMatch3.medium_count sm
        + FuzzyMatch3.low_count sm <= FuzzyMatch3.total_athletes sm)%nat /\
       (FuzzyMatch3.perfect_count sm <= FuzzyMatch3.high_count sm)%nat) /\
    (forall row, In row results ->
       (FuzzyMatch3.is_perfect row = true ->
        FuzzyMatch3.Confidence_of row = Some High) /\
       (has_overall row = true <-> FuzzyMatch3.Confidence_of row <> None)).
Proof.
  unfold FuzzyMatch3.matching_loop.
  assert (T : forall x : nat * Athlete, In x athletes ->
                exists r, FuzzyMatch3.match_athlete fw_scorer rf_scorer
                            (fst x) (snd x) (wa_names_list rows)
                            (wa_athletes_dict rows) = Ok r).
  { intros x _.
    destruct (match_athlete_3_total fw_scorer rf_scorer rows (fst x) (snd x))
      as [r [Er _]]. eauto. }
  destruct (for_each_append _ athletes T (@nil FuzzyMatch3.ResultRow))
    as [results [E F]].
  exists results. split; [exact E|].
  assert (M : map FuzzyMatch3.Athlete_Index results = map fst athletes /\
              map FuzzyMatch3.Athlete_Name results
              = map (fun ia => Full_Name (snd ia)) athletes).
  { clear E T. induction F as [|x r l rs Er F IH]; [split; reflexivity|].
    destruct (match_athlete_3_total fw_scorer rf_scorer rows (fst x) (snd x))
      as [r' [Er' [Ei En]]].
    assert (Err : r' = r) by congruence. subst r'.
    destruct IH as [I1 I2]. simpl. now rewrite Ei, En, I1, I2. }
  destruct M as [M1 M2]. split; [exact M1|]. split; [exact M2|].
  assert (L : List.length results = List.length athletes)
    by (rewrite <- (length_map FuzzyMatch3.Athlete_Index), M1;
        apply length_map).
  assert (K : (List.length (filter (FuzzyMatch3.has_confidence High) results)
               + List.length (filter (FuzzyMatch3.has_confidence Medium) results)
               + List.length (filter (FuzzyMatch3.has_confidence Low) results)
               = List.length (filter has_overall results))%nat /\
              (List.length (filter FuzzyMatch3.is_perfect results)
               <= List.length (filter (FuzzyMatch3.has_confidence High)
                                 results))%nat).
  { clear. induction results as [|r rs [I1 I2]]; [split; reflexivity|].
    destruct (confidence_3_countable r) as [C1 C2]. simpl.
    destruct (FuzzyMatch3.is_perfect r); [rewrite (C2 eq_refl) in *|];
      destruct (FuzzyMatch3.has_confidence High r),
        (FuzzyMatch3.has_confidence Medium r),
        (FuzzyMatch3.has_confidence Low r), (has_overall r);
      simpl in *; split; lia. }
  destruct K as [K1 K2].
  split; [|split].
  - intros ->. destruct results; [reflexivity | discriminate].
  - intro N. destruct results as [|r0 rs] eqn:R.
    + destruct athletes; [contradiction | discriminate].
    + eexists. split; [reflexivity|]. rewrite <- R in *. simpl.
      rewrite L, K1. repeat split; auto.
      rewrite <- L. apply filter_length_le.
  - intros row _. destruct (confidence_3_countable row) as [C1 C2].
    unfold FuzzyMatch3.has_confidence in *.
    destruct (FuzzyMatch3.Confidence_of row) as [[| |]|],
      (has_overall row), (FuzzyMatch3.is_perfect row);
      simpl in *; try lia; try (specialize (C2 eq_refl); discriminate);
      repeat split; intros; congruence.
Qed.

Lemma X11_witness :
  FuzzyMatch3.summary (@nil FuzzyMatch3.ResultRow)
  = inr FuzzyMatch3.Cannot_set_a_frame_with_no_defined_columns.
Proof.
  destruct (X11_loop_and_summary_3 exact_scorer exact_scorer [] pair_registry)
    as [results [E [_ [_ [H _]]]]].
  injection E as <-. apply H. reflexivity.
Defined.

(** ** The overall score of fuzzymatch_3.py *)

(** X12.  In fuzzymatch_3.py the overall score of a row is missing exactly
    when neither backend has a score; otherwise it lies between the backend
    scores that exist.  Hence the confidence of a row is High only if one
    backend's score is at least 90, and Low only if one backend's score is
    below 70. *)
Theorem X12_overall_between_backends (row : FuzzyMatch3.ResultRow) :
  (FuzzyMatch3.Overall_Score row = None <->
   FuzzyMatch3.FW_Overall_Score row = None /\
   FuzzyMatch3.RF_Overall_Score row = None) /\
  (forall s, FuzzyMatch3.Overall_Score row = Some s ->
             (exists a, (FuzzyMatch3.FW_Overall_Score row = Some a \/
                         FuzzyMatch3.RF_Overall_Score row = Some a) /\
                        a <= s) /\
             (exists b, (FuzzyMatch3.FW_Overall_Score row = Some b \/
                         FuzzyMatch3.RF_Overall_Score row = Some b) /\
                        s <= b)) /\
  (FuzzyMatch3.Confidence_of row = Some High ->
   exists b, (FuzzyMatch3.FW_Overall_Score row = Some b \/
              FuzzyMatch3.RF_Overall_Score row = Some b) /\ 90 <= b) /\
  (FuzzyMatch3.Confidence_of row = Some Low ->
   exists a, (FuzzyMatch3.FW_Overall_Score row = Some a \/
              FuzzyMatch3.RF_Overall_Score row = Some a) /\ a < 70).
Proof.
  assert (B : forall s, FuzzyMatch3.Overall_Score row = Some s ->
             (exists a, (FuzzyMatch3.FW_Overall_Score row = Some a \/
                         FuzzyMatch3.RF_Overall_Score row = Some a) /\
                        a <= s) /\
             (exists b, (FuzzyMatch3.FW_Overall_Score row = Some b \/
                         FuzzyMatch3.RF_Overall_Score row = Some b) /\
                        s <= b)).
  { unfold FuzzyMatch3.Overall_Score, FuzzyMatch3.avg_score.
    destruct (FuzzyMatch3.FW_Overall_Score row) as [a|],
      (FuzzyMatch3.RF_Overall_Score row) as [b|]; simpl;
      intros s [= <-].
    - pose proof (mean_two a b) as E. rewrite Qhalf in E.
      destruct (Qlt_le_dec a b).
      + split; [exists a | exists b]; split; auto; lra.
      + split; [exists b | exists a]; split; auto; lra.
    - pose proof (mean_one a) as E. split; exists a; split; auto; lra.
    - pose proof (mean_one b) as E. split; exists b; split; auto; lra. }
  split; [|split; [exact B|]].
  - unfold FuzzyMatch3.Overall_Score, FuzzyMatch3.avg_score.
    destruct (FuzzyMatch3.FW_Overall_Score row) as [a|],
      (FuzzyMatch3.RF_Overall_Score row) as [b|]; simpl;
      split; try discriminate; try tauto; intros [? ?]; discriminate.
  - unfold FuzzyMatch3.Confidence_of, FuzzyMatch3.get_confidence.
    destruct (FuzzyMatch3.Overall_Score row) as [s|] eqn:E;
      [|split; discriminate].
    destruct (B s eq_refl) as [[a [Ha La]] [b [Hb Lb]]].
    destruct (Qge_bool s 90) eqn:G90;
      [apply Qge_bool_true in G90 | apply Qge_bool_false in G90];
      destruct (Qge_bool s 70) eqn:G70;
      [apply Qge_bool_true in G70 | apply Qge_bool_false in G70
       | apply Qge_bool_true in G70 | apply Qge_bool_false in G70];
      split; try discriminate; intros _.
    + exists b. split; [exact Hb | lra].
    + exists b. split; [exact Hb | lra].
    + exists a. split; [exact Ha | lra].
Qed.

Lemma X12_witness :
  exists b,
    (FuzzyMatch3.FW_Overall_Score disagreeing_backends = Some b \/
     FuzzyMatch3.RF_Overall_Score disagreeing_backends = Some b) /\ 90 <= b.
Proof.
  apply (proj1 (proj2 (proj2 (X12_overall_between_backends
                                disagreeing_backends)))).
  vm_compute. reflexivity.
Defined.

(** ** The birth date-first loop does not change the first pick *)

(** Where the match that a loop keeps stands among the candidates: the
    candidates before it score less, those after it no more. *)
Lemma keep_best_first (cs : list Match) :
  forall (st : option Match * Q) (m : Match),
    coherent st ->
    fst (keep_best cs st) = Some m ->
    (fst st = Some m /\
     forall c, In c cs -> Combined_Match_Score c <= snd st) \/
    exists l1 l2,
      cs = (l1 ++ m :: l2)%list /\
      snd st < Combined_Match_Score m /\
      (forall c, In c l1 -> Combined_Match_Score c < Combined_Match_Score m) /\
      (forall c, In c l2 -> Combined_Match_Score c <= Combined_Match_Score m).
Proof.
  induction cs as [|c cs IH]; intros st m C H; simpl in H.
  - left. split; [exact H | intros c []].
  - pose proof (keep_step_coherent st c C) as C'.
    destruct (IH _ _ C' H) as [[E A] | [l1 [l2 [E [S [A1 A2]]]]]];
      unfold keep_step in *;
      destruct (Qgt_bool (Combined_Match_Score c) (snd st)) eqn:G;
      [apply Qgt_bool_true in G | apply Qgt_bool_false in G
       | apply Qgt_bool_true in G | apply Qgt_bool_false in G]; simpl in *.
    + injection E as ->. right. exists [], cs. repeat split; auto.
      intros c' [].
    + left. split; [exact E|]. intros c' [<- | Hc]; auto.
    + right. exists (c :: l1), l2. rewrite E. repeat split; auto.
      * lra.
      * intros c' [<- | Hc]; auto.
    + right. exists (c :: l1), l2. rewrite E. repeat split; auto.
      intros c' [<- | Hc]; [lra | auto].
Qed.

(** X14.  The match returned by the birth date-first function is built from
    the first entry that [process.extract] returns for the pool: the combined
    score grows with the name score, the entries come in decreasing order of
    name score, and the strict comparison keeps the first.  Its name score is
    the greatest of the pool. *)
Theorem X14_birth_first_is_first_entry (scorer : string -> string -> Q)
        (d : PyDict.t WaData) (name : string) (bd : pyvalue) (m : Match) :
  FuzzyMatch2.find_best_match_birth_first scorer bd name d = Ok (Some m) ->
  (exists rest,
      extract scorer name (PyDict.keys (FuzzyMatch2.candidates_of bd d)) 5
      = (Matched_Name m, Name_Match_Score m) :: rest) /\
  forall n, In n (PyDict.keys (FuzzyMatch2.candidates_of bd d)) ->
            scorer name n <= Name_Match_Score m.
Proof.
  set (cand := FuzzyMatch2.candidates_of bd d).
  destruct (birth_first_keep scorer d name bd) as [cs [F ->]].
  fold cand in F. intros [= H].
  destruct (keep_best_first cs (None, 0) m eq_refl H)
    as [[E _] | [l1 [l2 [E [_ [A1 _]]]]]]; [discriminate|].
  unfold candidates_for in F. rewrite E in F.
  destruct (extract scorer name (PyDict.keys cand) 5) as [|h t] eqn:X.
  { apply Forall2_length in F. rewrite length_app in F. simpl in F. lia. }
  assert (Hne : PyDict.keys cand <> []).
  { intro N. rewrite N, extract_nil in X. discriminate. }
  destruct (extract_head scorer name (PyDict.keys cand) 4 Hne)
    as [h' [t' [X' Hmax]]].
  rewrite X in X'. injection X' as <- <-.
  assert (Hall : forall x, In x (h :: t) -> snd x <= snd h).
  { intros x Hx. rewrite <- X in Hx. apply extract_In in Hx.
    destruct Hx as [Hx1 ->]. now apply Hmax. }
  destruct l1 as [|c0 l1].
  - simpl in F. apply Forall2_cons_iff in F.
    destruct F as [[data [G Ec]] F'].
    assert (Ex : h = (Matched_Name m, Name_Match_Score m))
      by (rewrite Ec; destruct h; reflexivity).
    split; [exists t; now rewrite Ex|].
    intros n Hn. specialize (Hmax n Hn). rewrite Ex in Hmax. exact Hmax.
  - exfalso. simpl in F. apply Forall2_cons_iff in F.
    destruct F as [[data [G Ec]] F'].
    assert (Hm : In m (l1 ++ m :: l2)) by (apply in_elt).
    destruct (candidates_for_In _ _ _ _ _ F' Hm) as [y [data' [Hy [_ Em]]]].
    specialize (A1 _ (or_introl eq_refl)).
    specialize (Hall y (or_intror Hy)).
    rewrite Ec, Em in A1. unfold birth_first_candidate in A1. simpl in A1.
    lra.
Qed.

Lemma X14_witness :
  exists rest,
    extract exact_scorer "ab cd"
      (PyDict.keys (FuzzyMatch2.candidates_of (Some "1998-03-02")
                      (wa_athletes_dict xyz_registry))) 5
    = (Matched_Name xyz_match, Name_Match_Score xyz_match) :: rest.
Proof.
  apply (X14_birth_first_is_first_entry exact_scorer
           (wa_athletes_dict xyz_registry) "ab cd" (Some "1998-03-02")
           xyz_match).
  vm_compute. reflexivity.
Defined.

(** ** fuzzy_match.py: a birth date that differs *)

(** X16.  In fuzzy_match.py, on the tables of the preparation loop and with
    a backend whose scores are in [0, 100]: when the athlete and the matched
    record both have a birth date and the two differ, the row of the athlete
    is never High and has no recommended id, its score is at most 70, and
    [WA_Recommended] is true only when the name score is 100. *)
Theorem X16_differing_dates (scorer : string -> string -> Q)
        (rows : list WaRow) (name : string) (bd : pyvalue) (m : Match) :
  (forall a b, 0 <= scorer a b <= 100) ->
  FuzzyMatch.find_best_match scorer name bd
    (wa_names_list rows) (wa_athletes_dict rows) = Ok (Some m) ->
  truthy bd = true -> truthy (Matched_Birth_Date m) = true ->
  bd <> Matched_Birth_Date m ->
  let row := FuzzyMatch.final_row m in
  (exists s, FuzzyMatch.WA_Match_Score row = Some s /\ s <= 70) /\
  FuzzyMatch.WA_Match_Confidence row <> Some High /\
  FuzzyMatch.WA_Recommended_ID row = None /\
  (FuzzyMatch.WA_Recommended row = true <-> Name_Match_Score m == 100).
Proof.
  intros R H T T' N. rewrite find_best_match_name_first_1 in H.
  apply name_first_returns in H. destruct H as [data [_ [_ [E _]]]].
  pose proof (R name (Matched_Name m)) as Hr.
  assert (C : Combined_Match_Score m == 0.7 * Name_Match_Score m /\
              Name_Match_Score m <= 100).
  { rewrite E in T', N |- *. unfold name_first_candidate in *. simpl in *.
    rewrite T, T'. simpl.
    destruct (py_eqb bd (wd_birthDate data)) eqn:P.
    - apply py_eqb_Value in P. contradiction.
    - split; lra. }
  destruct C as [C1 C2].
  unfold FuzzyMatch.final_row, FuzzyMatch.write_recommended_id,
    FuzzyMatch.high_mask, FuzzyMatch.write_match. simpl.
  destruct (Qge_bool (Combined_Match_Score m) 90) eqn:G90;
    [apply Qge_bool_true in G90; lra | apply Qge_bool_false in G90].
  destruct (Qge_bool (Combined_Match_Score m) 70) eqn:G70;
    [apply Qge_bool_true in G70 | apply Qge_bool_false in G70]; simpl.
  - repeat split; try discriminate.
    + eexists. split; [reflexivity | lra].
    + intros _. lra.
  - repeat split; try discriminate.
    + eexists. split; [reflexivity | lra].
    + intro H. lra.
Qed.

Lemma X16_witness :
  FuzzyMatch.WA_Match_Confidence (FuzzyMatch.final_row duplicate_match)
  <> Some High /\
  FuzzyMatch.WA_Recommended_ID (FuzzyMatch.final_row duplicate_match) = None.
Proof.
  destruct (X16_differing_dates exact_scorer sample_registry "Ali Hassan"
              (Some "2000-01-05") duplicate_match exact_scorer_range)
    as [_ [H1 [H2 _]]].
  - vm_compute. reflexivity.
  - reflexivity.
  - reflexivity.
  - discriminate.
  - split; [exact H1 | exact H2].
Defined.

(** ** The choice between the two name formats *)

(** X13.  The name-first approach of an athlete returns the better of the
    matches of the two name formats, the match of the first format when both
    have the same combined score, and nothing only when neither format gives
    a match; a [KeyError] of the first format is the error of the
    approach. *)
Theorem X13_better_format (scorer : string -> string -> Q) (athlete : Athlete)
        (names : list string) (d : PyDict.t WaData) :
  (forall a b,
      FuzzyMatch2.find_best_match_name_first scorer (Full_Name athlete)
        (Birth_date_str athlete) names d = Ok a ->
      FuzzyMatch2.find_best_match_name_first scorer
        (Full_Name_Reversed athlete) (Birth_date_str athlete) names d = Ok b ->
      exists r,
        FuzzyMatch2.strategy1 scorer athlete names d = Ok r /\
        (r = a \/ r = b) /\
        (r = None <-> a = None /\ b = None) /\
        (forall m, a = Some m \/ b = Some m ->
                   exists m', r = Some m' /\
                              Combined_Match_Score m
                              <= Combined_Match_Score m') /\
        (forall ma mb, a = Some ma -> b = Some mb ->
                       Combined_Match_Score mb <= Combined_Match_Score ma ->
                       r = a)) /\
  (forall k,
      FuzzyMatch2.find_best_match_name_first scorer (Full_Name athlete)
        (Birth_date_str athlete) names d = KeyError k ->
      FuzzyMatch2.strategy1 scorer athlete names d = KeyError k).
Proof.
  split.
  - intros a b Ea Eb. exists (FuzzyMatch2.best_of_formats a b).
    unfold FuzzyMatch2.strategy1. rewrite Ea, Eb. simpl.
    split; [reflexivity|].
    split; [apply best_of_formats_cases|].
    split; [apply best_of_formats_None|].
    split; [apply best_of_formats_max|].
    intros ma mb -> -> H. simpl.
    apply Qge_bool_true in H. now rewrite H.
  - intros k E. unfold FuzzyMatch2.strategy1. now rewrite E.
Qed.

Lemma X13_witness :
  FuzzyMatch2.strategy1 exact_scorer hassan_ali ["Xyz"] [] = KeyError "Xyz" /\
  exists r,
    FuzzyMatch2.strategy1 exact_scorer hassan_ali
      (wa_names_list pair_registry) (wa_athletes_dict pair_registry) = Ok r /\
    (r = Some hassan_ali_match_0 \/ r = Some hassan_ali_match).
Proof.
  split.
  - apply (proj2 (X13_better_format exact_scorer hassan_ali ["Xyz"] [])).
    vm_compute. reflexivity.
  - destruct (proj1 (X13_better_format exact_scorer hassan_ali
                       (wa_names_list pair_registry)
                       (wa_athletes_dict pair_registry))
                (Some hassan_ali_match_0) (Some hassan_ali_match))
      as [r [E [H _]]].
    + vm_compute. reflexivity.
    + vm_compute. reflexivity.
    + exists r. split; assumption.
Defined.

(** ** A birth date that no record has *)

(** X15.  In fuzzy_match2.py, with a backend whose scores are in [0, 100]:
    when every reference record has a birth date and none has the athlete's,
    which is present, the birth date-first approach finds nothing, the overall
    score is the score of the name-first approach and is at most 70; the row
    of the athlete is never High and has no recommended id. *)
Theorem X15_unmatched_birth_date (scorer : string -> string -> Q)
        (rows : list WaRow) (idx : nat) (athlete : Athlete)
        (r : FuzzyMatch2.ResultRow) :
  (forall a b, 0 <= scorer a b <= 100) ->
  truthy (Birth_date_str athlete) = true ->
  (forall row, In row rows ->
               truthy (birthDate row) = true /\
               Birth_date_str athlete <> birthDate row) ->
  FuzzyMatch2.match_athlete scorer idx athlete
    (wa_names_list rows) (wa_athletes_dict rows) = Ok (Some r) ->
  FuzzyMatch2.A2_Matched_ID r = None /\
  FuzzyMatch2.A2_Match_Score r = None /\
  (exists s, FuzzyMatch2.Overall_Match_Score r = Some s /\
             FuzzyMatch2.A1_Match_Score r = Some s /\ s <= 70) /\
  FuzzyMatch2.WA_Match_Confidence (FuzzyMatch2.final_row r) <> Some High /\
  FuzzyMatch2.WA_Recommended_ID (FuzzyMatch2.final_row r) = None.
Proof.
  intros R T U.
  assert (C0 : FuzzyMatch2.candidates_of (Birth_date_str athlete)
                 (wa_athletes_dict rows) = [])
    by (apply candidates_of_unmatched; [exact T | intros; now apply U]).
  assert (S2 : FuzzyMatch2.strategy2 scorer athlete (wa_athletes_dict rows)
               = Ok None).
  { unfold FuzzyMatch2.strategy2, FuzzyMatch2.find_best_match_birth_first.
    now rewrite C0. }
  unfold FuzzyMatch2.match_athlete. rewrite S2.
  destruct (FuzzyMatch2.strategy1 scorer athlete (wa_names_list rows)
              (wa_athletes_dict rows)) as [[m1|]|k] eqn:S1; simpl;
    try discriminate.
  intros [= <-]. simpl.
  destruct (strategy1_match _ _ _ _ _ S1) as [q Hq].
  apply name_first_returns in Hq. destruct Hq as [data [G [_ [E _]]]].
  pose proof (R q (Matched_Name m1)) as Hr.
  rewrite wa_athletes_dict_get in G.
  destruct (last_named (Matched_Name m1) rows) as [row|] eqn:L;
    [|discriminate].
  injection G as <-. apply last_named_Name in L. destruct L as [_ Hin].
  destruct (U row Hin) as [Tr Nr].
  assert (C : Combined_Match_Score m1 <= 70).
  { rewrite E. unfold name_first_candidate. simpl. rewrite T, Tr. simpl.
    destruct (py_eqb (Birth_date_str athlete) (birthDate row)) eqn:P;
      [apply py_eqb_Value in P; contradiction | lra]. }
  split; [reflexivity|]. split; [reflexivity|].
  split; [eexists; repeat split; exact C|].
  unfold FuzzyMatch2.final_row, FuzzyMatch2.write_recommended_id,
    FuzzyMatch2.high_mask, FuzzyMatch2.write_match. simpl.
  destruct (Qge_bool (Combined_Match_Score m1) 90) eqn:G90;
    [apply Qge_bool_true in G90; lra|].
  destruct (Qge_bool (Combined_Match_Score m1) 70); simpl;
    split; (discriminate || reflexivity).
Qed.

Lemma X15_witness :
  FuzzyMatch2.A2_Matched_ID ali_hassan_2005_result = None /\
  FuzzyMatch2.WA_Recommended_ID (FuzzyMatch2.final_row ali_hassan_2005_result)
  = None.
Proof.
  destruct (X15_unmatched_birth_date exact_scorer pair_registry 0%nat
              ali_hassan_2005 ali_hassan_2005_result exact_scorer_range)
    as [H1 [_ [_ [_ H2]]]].
  - reflexivity.
  - intros row Hin. simpl in Hin.
    destruct Hin as [<- | [<- | []]]; split; (reflexivity || discriminate).
  - vm_compute. reflexivity.
  - split; [exact H1 | exact H2].
Defined.
